(** * Well-log analysis: LAS parsing, formation classification, cross-plots

    A shallow embedding of the Python sources [src/crossplots.py] and
    [src/visualization.py] of the well-log-analysis repository (and of the
    normalisation of [src/data_processing.py] and [src/utils.py]), and the
    properties of the specification proved (or refuted) on it.

    Python values are modelled as follows.
    - [str]: [string]; one [ascii] is one code point below 256.
    - [float] (and the cells of a pandas frame): IEEE-754 binary64, as the
      Standard Library's [spec_float] at precision 53 and maximal exponent
      1024, with its arithmetic and comparisons.
    - [int] indices: [Z]; [None] is [None] of an [option].
    - exceptions: the [Raise] branch of [result].
    - a [dict] of formation tops: an association list in insertion order. *)

From Corelib Require Import SpecFloat PrimFloat FloatOps.
From Stdlib Require Import ZArith NArith List String Ascii Bool Lia.
From Stdlib Require Import Permutation Sorted.
Import ListNotations.

Local Open Scope string_scope.
Local Open Scope list_scope.

(** ** Exceptions and results *)

(** The exceptions the modelled code can raise.  Each constructor stands
    for the Python exception of that type; its argument is what the message
    is built from. *)
Inductive exn : Type :=
| TypeError (operator : string)
    (* unsupported operand type(s) for <operator>: 'NoneType' and 'int' *)
| ValueError_float (token : string)
    (* could not convert string to float: <repr of token> *)
| ValueError_columns (passed had : nat)
    (* <passed> columns passed, passed data had <had> columns *)
| KeyError (key : string)
| IndexError.

Inductive result (A : Type) : Type :=
| Ok (a : A)
| Raise (e : exn).

Arguments Ok {A} a.
Arguments Raise {A} e.

Definition bind {A B : Type} (r : result A) (k : A -> result B) : result B :=
  match r with
  | Ok a => k a
  | Raise e => Raise e
  end.

Notation "x <- r ;; k" := (bind r (fun x => k))
  (at level 61, r at next level, right associativity).

(** [[f(x) for x in l]] for an [f] that may raise: the first failure wins. *)
Fixpoint mapM {A B : Type} (f : A -> result B) (l : list A) : result (list B) :=
  match l with
  | [] => Ok []
  | x :: l' => y <- f x ;; ys <- mapM f l' ;; Ok (y :: ys)
  end.

(** ** Binary64 floats *)

Module F.

Definition prec : Z := 53.
Definition emax : Z := 1024.

Definition float : Type := spec_float.

Definition nan : float := S754_nan.
Definition zero : float := S754_zero false.
Definition one : float := S754_finite false 4503599627370496 (-52).

Definition sub : float -> float -> float := SFsub prec emax.
Definition add : float -> float -> float := SFadd prec emax.
Definition mul : float -> float -> float := SFmul prec emax.
Definition div : float -> float -> float := SFdiv prec emax.

(** Python's [==], [!=], [<], [<=], [>=] on floats. *)
Definition eqb : float -> float -> bool := SFeqb.
Definition neb (x y : float) : bool := negb (SFeqb x y).
Definition ltb : float -> float -> bool := SFltb.
Definition leb : float -> float -> bool := SFleb.
Definition geb (x y : float) : bool := SFleb y x.

Definition is_nan (x : float) : bool :=
  match x with
  | S754_nan => true
  | _ => false
  end.

(** The binary64 nearest (ties to even) to [(-1)^neg * m * 10^e]: what
    Python's correctly rounded string-to-float conversion returns for a
    decimal literal with digits [m] and decimal exponent [e]. *)
Definition of_decimal (neg : bool) (m : N) (e : Z) : float :=
  match m with
  | N0 => S754_zero neg
  | Npos p =>
      if (0 <=? e)%Z
      then binary_round prec emax neg (p * Z.to_pos (10 ^ e)) 0
      else
        let '(q, e', l) :=
          SFdiv_core_binary prec emax (Zpos p) 0 (10 ^ (- e)) 0 in
        binary_round_aux prec emax neg q e' l
  end.

(** An [int] used where a float is expected. *)
Definition of_Z (n : Z) : float :=
  binary_normalize prec emax n 0 false.

End F.

Abbreviation float := F.float.

(** ** Python strings *)

Module Str.

(** [str.isspace] on one code point below 256: TAB..CR, FS..US, SPACE,
    NEL and NBSP. *)
Definition isspace (c : ascii) : bool :=
  let n := N_of_ascii c in
  ((9 <=? n) && (n <=? 13) || (28 <=? n) && (n <=? 32)
   || (n =? 133) || (n =? 160))%N.

Fixpoint lstrip (s : string) : string :=
  match s with
  | EmptyString => EmptyString
  | String c s' => if isspace c then lstrip s' else s
  end.

Fixpoint rstrip (s : string) : string :=
  match s with
  | EmptyString => EmptyString
  | String c s' =>
      match rstrip s' with
      | EmptyString => if isspace c then EmptyString else String c EmptyString
      | r => String c r
      end
  end.

(** [s.strip()] *)
Definition strip (s : string) : string := rstrip (lstrip s).

(** [s.startswith(p)] *)
Fixpoint startswith (s p : string) : bool :=
  match p with
  | EmptyString => true
  | String a p' =>
      match s with
      | EmptyString => false
      | String b s' => Ascii.eqb a b && startswith s' p'
      end
  end.

(** The truth value of a string: [bool(s)]. *)
Definition truthy (s : string) : bool :=
  match s with
  | EmptyString => false
  | String _ _ => true
  end.

(** [s.split()]: the maximal runs of non-whitespace characters.  [tok] is
    the run being read. *)
Fixpoint split_from (tok s : string) : list string :=
  match s with
  | EmptyString => if truthy tok then [tok] else []
  | String c s' =>
      if isspace c
      then (if truthy tok then tok :: split_from EmptyString s'
            else split_from EmptyString s')
      else split_from (tok ++ String c EmptyString) s'
  end.

Definition split (s : string) : list string := split_from EmptyString s.

(** [s.split(sep)] for a one-character separator: never empty. *)
Fixpoint split_sep_from (sep : ascii) (tok s : string) : list string :=
  match s with
  | EmptyString => [tok]
  | String c s' =>
      if Ascii.eqb c sep
      then tok :: split_sep_from sep EmptyString s'
      else split_sep_from sep (tok ++ String c EmptyString) s'
  end.

Definition split_sep (s : string) (sep : ascii) : list string :=
  split_sep_from sep EmptyString s.

End Str.

(** ** Python's [float(str)] *)

Module PyFloat.

Definition is_digit (c : ascii) : bool :=
  let n := N_of_ascii c in ((48 <=? n) && (n <=? 57))%N.

Definition digit_value (c : ascii) : N := (N_of_ascii c - 48)%N.

Definition lower (c : ascii) : ascii :=
  let n := N_of_ascii c in
  if ((65 <=? n) && (n <=? 90))%N then ascii_of_N (n + 32) else c.

(** Underscores may only stand between two digits; they are dropped.
    [prev] is the previous character of the input. *)
Fixpoint drop_underscores (prev : option ascii) (s : list ascii)
  : option (list ascii) :=
  let prev_digit := match prev with Some p => is_digit p | None => false end in
  let prev_underscore :=
    match prev with Some p => Ascii.eqb p "_" | None => false end in
  match s with
  | [] => if prev_underscore then None else Some []
  | c :: s' =>
      if Ascii.eqb c "_"
      then (if prev_digit then drop_underscores (Some c) s' else None)
      else if prev_underscore && negb (is_digit c) then None
      else option_map (cons c) (drop_underscores (Some c) s')
  end.

Definition sign (s : list ascii) : bool * list ascii :=
  match s with
  | c :: s' =>
      if Ascii.eqb c "-" then (true, s')
      else if Ascii.eqb c "+" then (false, s')
      else (false, s)
  | [] => (false, s)
  end.

Fixpoint span_digits (s : list ascii) : list ascii * list ascii :=
  match s with
  | c :: s' =>
      if is_digit c
      then let '(ds, rest) := span_digits s' in (c :: ds, rest)
      else ([], s)
  | [] => ([], [])
  end.

Definition digits_value (ds : list ascii) : N :=
  fold_left (fun a c => (10 * a + digit_value c)%N) ds 0%N.

(** The exponent part, which must reach the end of the literal. *)
Definition exponent (s : list ascii) : option Z :=
  match s with
  | [] => Some 0%Z
  | c :: s' =>
      if Ascii.eqb (lower c) "e"
      then
        let '(neg, s'') := sign s' in
        match span_digits s'' with
        | ((_ :: _) as ds, []) =>
            let v := Z.of_N (digits_value ds) in
            Some (if neg then (- v)%Z else v)
        | _ => None
        end
      else None
  end.

(** digits [. digits] [exponent], with a digit before or after the point *)
Definition number (neg : bool) (s : list ascii) : option float :=
  let '(int_part, s1) := span_digits s in
  let '(frac_part, s2) :=
    match s1 with
    | c :: s1' => if Ascii.eqb c "." then span_digits s1' else ([], s1)
    | [] => ([], s1)
    end in
  match int_part ++ frac_part with
  | [] => None
  | ds =>
      match exponent s2 with
      | Some e =>
          Some (F.of_decimal neg (digits_value ds)
                  (e - Z.of_nat (List.length frac_part)))
      | None => None
      end
  end.

Definition inf_or_nan (neg : bool) (s : list ascii) : option float :=
  let w := string_of_list_ascii (map lower s) in
  if String.eqb w "inf" || String.eqb w "infinity"
  then Some (S754_infinity neg)
  else if String.eqb w "nan" then Some S754_nan
  else None.

(** [float(s)]: [None] when Python raises [ValueError]. *)
Definition parse (s : string) : option float :=
  match drop_underscores None (list_ascii_of_string (Str.strip s)) with
  | None => None
  | Some cs =>
      let '(neg, body) := sign cs in
      match number neg body with
      | Some x => Some x
      | None => inf_or_nan neg body
      end
  end.

(** [float(s)] with its exception. *)
Definition float (s : string) : result F.float :=
  match parse s with
  | Some x => Ok x
  | None => Raise (ValueError_float s)
  end.

(** A float literal of the Python source. *)
Definition lit (s : string) : F.float :=
  match parse s with
  | Some x => x
  | None => F.nan
  end.

End PyFloat.

(** ** Python lists: slices and indexing *)

Module PyList.

(** How a slice bound [i] is read against a list of length [len]: a
    negative bound counts from the end, and both are clamped. *)
Definition slice_bound (len i : Z) : Z :=
  if (i <? 0)%Z then Z.max 0 (i + len) else Z.min i len.

(** [l[start:stop]] *)
Definition slice {A : Type} (l : list A) (start stop : Z) : list A :=
  let len := Z.of_nat (List.length l) in
  let a := slice_bound len start in
  let b := slice_bound len stop in
  firstn (Z.to_nat (b - a)) (skipn (Z.to_nat a) l).

(** [l[start:]]; a [None] start is the beginning. *)
Definition slice_from {A : Type} (l : list A) (start : option Z) : list A :=
  match start with
  | None => l
  | Some i => skipn (Z.to_nat (slice_bound (Z.of_nat (List.length l)) i)) l
  end.

(** [l[i]] for a non-negative [i]. *)
Definition get {A : Type} (l : list A) (i : nat) : result A :=
  match nth_error l i with
  | Some x => Ok x
  | None => Raise IndexError
  end.

(** [enumerate(l)], counting from [i]. *)
Fixpoint enumerate_from {A : Type} (i : nat) (l : list A) : list (nat * A) :=
  match l with
  | [] => []
  | x :: l' => (i, x) :: enumerate_from (S i) l'
  end.

Definition enumerate {A : Type} (l : list A) : list (nat * A) :=
  enumerate_from 0 l.

(** [curve_start + 1] and [ascii_start - 1] on a value that may be
    [None]. *)
Definition add_int (x : option Z) (n : Z) : result Z :=
  match x with
  | Some i => Ok (i + n)%Z
  | None => Raise (TypeError "+")
  end.

Definition sub_int (x : option Z) (n : Z) : result Z :=
  match x with
  | Some i => Ok (i - n)%Z
  | None => Raise (TypeError "-")
  end.

End PyList.

(** ** pandas frames *)

Module Pandas.

(** A frame: its column labels (duplicates allowed) and its rows, each
    with one cell per column.  The row index is never read by the code and
    is left out. *)
Record DataFrame : Type := {
  columns : list string;
  rows : list (list float)
}.

Definition width (data : list (list float)) : nat :=
  fold_right Nat.max 0 (map (@List.length float) data).

Definition pad (w : nat) (row : list float) : list float :=
  row ++ repeat F.nan (w - List.length row).

(** [pd.DataFrame(data, columns=columns)] for a list of lists of floats.
    The constructor lays the rows out in an array as wide as the longest
    row, the cells a shorter row lacks being NaN, and raises [ValueError]
    when that width is not the number of labels; with no row at all the
    frame is empty and has the labels it was given. *)
Definition new (data : list (list float)) (columns : list string)
  : result DataFrame :=
  match data with
  | [] => Ok {| columns := columns; rows := [] |}
  | _ :: _ =>
      let w := width data in
      if Nat.eqb (List.length columns) w
      then Ok {| columns := columns; rows := map (pad w) data |}
      else Raise (ValueError_columns (List.length columns) w)
  end.

(** The position of the first column labelled [c]. *)
Fixpoint position (c : string) (cols : list string) : option nat :=
  match cols with
  | [] => None
  | c' :: cols' =>
      if String.eqb c' c then Some 0
      else option_map S (position c cols')
  end.

(** [df[c]] for a label that names one column: the column as a list, or
    [KeyError] when no column has the label.  (For a label carried by
    several columns pandas returns a frame; the theorems below that depend
    on what a column holds ask for the label to occur once.) *)
Definition getitem (df : DataFrame) (c : string) : result (list float) :=
  match position c (columns df) with
  | Some j => Ok (map (fun r => nth j r F.nan) (rows df))
  | None => Raise (KeyError c)
  end.

(** [row[c]] for a row yielded by [iterrows()], for a label that names one
    column (for a label carried by several columns [row[c]] is a series,
    not a number). *)
Definition row_get (cols : list string) (row : list float) (c : string)
  : result float :=
  match position c cols with
  | Some j => Ok (nth j row F.nan)
  | None => Raise (KeyError c)
  end.

(** [df[c] = values]: the column labelled [c] is replaced, or a new last
    column is added. *)
Fixpoint set_nth (j : nat) (v : float) (row : list float) : list float :=
  match j, row with
  | O, _ :: row' => v :: row'
  | S j', x :: row' => x :: set_nth j' v row'
  | _, [] => []
  end.

Definition setitem (df : DataFrame) (c : string) (values : list float)
  : DataFrame :=
  match position c (columns df) with
  | Some j =>
      {| columns := columns df;
         rows := map (fun '(r, v) => set_nth j v r) (combine (rows df) values) |}
  | None =>
      {| columns := columns df ++ [c];
         rows := map (fun '(r, v) => r ++ [v]) (combine (rows df) values) |}
  end.

(** [df[mask]] for a boolean mask with one entry per row. *)
Fixpoint select (rs : list (list float)) (mask : list bool)
  : list (list float) :=
  match rs, mask with
  | r :: rs', b :: mask' =>
      if b then r :: select rs' mask' else select rs' mask'
  | _, _ => []
  end.

Definition mask_rows (df : DataFrame) (mask : list bool) : DataFrame :=
  {| columns := columns df; rows := select (rows df) mask |}.

(** [a & b] on boolean columns. *)
Definition band (a b : list bool) : list bool :=
  map (fun '(x, y) => andb x y) (combine a b).

(** [s.clip(lower, upper)]: NaN stays NaN, a value below [lower] becomes
    [lower], one above [upper] becomes [upper]. *)
Definition clip1 (lower upper x : float) : float :=
  let mask := F.is_nan x in
  let result := if mask || F.geb x lower then x else lower in
  if mask || F.leb x upper then result else upper.

Definition clip (s : list float) (lower upper : float) : list float :=
  map (clip1 lower upper) s.

End Pandas.

Import Pandas.

(** ** The LAS parser ([__main__] of crossplots.py and visualization.py) *)

Module Las.

Definition curve_marker : string := "~Curve Information Block".
Definition ascii_marker : string := "~ASCII".

(** The section scan: [curve_start] is overwritten at every curve marker,
    and the scan breaks at the first ASCII marker with
    [ascii_start = i + 1].  [i] is the index of the head of [lines]. *)
Fixpoint find_sections (lines : list string) (i : Z) (curve_start : option Z)
  : option Z * option Z :=
  match lines with
  | [] => (curve_start, None)
  | line :: rest =>
      let curve_start :=
        if Str.startswith (Str.strip line) curve_marker
        then Some i else curve_start in
      if Str.startswith (Str.strip line) ascii_marker
      then (curve_start, Some (i + 1)%Z)
      else find_sections rest (i + 1)%Z curve_start
  end.

(** One turn of the curve-name loop. *)
Definition curve_name_step (curve_names : list string) (line : string)
  : list string :=
  if Str.startswith (Str.strip line) "#" || negb (Str.truthy (Str.strip line))
  then curve_names
  else
    match Str.split line with
    | part0 :: _ => curve_names ++ [hd "" (Str.split_sep part0 ".")]
    | [] => curve_names
    end.

Definition parse_curve_names (lines : list string) : list string :=
  fold_left curve_name_step lines [].

(** The data loop: blank lines are skipped, every token of another line
    goes through [float]. *)
Fixpoint parse_data (lines : list string) (data : list (list float))
  : result (list (list float)) :=
  match lines with
  | [] => Ok data
  | line :: rest =>
      if Str.truthy (Str.strip line)
      then row <- mapM PyFloat.float (Str.split line) ;;
           parse_data rest (data ++ [row])
      else parse_data rest data
  end.

Definition parse (lines : list string) : result DataFrame :=
  let '(curve_start, ascii_start) := find_sections lines 0%Z None in
  lo <- PyList.add_int curve_start 1 ;;
  hi <- PyList.sub_int ascii_start 1 ;;
  let curve_names := parse_curve_names (PyList.slice lines lo hi) in
  data <- parse_data (PyList.slice_from lines ascii_start) [] ;;
  Pandas.new data curve_names.

End Las.

(** ** numpy: [argsort] and [linspace] *)

Module Np.

(** numpy's order on floats for sorting: NaN comes after every number. *)
Definition lt (a b : float) : bool :=
  F.ltb a b || F.is_nan b && negb (F.is_nan a).

Section SortBy.
Context {A : Type} (key : A -> float).

Fixpoint insert_by (x : A) (l : list A) : list A :=
  match l with
  | [] => [x]
  | y :: l' => if lt (key y) (key x) then y :: insert_by x l' else x :: l
  end.

(** Sorting by key; elements with equal keys keep their order. *)
Fixpoint sort_by (l : list A) : list A :=
  match l with
  | [] => []
  | x :: l' => insert_by x (sort_by l')
  end.
End SortBy.

(** [np.argsort(l)]: the indices of [l] in the order of its values.
    (Equal values keep their order here; numpy's default sort is not
    stable and may return them in another order, so the theorems that
    depend on the order ask for values that differ.) *)
Definition argsort (l : list float) : list nat :=
  map fst (sort_by snd (PyList.enumerate l)).

(** [np.linspace(start, stop, num)] with the end point included. *)
Definition linspace (start stop : float) (num : nat) : list float :=
  let div := F.of_Z (Z.of_nat num - 1) in
  let delta := F.sub stop start in
  let y := map (fun i => F.of_Z (Z.of_nat i)) (seq 0 num) in
  let y :=
    if (0 <? Z.of_nat num - 1)%Z
    then
      let step := F.div delta div in
      if F.eqb step F.zero
      then map (fun v => F.mul (F.div v div) delta) y
      else map (fun v => F.mul v step) y
    else map (fun v => F.mul v delta) y in
  let y := map (fun v => F.add v start) y in
  if (1 <? num)%nat then removelast y ++ [stop] else y.

End Np.

(** ** Cross-plots (crossplots.py) *)

Module Crossplots.

(** *** What is drawn *)

(** The calls of matplotlib are recorded, in order, as the artists and the
    settings of the axes.  An exception that matplotlib itself raises while
    it draws or lays a figure out (on values at the edge of the float
    range, say) is outside the model: what is stated about a figure is
    stated of the figures that are returned.  [tight_layout], [savefig]
    and [show] are left out. *)

(** A colour of [formation_colors], the array
    [plt.cm.tab10(np.linspace(0, 1, n))] of one colour per top: its row. *)
Inductive color : Type :=
| Tab10Row (i : nat).

Inductive coloring : Type :=
| Colors (cs : list color)
| ByValue (values : list float) (cmap : string).

Inductive text : Type :=
| Literal (s : string)
| Percent (v : float).                (* f'{v:.0f}%' *)

Inductive artist : Type :=
| Scatter (xs ys : list float) (c : coloring) (label : string)
| Line (xs ys : list float) (fmt : string) (label : string)
| HLine (y : float) (color : string)
| Text (x y : float) (s : text) (color : string).

Record axes : Type := {
  artists : list artist;
  legend : list string;
  colorbar : option string;
  xlabel : string;
  ylabel : string;
  title : string;
  xlim : option (float * float);
  ylim : option (float * float);
  yaxis_inverted : bool;
  grid : bool
}.

Definition new_axes : axes :=
  {| artists := []; legend := []; colorbar := None; xlabel := "";
     ylabel := ""; title := ""; xlim := None; ylim := None;
     yaxis_inverted := false; grid := false |}.

Definition draw (ax : axes) (a : artist) : axes :=
  {| artists := artists ax ++ [a]; legend := legend ax;
     colorbar := colorbar ax; xlabel := xlabel ax; ylabel := ylabel ax;
     title := title ax; xlim := xlim ax; ylim := ylim ax;
     yaxis_inverted := yaxis_inverted ax; grid := grid ax |}.

Definition lit := PyFloat.lit.

(** The null value [-999.25]. *)
Definition null_value : float := SFopp (lit "999.25").

(** *** add_lithology_lines *)

Definition sandstone_line : list (list float) :=
  [[F.of_Z 0; lit "2.65"]; [lit "0.4"; lit "2.35"]].
Definition limestone_line : list (list float) :=
  [[F.of_Z 0; lit "2.71"]; [lit "0.4"; lit "2.31"]].
Definition dolomite_line : list (list float) :=
  [[F.of_Z 0; lit "2.87"]; [lit "0.4"; lit "2.47"]].

(** [a[:, j]] *)
Definition col (a : list (list float)) (j : nat) : list float :=
  map (fun r => nth j r F.nan) a.

Definition porosities : list float := [lit "0.1"; lit "0.2"; lit "0.3"].

Definition porosity_line (ax : axes) (phi : float) : axes :=
  let ss_rho := F.sub (lit "2.65") (F.mul phi (F.sub (lit "2.65") (lit "1.0"))) in
  let ax := draw ax (HLine ss_rho "red") in
  draw ax (Text (lit "0.55") ss_rho (Percent (F.mul phi (F.of_Z 100))) "red").

Definition add_lithology_lines (ax : axes) : axes :=
  let ax := draw ax (Line (col sandstone_line 0) (col sandstone_line 1) "r-" "Sandstone") in
  let ax := draw ax (Line (col limestone_line 0) (col limestone_line 1) "b-" "Limestone") in
  let ax := draw ax (Line (col dolomite_line 0) (col dolomite_line 1) "g-" "Dolomite") in
  let ax := fold_left porosity_line porosities ax in
  let ax := draw ax (Text (lit "0.05") (lit "2.65") (Literal "Sandstone") "red") in
  let ax := draw ax (Text (lit "0.05") (lit "2.71") (Literal "Limestone") "blue") in
  let ax := draw ax (Text (lit "0.05") (lit "2.87") (Literal "Dolomite") "green") in
  let clay_neutron := Np.linspace (lit "0.3") (lit "0.6") 10 in
  let clay_density :=
    map (fun n => F.add (lit "2.2") (F.mul (lit "0.3") n)) clay_neutron in
  (* the colour 'brown' with linestyle=':' *)
  let ax := draw ax (Line clay_neutron clay_density "brown:" "Clay trend") in
  draw ax (Text (lit "0.45") (lit "2.4") (Literal "Clay") "brown").

(** *** neutron_density_crossplot *)

(** What the renderer returns: [(None, None)] after printing that no
    valid data point was found, or the figure.  [labels] is the local
    list of that name as it stands when the function returns ([None] where
    it is never bound). *)
Inductive outcome : Type :=
| NoData
| Plotted (ax : axes) (labels : option (list string)).

(** The filter on the null value. *)
Definition not_null (s : list float) : list bool :=
  map (fun x => F.neb x null_value) s.

(** The inner loop: the index of the last top at or above [depth], 0 when
    there is none. *)
Definition formation_idx (depth : float) (depth_list : list float) : nat :=
  fold_left
    (fun idx '(i, top_depth) => if F.geb depth top_depth then i else idx)
    (PyList.enumerate depth_list) 0.

(** The loop over the valid rows. *)
Fixpoint assign_formations (cols : list string) (rs : list (list float))
    (depth_col : string) (formation_colors : list color)
    (formation_list : list string) (depth_list : list float)
    (colors : list color) (labels : list string)
  : result (list color * list string) :=
  match rs with
  | [] => Ok (colors, labels)
  | row :: rest =>
      depth <- Pandas.row_get cols row depth_col ;;
      let idx := formation_idx depth depth_list in
      c <- PyList.get formation_colors idx ;;
      l <- PyList.get formation_list idx ;;
      assign_formations cols rest depth_col formation_colors
        formation_list depth_list (colors ++ [c]) (labels ++ [l])
  end.

(** Labels, title, limits, the inverted density axis and the grid. *)
Definition decorate_crossplot (ax : axes) (neutron_col density_col ttl : string)
  : axes :=
  {| artists := artists ax; legend := legend ax; colorbar := colorbar ax;
     xlabel := (neutron_col ++ " (Neutron Porosity, v/v)")%string;
     ylabel :=
       (density_col ++ " (Bulk Density, g/cm"
          ++ String (ascii_of_N 179) ")")%string;   (* U+00B3 *)
     title := ttl;
     xlim := Some (SFopp (lit "0.05"), lit "0.6");
     ylim := Some (lit "1.5", lit "3.0");
     yaxis_inverted := true; grid := true |}.

(** The end of the function: the lithology lines, then the decoration. *)
Definition finish_crossplot (ax : axes) (neutron_col density_col ttl : string)
  : axes :=
  decorate_crossplot (add_lithology_lines ax) neutron_col density_col ttl.

(** The function from [plt.subplots] on: the scatter plot of the valid
    samples, coloured by formation when tops are given and by depth
    otherwise, then the lithology lines and the decoration of the axes. *)
Definition plot_valid_data (valid_data : DataFrame)
    (neutron_col density_col depth_col : string)
    (formation_tops : option (list (string * float))) (ttl : string)
  : result outcome :=
  match formation_tops with
  | Some tops =>
      let formation_colors := map Tab10Row (seq 0 (List.length tops)) in
      let formation_list := map fst tops in
      let depth_list := map snd tops in
      let sorted_indices := Np.argsort depth_list in
      formation_list <- mapM (PyList.get formation_list) sorted_indices ;;
      depth_list <- mapM (PyList.get depth_list) sorted_indices ;;
      cl <- assign_formations (columns valid_data) (rows valid_data)
              depth_col formation_colors formation_list depth_list [] [] ;;
      xs <- getitem valid_data neutron_col ;;
      ys <- getitem valid_data density_col ;;
      let ax := draw new_axes (Scatter xs ys (Colors (fst cl)) "") in
      let ax :=
        fold_left
          (fun ax '(fm, c) => draw ax (Scatter [] [] (Colors [c]) fm))
          (combine formation_list formation_colors) ax in
      let ax :=
        {| artists := artists ax; legend := formation_list;
           colorbar := colorbar ax; xlabel := xlabel ax;
           ylabel := ylabel ax; title := title ax; xlim := xlim ax;
           ylim := ylim ax; yaxis_inverted := yaxis_inverted ax;
           grid := grid ax |} in
      Ok (Plotted (finish_crossplot ax neutron_col density_col ttl)
            (Some (snd cl)))
  | None =>
      xs <- getitem valid_data neutron_col ;;
      ys <- getitem valid_data density_col ;;
      c <- getitem valid_data depth_col ;;
      let ax := draw new_axes (Scatter xs ys (ByValue c "viridis") "") in
      let ax :=
        {| artists := artists ax; legend := legend ax;
           colorbar := Some (depth_col ++ " (m)")%string; xlabel := xlabel ax;
           ylabel := ylabel ax; title := title ax; xlim := xlim ax;
           ylim := ylim ax; yaxis_inverted := yaxis_inverted ax;
           grid := grid ax |} in
      Ok (Plotted (finish_crossplot ax neutron_col density_col ttl) None)
  end.

Definition neutron_density_crossplot (df : DataFrame)
    (neutron_col density_col depth_col : string)
    (formation_tops : option (list (string * float))) (ttl : string)
  : result outcome :=
  neu <- getitem df neutron_col ;;
  den <- getitem df density_col ;;
  let valid_data := mask_rows df (band (not_null neu) (not_null den)) in
  if Nat.eqb (List.length (rows valid_data)) 0 then Ok NoData
  else plot_valid_data valid_data neutron_col density_col depth_col
         formation_tops ttl.

(** *** porosity_estimation_plot *)

(** The defaults of [matrix_density] and [fluid_density]. *)
Definition default_matrix_density : float := lit "2.65".
Definition default_fluid_density : float := lit "1.0".

(** The density porosity of one sample, as the two assignments to the
    PHID column compute it. *)
Definition density_porosity (bulk_density matrix_density fluid_density : float)
  : float :=
  Pandas.clip1 (F.of_Z 0) (F.of_Z 1)
    (F.div (F.sub matrix_density bulk_density)
           (F.sub matrix_density fluid_density)).

(** [df_calc] once PHID is computed and clipped. *)
Definition phid_frame (df : DataFrame) (density_col : string)
    (matrix_density fluid_density : float) : result DataFrame :=
  let df_calc := df in
  den <- getitem df_calc density_col ;;
  let df_calc :=
    setitem df_calc "PHID"
      (map (fun d => F.div (F.sub matrix_density d)
                           (F.sub matrix_density fluid_density)) den) in
  phid <- getitem df_calc "PHID" ;;
  Ok (setitem df_calc "PHID" (clip phid (F.of_Z 0) (F.of_Z 1))).

(** The mask of the filter: the two null-value tests and the two range
    tests on PHID. *)
Definition porosity_mask (df_calc : DataFrame) (neutron_col density_col : string)
  : result (list bool) :=
  neu <- getitem df_calc neutron_col ;;
  den <- getitem df_calc density_col ;;
  phid_lo <- getitem df_calc "PHID" ;;
  phid_hi <- getitem df_calc "PHID" ;;
  Ok (band (band (band (not_null neu) (not_null den))
                 (map (fun p => F.geb p (F.of_Z 0)) phid_lo))
           (map (fun p => F.leb p (F.of_Z 1)) phid_hi)).

Definition porosity_valid_data (df : DataFrame)
    (neutron_col density_col : string) (matrix_density fluid_density : float)
  : result DataFrame :=
  df_calc <- phid_frame df density_col matrix_density fluid_density ;;
  mask <- porosity_mask df_calc neutron_col density_col ;;
  Ok (mask_rows df_calc mask).

(** The decoration of one of the three panels. *)
Definition porosity_axes (ax : axes) (xl yl ttl : string) (inverted : bool)
    (yl_lim : option (float * float)) : axes :=
  {| artists := artists ax; legend := legend ax; colorbar := colorbar ax;
     xlabel := xl; ylabel := yl; title := ttl;
     xlim := Some (F.of_Z 0, lit "0.6"); ylim := yl_lim;
     yaxis_inverted := inverted; grid := true |}.

Definition porosity_estimation_plot (df : DataFrame)
    (neutron_col density_col depth_col : string)
    (matrix_density fluid_density : float) : result (list axes) :=
  valid_data <- porosity_valid_data df neutron_col density_col
                  matrix_density fluid_density ;;
  neu <- getitem valid_data neutron_col ;;
  dep <- getitem valid_data depth_col ;;
  let ax0 :=
    porosity_axes (draw new_axes (Line neu dep "b-" ""))
      "Neutron Porosity (v/v)" "Depth (m)" "Neutron Porosity Log" true None in
  phid <- getitem valid_data "PHID" ;;
  dep <- getitem valid_data depth_col ;;
  let ax1 :=
    porosity_axes (draw new_axes (Line phid dep "r-" ""))
      "Density Porosity (v/v)" "" "Density Porosity Log" true None in
  neu <- getitem valid_data neutron_col ;;
  phid <- getitem valid_data "PHID" ;;
  dep <- getitem valid_data depth_col ;;
  let ax2 := draw new_axes (Scatter neu phid (ByValue dep "viridis") "") in
  let ax2 :=
    draw ax2 (Line [F.of_Z 0; lit "0.6"] [F.of_Z 0; lit "0.6"] "k--" "1:1 line") in
  let ax2 :=
    {| artists := artists ax2; legend := ["1:1 line"]; colorbar := None;
       xlabel := "Neutron Porosity (v/v)"; ylabel := "Density Porosity (v/v)";
       title := "Neutron vs Density Porosity";
       xlim := Some (F.of_Z 0, lit "0.6");
       ylim := Some (F.of_Z 0, lit "0.6");
       yaxis_inverted := false; grid := true |} in
  Ok [ax0; ax1; ax2].

End Crossplots.

(** ** Multi-track panels (visualization.py) *)

Module Visualization.

(** One track of the panel: the curves [ax.plot] drew on it, each a [Line]
    of the values of a log against the depth and labelled with the log,
    and what the rest of the loop body set on the axes. *)
Record track : Type := {
  curves : list Crossplots.artist;
  track_xlabel : string;
  track_ylabel : string;
  track_grid : bool;
  track_legend : bool
}.

(** The figure: its tracks from left to right, the number of calls of
    [invert_yaxis] on the depth axis the tracks share ([sharey=True]), and
    the title. *)
Record panel : Type := {
  tracks : list track;
  yaxis_inversions : nat;
  suptitle : string
}.

Inductive failure : Type :=
| Lookup (e : exn)                      (* raised by [df[...]] or [axes[0]] *)
| ValueError_subplots (ncols : nat).
    (* Number of columns must be a positive integer, not <ncols> *)

Inductive shown : Type :=
| Shown (p : panel)
| Failed (f : failure).

(** [sep.join(l)] *)
Fixpoint join (sep : string) (l : list string) : string :=
  match l with
  | [] => ""
  | x :: l' =>
      match l' with
      | [] => x
      | _ :: _ => (x ++ sep ++ join sep l')%string
      end
  end.

(** [log in df.columns] *)
Definition has_column (df : DataFrame) (log : string) : bool :=
  existsb (String.eqb log) (columns df).

(** The loop over the logs of one track: a log that is no column of the
    frame is passed over. *)
Fixpoint plot_logs (df : DataFrame) (depth : list float) (logs : list string)
    (drawn : list Crossplots.artist) : result (list Crossplots.artist) :=
  match logs with
  | [] => Ok drawn
  | log :: rest =>
      if has_column df log
      then xs <- getitem df log ;;
           plot_logs df depth rest (drawn ++ [Crossplots.Line xs depth "" log])
      else plot_logs df depth rest drawn
  end.

(** The truth value of [track_labels]: [None] and the empty list are
    false. *)
Definition labels_truthy (track_labels : option (list string)) : bool :=
  match track_labels with
  | Some (_ :: _) => true
  | _ => false
  end.

(** [track_labels[i] if track_labels and i < len(track_labels)
     else ", ".join(logs)] *)
Definition track_label (track_labels : option (list string)) (i : nat)
    (logs : list string) : result string :=
  let labels := match track_labels with Some l => l | None => [] end in
  if labels_truthy track_labels && Nat.ltb i (List.length labels)
  then PyList.get labels i
  else Ok (join ", " logs).

(** The loop over the tracks; [done] are the tracks finished so far and
    [inversions] the calls of [invert_yaxis] made so far. *)
Fixpoint plot_tracks (df : DataFrame) (depth : list float)
    (track_labels : option (list string)) (todo : list (nat * list string))
    (done : list track) (inversions : nat) : result (list track * nat) :=
  match todo with
  | [] => Ok (done, inversions)
  | (i, logs) :: rest =>
      drawn <- plot_logs df depth logs [] ;;
      xl <- track_label track_labels i logs ;;
      let ax :=
        {| curves := drawn; track_xlabel := xl; track_ylabel := "";
           track_grid := true;
           track_legend := Nat.ltb 1 (List.length logs) |} in
      plot_tracks df depth track_labels rest (done ++ [ax]) (S inversions)
  end.

(** [axes[0].set_ylabel(s)] *)
Definition set_ylabel0 (axes : list track) (s : string) : result (list track) :=
  match axes with
  | [] => Raise IndexError
  | ax :: rest =>
      Ok ({| curves := curves ax; track_xlabel := track_xlabel ax;
             track_ylabel := s; track_grid := track_grid ax;
             track_legend := track_legend ax |} :: rest)
  end.

(** [plt.subplots(1, n_tracks, sharey=True)] refuses a grid of no column;
    the depth column is read after the axes are made.  The layout and the
    display of the figure ([tight_layout], [show]) are left out, and with
    them the exceptions matplotlib may raise there: what is stated about a
    panel is stated of the panels that are shown. *)
Definition plot_well_log_tracks (df : DataFrame) (depth_col : string)
    (log_tracks : list (list string)) (track_labels : option (list string))
    (ttl : string) : shown :=
  let n_tracks := List.length log_tracks in
  if Nat.eqb n_tracks 0 then Failed (ValueError_subplots n_tracks)
  else
    let r :=
      depth <- getitem df depth_col ;;
      axs <- plot_tracks df depth track_labels (PyList.enumerate log_tracks) [] 0 ;;
      axes <- set_ylabel0 (fst axs) "Depth (m)" ;;
      Ok {| tracks := axes; yaxis_inversions := snd axs; suptitle := ttl |} in
    match r with
    | Ok p => Shown p
    | Raise e => Failed (Lookup e)
    end.

End Visualization.

(** ** Normalisation (data_processing.py and utils.py) *)

Module DataProcessing.

(** [s.min()] and [s.max()] of a column of floats: NaN cells are skipped,
    and the result is NaN when no cell is left.  (Of two zeros of different
    signs the first is kept here; pandas may return the other, and nothing
    below depends on the sign of a zero.) *)
Definition nanmin (s : list float) : float :=
  fold_left
    (fun acc x =>
       if F.is_nan x then acc
       else if F.is_nan acc then x
       else if F.ltb x acc then x else acc)
    s F.nan.

Definition nanmax (s : list float) : float :=
  fold_left
    (fun acc x =>
       if F.is_nan x then acc
       else if F.is_nan acc then x
       else if F.ltb acc x then x else acc)
    s F.nan.

(** [data.min()] and [data.max()]: one value per column. *)
Definition reduce (f : list float -> float) (data : DataFrame) : list float :=
  map (fun j => f (map (fun r => nth j r F.nan) (rows data)))
      (seq 0 (List.length (columns data))).

(** [(data - data.min()) / (data.max() - data.min())]: a frame minus a
    series (and a frame divided by one) works column by column, the series
    lined up with the column labels. *)
Definition normalize_data (data : DataFrame) : DataFrame :=
  let lo := reduce nanmin data in
  let hi := reduce nanmax data in
  {| columns := columns data;
     rows :=
       map (fun r =>
              map (fun '(j, x) =>
                     F.div (F.sub x (nth j lo F.nan))
                           (F.sub (nth j hi F.nan) (nth j lo F.nan)))
                  (PyList.enumerate r))
           (rows data) |}.

(** The same with [None] let through. *)
Definition normalize_well_log_data (data : option DataFrame)
  : option DataFrame :=
  match data with
  | Some data => Some (normalize_data data)
  | None => None
  end.

End DataProcessing.

(** ** The driver of crossplots.py *)

Module CrossplotsMain.

(** The tops written in the driver, in the order of the [dict]. *)
Definition formation_tops : list (string * float) :=
  [("FM-1", F.of_Z 479); ("FM-2", F.of_Z 1294); ("FM-3", F.of_Z 2185);
   ("FM-4", F.of_Z 2267); ("FM-5", F.of_Z 2293); ("FM-6", F.of_Z 2405);
   ("FM-7", F.of_Z 2513); ("FM-8", F.of_Z 2676); ("FM-9", F.of_Z 2875);
   ("FM-10", F.of_Z 2990)].


End CrossplotsMain.

(** ** Notions used to state the properties *)

(** The notions the statements below are written with.  They follow the
    words of the specification; the model of the code above uses none of
    them. *)

(** A line that is blank: nothing but whitespace. *)
Fixpoint blank (line : string) : bool :=
  match line with
  | EmptyString => true
  | String c s => Str.isspace c && blank s
  end.

Definition is_curve_marker (line : string) : bool :=
  Str.startswith (Str.strip line) "~Curve Information Block".

Definition is_ascii_marker (line : string) : bool :=
  Str.startswith (Str.strip line) "~ASCII".

(** A line of the curve block that declares a curve: not blank, and not a
    comment. *)
Definition is_declaration (line : string) : bool :=
  negb (blank line) && negb (Str.startswith (Str.strip line) "#").

Fixpoint take_while (p : ascii -> bool) (s : string) : string :=
  match s with
  | EmptyString => EmptyString
  | String c s' => if p c then String c (take_while p s') else EmptyString
  end.

(** The mnemonic a declaration line declares: its first
    whitespace-delimited token, up to the first point. *)
Definition mnemonic (line : string) : string :=
  take_while (fun c => negb (Str.isspace c) && negb (Ascii.eqb c "."))
    (Str.lstrip line).

(** A token is numeric when [float] accepts it. *)
Definition numeric (token : string) : bool :=
  match PyFloat.parse token with
  | Some _ => true
  | None => false
  end.

Definition value (token : string) : float := PyFloat.lit token.

(** The lines of the input from the first ASCII marker on: the lines before
    the marker, the marker, the lines after it. *)
Fixpoint split_at_first {A : Type} (p : A -> bool) (l : list A)
  : option (list A * A * list A) :=
  match l with
  | [] => None
  | x :: l' =>
      if p x then Some ([], x, l')
      else
        match split_at_first p l' with
        | Some (before, y, after) => Some (x :: before, y, after)
        | None => None
        end
  end.

(** The same at the last element that satisfies [p]. *)
Fixpoint split_at_last {A : Type} (p : A -> bool) (l : list A)
  : option (list A * A * list A) :=
  match l with
  | [] => None
  | x :: l' =>
      match split_at_last p l' with
      | Some (before, y, after) => Some (x :: before, y, after)
      | None => if p x then Some ([], x, l') else None
      end
  end.

(** The two sections of a LAS text: the lines between the last curve
    marker that precedes the first ASCII marker and that ASCII marker, and
    the lines after the ASCII marker.  [None] when there is no ASCII marker,
    or no curve marker before the first one. *)
Definition sections (lines : list string) : option (list string * list string) :=
  match split_at_first is_ascii_marker lines with
  | None => None
  | Some (head, _, data_lines) =>
      match split_at_last is_curve_marker head with
      | None => None
      | Some (_, _, curve_lines) => Some (curve_lines, data_lines)
      end
  end.

(** The rows of tokens of the data section, blank lines left out. *)
Definition token_rows (data_lines : list string) : list (list string) :=
  map Str.split (filter (fun l => negb (blank l)) data_lines).

(** The first token of the data section that is not numeric. *)
Definition first_bad_token (data_lines : list string) : option string :=
  List.find (fun t => negb (numeric t)) (List.concat (token_rows data_lines)).

(** [x] clamped to the interval from 0 to 1. *)
Definition clamp01 (x : float) : float :=
  if F.ltb x F.zero then F.zero
  else if F.ltb F.one x then F.one
  else x.

(** The name of the last top of [tops] at or above [depth], and of the
    first top when there is none. *)
Definition last_top_at_or_above (depth : float) (tops : list (string * float))
  : string :=
  match filter (fun t => F.leb (snd t) depth) tops with
  | [] => fst (hd ("", F.nan) tops)
  | q :: qs => fst (last (q :: qs) ("", F.nan))
  end.

(** A column label that names exactly one column of the frame, the one at
    position [j]. *)
Definition names_column (df : DataFrame) (c : string) (j : nat) : Prop :=
  nth_error (columns df) j = Some c /\
  count_occ string_dec (columns df) c = 1.

(** Every row has one cell per column. *)
Definition rectangular (df : DataFrame) : Prop :=
  Forall (fun r => List.length r = List.length (columns df)) (rows df).

(** A cell holds the null value. *)
Definition is_null (x : float) : bool := F.eqb x Crossplots.null_value.

(** A lithology line: its name and its two end points, each a neutron
    porosity and a bulk density. *)
Definition lithology_line : Type := string * (float * float) * (float * float).

(** The three lines of the specification. *)
Definition lithology_lines : list lithology_line :=
  [("Sandstone", (value "0", value "2.65"), (value "0.4", value "2.35"));
   ("Limestone", (value "0", value "2.71"), (value "0.4", value "2.31"));
   ("Dolomite", (value "0", value "2.87"), (value "0.4", value "2.47"))].

(** The array of end points of a line, one row per point. *)
Definition end_points (l : lithology_line) : list (list float) :=
  let '(_, (x0, y0), (x1, y1)) := l in [[x0; y0]; [x1; y1]].

(** The lines from one point to another among the artists drawn, each
    with its label. *)
Definition segments (l : list Crossplots.artist) : list lithology_line :=
  flat_map
    (fun a =>
       match a with
       | Crossplots.Line [x0; x1] [y0; y1] _ label =>
           [(label, (x0, y0), (x1, y1))]
       | _ => []
       end) l.

(** Classification, as the body of the renderer's loop does it for a sample
    at [depth] and the tops it has sorted: [formation_list[formation_idx]]
    after the inner loop over [depth_list]. *)
Definition classify (depth : float) (tops : list (string * float))
  : result string :=
  PyList.get (map fst tops) (Crossplots.formation_idx depth (map snd tops)).

(** Two depths differ when one of them sorts strictly before the other:
    two numbers that are not equal, or a number and NaN. *)
Definition depths_differ (a b : float) : bool := Np.lt a b || Np.lt b a.

(** Elements compared by their keys: [a] sorts strictly before [b]; the
    keys of [a] and [b] differ. *)
Definition sorts_before {A : Type} (key : A -> float) (a b : A) : Prop :=
  Np.lt (key a) (key b) = true.

Definition keys_differ {A : Type} (key : A -> float) (a b : A) : Prop :=
  depths_differ (key a) (key b) = true.

(** Formation tops whose depths differ from one another. *)
Definition distinct_depths (tops : list (string * float)) : Prop :=
  ForallOrdPairs (keys_differ snd) tops.

(** The valid samples of a frame whose neutron and density columns are at
    positions [i] and [j]: the rows with the null value in neither. *)
Definition valid_rows (df : DataFrame) (i j : nat) : list (list float) :=
  filter
    (fun r => negb (is_null (nth i r F.nan)) && negb (is_null (nth j r F.nan)))
    (rows df).

(** A line that is not blank. *)
Definition nonblank (line : string) : bool := negb (blank line).

(** A name with no whitespace and no point in it. *)
Definition plain_name (name : string) : bool :=
  forallb (fun c => negb (Str.isspace c) && negb (Ascii.eqb c "."))
    (list_ascii_of_string name).

(** The legend handle of the formation of rank [k]: a scatter of no point
    in the colour of that rank, labelled with the formation. *)
Definition legend_handle (entry : nat * string) : Crossplots.artist :=
  Crossplots.Scatter [] []
    (Crossplots.Colors [Crossplots.Tab10Row (fst entry)]) (snd entry).

(** An artist that puts no sample on the figure: anything but a scatter
    of points. *)
Definition plots_no_sample (a : Crossplots.artist) : bool :=
  match a with
  | Crossplots.Scatter [] [] _ _ => true
  | Crossplots.Scatter _ _ _ _ => false
  | _ => true
  end.

(** The column labels of a frame once a PHID column is set: the labels as
    they are when one of them is PHID, and with PHID added last otherwise. *)
Definition with_phid (cols : list string) : list string :=
  if existsb (String.eqb "PHID") cols then cols else cols ++ ["PHID"].

(** The column a label names, as a list; nothing when no column has the
    label. *)
Definition column (df : DataFrame) (c : string) : list float :=
  match Pandas.getitem df c with
  | Ok s => s
  | Raise _ => []
  end.

(** A log the frame has a column for. *)
Definition known (df : DataFrame) (log : string) : bool :=
  if in_dec string_dec log (columns df) then true else false.

(** The curve of a log on a track: its values against the depth, under
    its name. *)
Definition curve_of (df : DataFrame) (depth_col log : string)
  : Crossplots.artist :=
  Crossplots.Line (column df log) (column df depth_col) "" log.

(** The label under the track at position [i]: the label given for that
    position, and the names of the logs, separated by a comma and a space,
    when none is given for it. *)
Definition label_or_names (track_labels : option (list string)) (i : nat)
    (logs : list string) : string :=
  match track_labels with
  | Some labels => nth i labels (Visualization.join ", " logs)
  | None => Visualization.join ", " logs
  end.

(** A track as the loop over the tracks leaves it, for the entry
    [(i, logs)] of [enumerate(log_tracks)] and the depth values [depth]. *)
Definition loop_track (df : DataFrame) (depth : list float)
    (track_labels : option (list string)) (entry : nat * list string)
  : Visualization.track :=
  {| Visualization.curves :=
       map (fun log => Crossplots.Line (column df log) depth "" log)
         (filter (known df) (snd entry));
     Visualization.track_xlabel :=
       label_or_names track_labels (fst entry) (snd entry);
     Visualization.track_ylabel := "";
     Visualization.track_grid := true;
     Visualization.track_legend := Nat.ltb 1 (List.length (snd entry)) |}.

(** The depth axis is shared by the tracks and starts upright; each call
    of [invert_yaxis] on a track turns it over for all of them. *)
Definition depth_axis_inverted (p : Visualization.panel) : bool :=
  Nat.odd (Visualization.yaxis_inversions p).


(** ** Sample inputs *)

Definition eol : string := String "010"%char EmptyString.

Definition text_lines (l : list string) : list string :=
  map (fun s => (s ++ eol)%string) l.

(** A LAS text with a curve block that is opened twice. *)
Definition sample_las : list string :=
  text_lines
    ["~Version Information";
     "~Curve Information Block";
     "OLD .M      : superseded";
     "~Curve Information Block";
     "#MNEM.UNIT    DESCRIPTION";
     "DEPT.M      : Depth";
     "NEU .V/V    : Neutron porosity";
     "DEN .G/C3   : Bulk density";
     "";
     "~ASCII Log Data";
     " 479.0   0.25  2.41";
     "";
     " 479.5  -999.25  2.43"].

(** A LAS text whose second data row has one field for two curves. *)
Definition short_row_las : list string :=
  text_lines
    ["~Curve Information Block";
     "DEPT.M";
     "GR.API";
     "~ASCII";
     "1.0 2.0";
     "3.0"].

(** A table of three samples, the second with the null value for the
    neutron log. *)
Definition sample_frame : DataFrame :=
  {| columns := ["DEPT"; "NEU"; "DEN"];
     rows := [[value "50"; value "0.25"; value "2.41"];
              [value "150"; value "-999.25"; value "2.43"];
              [value "250"; value "0.30"; value "2.35"]] |}.

(** A table with the null value in every row. *)
Definition null_frame : DataFrame :=
  {| columns := ["DEPT"; "NEU"; "DEN"];
     rows := [[value "50"; value "0.25"; value "-999.25"];
              [value "150"; value "-999.25"; value "2.43"];
              [value "250"; value "-999.25"; value "-999.25"]] |}.

(** A table whose second sample has NaN for the density, as the parser
    returns for the token nan. *)
Definition nan_frame : DataFrame :=
  {| columns := ["DEPT"; "NEU"; "DEN"];
     rows := [[value "50"; value "0.25"; value "2.41"];
              [value "150"; value "0.27"; value "nan"]] |}.

Definition tops_abc : list (string * float) :=
  [("A", F.of_Z 0); ("B", F.of_Z 100); ("C", F.of_Z 200)].

Definition tops_cab : list (string * float) :=
  [("C", F.of_Z 200); ("A", F.of_Z 0); ("B", F.of_Z 100)].

(** Two tops at the same depth. *)
Definition tops_tied : list (string * float) :=
  [("A", F.of_Z 100); ("B", F.of_Z 100)].

(** The sample table with its PHID column, for the default densities. *)
Definition sample_calc : DataFrame :=
  Eval vm_compute in
    match Crossplots.phid_frame sample_frame "DEN"
            Crossplots.default_matrix_density Crossplots.default_fluid_density
    with
    | Ok df_calc => df_calc
    | Raise _ => sample_frame
    end.

(** A table with a gamma-ray log besides the three of [sample_frame]. *)
Definition logs_frame : DataFrame :=
  {| columns := ["DEPT"; "GR"; "NEU"; "DEN"];
     rows := [[value "50"; value "80"; value "0.25"; value "2.41"];
              [value "150"; value "95"; value "-999.25"; value "2.43"]] |}.

(** A table with a gamma-ray log and a bit size that does not change. *)
Definition bit_size_frame : DataFrame :=
  {| columns := ["GR"; "BS"];
     rows := [[value "80"; value "8.5"];
              [value "95"; value "8.5"];
              [value "60"; value "8.5"]] |}.


(** * Properties *)

(** ** Strings *)

Section StringFacts.

Lemma truthy_lstrip (s : string) :
  Str.truthy (Str.lstrip s) = negb (blank s).
Proof.
  induction s as [|c s IH]; simpl; [reflexivity|].
  destruct (Str.isspace c); simpl; [exact IH | reflexivity].
Qed.

Lemma lstrip_head (s : string) :
  match Str.lstrip s with
  | EmptyString => True
  | String c _ => Str.isspace c = false
  end.
Proof.
  induction s as [|c s IH]; simpl; [exact I|].
  destruct (Str.isspace c) eqn:E; [exact IH | exact E].
Qed.

Lemma truthy_rstrip (c : ascii) (s : string) :
  Str.isspace c = false -> Str.truthy (Str.rstrip (String c s)) = true.
Proof.
  intros H. simpl. destruct (Str.rstrip s); [rewrite H|]; reflexivity.
Qed.

Lemma truthy_strip (s : string) : Str.truthy (Str.strip s) = negb (blank s).
Proof.
  unfold Str.strip. rewrite <- truthy_lstrip.
  pose proof (lstrip_head s) as H.
  destruct (Str.lstrip s) as [|c t]; [reflexivity|].
  now rewrite truthy_rstrip.
Qed.

Lemma split_from_nil (tok s : string) :
  Str.split_from tok s = [] <-> (Str.truthy tok = false /\ blank s = true).
Proof.
  revert tok. induction s as [|c s IH]; intros tok; simpl.
  - destruct (Str.truthy tok); split; intros H;
      try discriminate; try (split; reflexivity); destruct H; discriminate.
  - destruct (Str.isspace c); simpl.
    + destruct (Str.truthy tok) eqn:E.
      * split; [discriminate | intros [H _]; discriminate].
      * rewrite IH. simpl. tauto.
    + rewrite IH. split; [|intros [_ H]; discriminate].
      intros [H _]. destruct tok; discriminate.
Qed.

Lemma split_nil (s : string) : Str.split s = [] <-> blank s = true.
Proof.
  unfold Str.split. rewrite split_from_nil. simpl. tauto.
Qed.

Lemma split_blank (s : string) :
  blank s = false -> exists p ps, Str.split s = p :: ps.
Proof.
  intros H. destruct (Str.split s) as [|p ps] eqn:E; [|eauto].
  apply split_nil in E. congruence.
Qed.

Lemma append_assoc_char (a : string) (c : ascii) (b : string) :
  ((a ++ String c EmptyString) ++ b = a ++ String c b)%string.
Proof.
  induction a as [|x a IH]; simpl; [reflexivity | now rewrite IH].
Qed.

Lemma append_empty (a : string) : (a ++ EmptyString = a)%string.
Proof.
  induction a as [|x a IH]; simpl; [reflexivity | now rewrite IH].
Qed.

(** The first token read with a run [tok] under way is [tok] and the
    non-whitespace characters that follow. *)
Lemma split_from_hd (tok s : string) :
  Str.truthy tok = true ->
  hd EmptyString (Str.split_from tok s)
  = (tok ++ take_while (fun c => negb (Str.isspace c)) s)%string.
Proof.
  revert tok. induction s as [|c s IH]; intros tok H; simpl.
  - rewrite H. simpl. now rewrite append_empty.
  - destruct (Str.isspace c); simpl.
    + rewrite H. simpl. now rewrite append_empty.
    + rewrite IH, append_assoc_char; [reflexivity|].
      destruct tok; [discriminate | reflexivity].
Qed.

Lemma split_hd (s : string) :
  hd EmptyString (Str.split s)
  = take_while (fun c => negb (Str.isspace c)) (Str.lstrip s).
Proof.
  unfold Str.split. induction s as [|c s IH]; simpl; [reflexivity|].
  destruct (Str.isspace c) eqn:E; simpl; [exact IH|].
  rewrite E. simpl. now rewrite split_from_hd.
Qed.

Lemma split_sep_from_hd (sep : ascii) (tok s : string) :
  hd EmptyString (Str.split_sep_from sep tok s)
  = (tok ++ take_while (fun c => negb (Ascii.eqb c sep)) s)%string.
Proof.
  revert tok. induction s as [|c s IH]; intros tok; simpl.
  - now rewrite append_empty.
  - destruct (Ascii.eqb c sep); simpl.
    + now rewrite append_empty.
    + now rewrite IH, append_assoc_char.
Qed.

Lemma take_while_take_while (p q : ascii -> bool) (s : string) :
  take_while q (take_while p s) = take_while (fun c => p c && q c) s.
Proof.
  induction s as [|c s IH]; simpl; [reflexivity|].
  destruct (p c); simpl; [|reflexivity].
  destruct (q c); [now rewrite IH | reflexivity].
Qed.

(** What the curve-name loop appends for a line is the mnemonic. *)
Lemma first_part_mnemonic (line : string) :
  hd EmptyString (Str.split_sep (hd EmptyString (Str.split line)) ".")
  = mnemonic line.
Proof.
  unfold Str.split_sep, mnemonic.
  now rewrite split_sep_from_hd, split_hd, take_while_take_while.
Qed.

(** No line is both a curve marker and an ASCII marker. *)
Lemma markers_exclusive (line : string) :
  is_curve_marker line = true -> is_ascii_marker line = false.
Proof.
  unfold is_curve_marker, is_ascii_marker.
  destruct (Str.strip line) as [|a [|b s]]; cbn [Str.startswith];
    try discriminate.
  - now rewrite andb_false_r.
  - destruct (Ascii.eqb "~" a); [|discriminate]. cbn [andb].
    destruct (Ascii.eqb_spec "C" b) as [<-|]; [reflexivity | discriminate].
Qed.

End StringFacts.

(** ** The section scan *)

Section Sections.

Context {A : Type} (p : A -> bool).

Lemma split_at_first_app (before : list A) (x : A) (after : list A) :
  Forall (fun y => p y = false) before -> p x = true ->
  split_at_first p (before ++ x :: after) = Some (before, x, after).
Proof.
  intros Hb Hx. induction Hb as [|y before Hy _ IH]; simpl.
  - now rewrite Hx.
  - now rewrite Hy, IH.
Qed.

Lemma split_at_first_some (l before : list A) (x : A) (after : list A) :
  split_at_first p l = Some (before, x, after) ->
  l = before ++ x :: after /\ p x = true /\ Forall (fun y => p y = false) before.
Proof.
  revert before. induction l as [|y l IH]; intros before; simpl; [discriminate|].
  destruct (p y) eqn:Hy.
  - intros [= <- <- <-]. auto.
  - destruct (split_at_first p l) as [[[b z] a]|]; [|discriminate].
    intros [= <- <- <-]. destruct (IH b eq_refl) as (-> & Hz & Hb).
    auto.
Qed.

Lemma split_at_first_none (l : list A) :
  split_at_first p l = None -> Forall (fun y => p y = false) l.
Proof.
  induction l as [|y l IH]; simpl; [constructor|].
  destruct (p y) eqn:Hy; [discriminate|].
  destruct (split_at_first p l) as [[[b z] a]|]; [discriminate|].
  intros _. auto.
Qed.

Lemma split_at_last_app (before : list A) (x : A) (after : list A) :
  p x = true -> Forall (fun y => p y = false) after ->
  split_at_last p (before ++ x :: after) = Some (before, x, after).
Proof.
  intros Hx Ha.
  assert (Hn : split_at_last p after = None).
  { induction Ha as [|y after Hy _ IH]; simpl; [reflexivity|].
    now rewrite IH, Hy. }
  induction before as [|y before IH]; simpl.
  - now rewrite Hn, Hx.
  - now rewrite IH.
Qed.

Lemma split_at_last_some (l before : list A) (x : A) (after : list A) :
  split_at_last p l = Some (before, x, after) ->
  l = before ++ x :: after /\ p x = true /\ Forall (fun y => p y = false) after.
Proof.
  revert before. induction l as [|y l IH]; intros before; simpl; [discriminate|].
  destruct (split_at_last p l) as [[[b z] a]|] eqn:E.
  - intros [= <- <- <-]. destruct (IH b eq_refl) as (-> & Hz & Ha). auto.
  - destruct (p y) eqn:Hy; [|discriminate].
    intros [= <- <- <-]. repeat split; [exact Hy|].
    clear IH. induction l as [|z l IH]; [constructor|].
    simpl in E. destruct (split_at_last p l) as [[[b w] a]|]; [discriminate|].
    destruct (p z) eqn:Hz; [discriminate|]. auto.
Qed.

End Sections.

Section Scan.

Local Open Scope Z_scope.

(** Scanning lines none of which is an ASCII marker: the scan goes on
    behind them, with the index of the last curve marker among them. *)
Lemma find_sections_app (head rest : list string) (i : Z) (cs : option Z) :
  Forall (fun l => is_ascii_marker l = false) head ->
  Las.find_sections (head ++ rest) i cs
  = Las.find_sections rest (i + Z.of_nat (List.length head))
      match split_at_last is_curve_marker head with
      | Some (before, _, _) => Some (i + Z.of_nat (List.length before))
      | None => cs
      end.
Proof.
  intros H. revert i cs.
  induction H as [|x head Hx _ IH]; intros i cs.
  - simpl. now rewrite Z.add_0_r.
  - cbn [app Las.find_sections].
    change (Str.startswith (Str.strip x) Las.ascii_marker)
      with (is_ascii_marker x).
    change (Str.startswith (Str.strip x) Las.curve_marker)
      with (is_curve_marker x).
    rewrite Hx, IH. cbn [split_at_last].
    replace (i + 1 + Z.of_nat (List.length head))
      with (i + Z.of_nat (List.length (x :: head)))
      by (cbn [List.length]; lia).
    f_equal.
    destruct (split_at_last is_curve_marker head) as [[[b y] a]|].
    + f_equal. cbn [List.length]. lia.
    + destruct (is_curve_marker x); [|reflexivity].
      f_equal. simpl. lia.
Qed.

(** The scan of a text with an ASCII marker, cut at the first one. *)
Lemma find_sections_marker (head : list string) (am : string)
    (data_lines : list string) :
  Forall (fun l => is_ascii_marker l = false) head ->
  is_ascii_marker am = true ->
  Las.find_sections (head ++ am :: data_lines) 0 None
  = (match split_at_last is_curve_marker head with
     | Some (before, _, _) => Some (Z.of_nat (List.length before))
     | None => None
     end,
     Some (Z.of_nat (List.length head) + 1)).
Proof.
  intros Hh Ha. rewrite find_sections_app by assumption.
  cbn [Las.find_sections].
  change (Str.startswith (Str.strip am) Las.ascii_marker)
    with (is_ascii_marker am).
  change (Str.startswith (Str.strip am) Las.curve_marker)
    with (is_curve_marker am).
  rewrite Ha.
  destruct (is_curve_marker am) eqn:Hc.
  - apply markers_exclusive in Hc. congruence.
  - reflexivity.
Qed.

Lemma find_sections_no_marker (lines : list string) :
  Forall (fun l => is_ascii_marker l = false) lines ->
  snd (Las.find_sections lines 0 None) = None.
Proof.
  intros H. rewrite <- (app_nil_r lines), find_sections_app by assumption.
  reflexivity.
Qed.

(** *** Slices *)

Lemma slice_middle {A : Type} (before mid after : list A) :
  PyList.slice (before ++ mid ++ after)
    (Z.of_nat (List.length before))
    (Z.of_nat (List.length before) + Z.of_nat (List.length mid))
  = mid.
Proof.
  unfold PyList.slice, PyList.slice_bound.
  rewrite !length_app.
  destruct (Z.ltb_spec (Z.of_nat (List.length before)) 0); [lia|].
  destruct (Z.ltb_spec
              (Z.of_nat (List.length before) + Z.of_nat (List.length mid)) 0);
    [lia|].
  rewrite !Z.min_l by lia.
  rewrite Nat2Z.id.
  replace (Z.to_nat _) with (List.length mid) by lia.
  rewrite skipn_app, skipn_all, Nat.sub_diag. simpl.
  rewrite firstn_app, firstn_all, Nat.sub_diag. simpl.
  apply app_nil_r.
Qed.

Lemma slice_from_tail {A : Type} (before after : list A) :
  PyList.slice_from (before ++ after) (Some (Z.of_nat (List.length before)))
  = after.
Proof.
  unfold PyList.slice_from, PyList.slice_bound.
  rewrite length_app.
  destruct (Z.ltb_spec (Z.of_nat (List.length before)) 0); [lia|].
  rewrite Z.min_l by lia. rewrite Nat2Z.id.
  rewrite skipn_app, skipn_all, Nat.sub_diag. reflexivity.
Qed.

End Scan.

(** ** The two loops of the parser *)

Section Loops.

Lemma curve_name_step_spec (names : list string) (line : string) :
  Las.curve_name_step names line
  = if is_declaration line then names ++ [mnemonic line] else names.
Proof.
  unfold Las.curve_name_step, is_declaration.
  rewrite truthy_strip.
  destruct (blank line) eqn:Hb; simpl.
  - now rewrite orb_true_r.
  - rewrite orb_false_r.
    destruct (Str.startswith (Str.strip line) "#"); simpl; [reflexivity|].
    destruct (split_blank line Hb) as (part0 & parts & E).
    rewrite E. rewrite <- first_part_mnemonic, E. reflexivity.
Qed.

(** The curve names are the mnemonics of the declaration lines, in the
    order of the lines, one name per line. *)
Lemma parse_curve_names_spec (lines : list string) :
  Las.parse_curve_names lines = map mnemonic (filter is_declaration lines).
Proof.
  unfold Las.parse_curve_names.
  change (map mnemonic (filter is_declaration lines))
    with ([] ++ map mnemonic (filter is_declaration lines)).
  generalize (@nil string) as names.
  induction lines as [|line lines IH]; intros names; simpl.
  - now rewrite app_nil_r.
  - rewrite IH, curve_name_step_spec.
    destruct (is_declaration line); simpl; [|reflexivity].
    now rewrite <- app_assoc.
Qed.

Lemma float_spec (token : string) :
  PyFloat.float token
  = if numeric token then Ok (value token) else Raise (ValueError_float token).
Proof.
  unfold PyFloat.float, numeric, value, PyFloat.lit.
  destruct (PyFloat.parse token); reflexivity.
Qed.

(** Converting a row of tokens: the first token that is not numeric
    raises. *)
Lemma mapM_float (tokens : list string) :
  mapM PyFloat.float tokens
  = match List.find (fun t => negb (numeric t)) tokens with
    | Some t => Raise (ValueError_float t)
    | None => Ok (map value tokens)
    end.
Proof.
  induction tokens as [|t tokens IH]; simpl; [reflexivity|].
  rewrite float_spec. destruct (numeric t); simpl; [|reflexivity].
  rewrite IH. destruct (List.find _ tokens); reflexivity.
Qed.

Lemma find_app {A : Type} (f : A -> bool) (l1 l2 : list A) :
  List.find f (l1 ++ l2)
  = match List.find f l1 with
    | Some x => Some x
    | None => List.find f l2
    end.
Proof.
  induction l1 as [|x l1 IH]; simpl; [reflexivity|].
  destruct (f x); [reflexivity | exact IH].
Qed.

(** The data loop: one row per line that is not blank; the first token of
    the section that is not numeric raises. *)
Lemma parse_data_spec (lines : list string) (data : list (list float)) :
  Las.parse_data lines data
  = match first_bad_token lines with
    | Some t => Raise (ValueError_float t)
    | None => Ok (data ++ map (map value) (token_rows lines))
    end.
Proof.
  unfold first_bad_token, token_rows. revert data.
  induction lines as [|line lines IH]; intros data; simpl.
  - now rewrite app_nil_r.
  - rewrite truthy_strip. destruct (blank line); simpl; [apply IH|].
    rewrite mapM_float, find_app.
    destruct (List.find _ (Str.split line)); simpl; [reflexivity|].
    rewrite IH.
    destruct (List.find _ (List.concat _)); [reflexivity|].
    now rewrite <- app_assoc.
Qed.

End Loops.

(** ** The parser *)

Section Parser.

Local Open Scope Z_scope.

(** A text cut at the curve marker [cm], the last one before the first
    ASCII marker [am]: the names come from the lines between the two, the
    rows from the lines after [am]. *)
Lemma parse_cut (pre : list string) (cm : string) (mid : list string)
    (am : string) (dat : list string) :
  Forall (fun l => is_ascii_marker l = false) pre ->
  is_curve_marker cm = true ->
  Forall (fun l => is_curve_marker l = false /\ is_ascii_marker l = false) mid ->
  is_ascii_marker am = true ->
  Las.find_sections (pre ++ cm :: mid ++ am :: dat) 0 None
  = (Some (Z.of_nat (List.length pre)),
     Some (Z.of_nat (List.length pre + List.length mid + 2)))
  /\ PyList.slice (pre ++ cm :: mid ++ am :: dat)
       (Z.of_nat (List.length pre) + 1)
       (Z.of_nat (List.length pre + List.length mid + 2) - 1) = mid
  /\ Las.parse (pre ++ cm :: mid ++ am :: dat)
     = (data <- Las.parse_data dat [] ;;
        Pandas.new data (Las.parse_curve_names mid)).
Proof.
  intros Hpre Hcm Hmid Ham.
  assert (Hmc : Forall (fun l => is_curve_marker l = false) mid)
    by (eapply Forall_impl; [|exact Hmid]; now intros l [H _]).
  assert (Hma : Forall (fun l => is_ascii_marker l = false) mid)
    by (eapply Forall_impl; [|exact Hmid]; now intros l [_ H]).
  assert (Hhead : Forall (fun l => is_ascii_marker l = false) (pre ++ cm :: mid)).
  { apply Forall_app. split; [exact Hpre|].
    constructor; [now apply markers_exclusive | exact Hma]. }
  assert (Hfind :
    Las.find_sections (pre ++ cm :: mid ++ am :: dat) 0 None
    = (Some (Z.of_nat (List.length pre)),
       Some (Z.of_nat (List.length pre + List.length mid + 2)))).
  { change (pre ++ cm :: mid ++ am :: dat)
      with (pre ++ (cm :: mid) ++ am :: dat).
    rewrite app_assoc, find_sections_marker by assumption.
    rewrite split_at_last_app by assumption.
    rewrite length_app. cbn [List.length]. do 2 f_equal. lia. }
  assert (Hslice :
    PyList.slice (pre ++ cm :: mid ++ am :: dat)
      (Z.of_nat (List.length pre) + 1)
      (Z.of_nat (List.length pre + List.length mid + 2) - 1) = mid).
  { change (pre ++ cm :: mid ++ am :: dat)
      with (pre ++ [cm] ++ mid ++ am :: dat).
    rewrite app_assoc.
    replace (Z.of_nat (List.length pre) + 1)
      with (Z.of_nat (List.length (pre ++ [cm])))
      by (rewrite length_app; simpl; lia).
    replace (Z.of_nat (List.length pre + List.length mid + 2) - 1)
      with (Z.of_nat (List.length (pre ++ [cm])) + Z.of_nat (List.length mid))
      by (rewrite length_app; simpl; lia).
    apply slice_middle. }
  split; [exact Hfind|]. split; [exact Hslice|].
  unfold Las.parse. rewrite Hfind. cbn [PyList.add_int PyList.sub_int bind].
  rewrite Hslice. f_equal.
  change (pre ++ cm :: mid ++ am :: dat)
    with (pre ++ (cm :: mid) ++ [am] ++ dat).
  rewrite !app_assoc.
  replace (Z.of_nat (List.length pre + List.length mid + 2))
    with (Z.of_nat (List.length (((pre ++ cm :: mid) ++ [am]))))
    by (rewrite !length_app; simpl; lia).
  now rewrite slice_from_tail.
Qed.

(** The parser in terms of the two sections of the text. *)
Lemma parse_sections (lines : list string) :
  match sections lines with
  | None => exists op, Las.parse lines = Raise (TypeError op)
  | Some (curve_lines, data_lines) =>
      Las.parse lines
      = (data <- Las.parse_data data_lines [] ;;
         Pandas.new data (Las.parse_curve_names curve_lines))
  end.
Proof.
  unfold sections.
  destruct (split_at_first is_ascii_marker lines) as [[[head am] dat]|] eqn:E1.
  - apply split_at_first_some in E1. destruct E1 as (-> & Ham & Hhead).
    destruct (split_at_last is_curve_marker head) as [[[pre cm] mid]|] eqn:E2.
    + apply split_at_last_some in E2. destruct E2 as (-> & Hcm & Hmid).
      apply Forall_app in Hhead. destruct Hhead as [Hpre Hrest].
      rewrite <- app_assoc. cbn [app].
      apply parse_cut; try assumption.
      inversion Hrest as [|? ? _ Hma]; subst.
      clear - Hmid Hma. induction Hmid; inversion Hma; subst; auto.
    + exists "+"%string. unfold Las.parse.
      rewrite find_sections_marker, E2 by assumption. reflexivity.
  - apply split_at_first_none in E1.
    pose proof (find_sections_no_marker lines E1) as H.
    unfold Las.parse.
    destruct (Las.find_sections lines 0 None) as [[c|] a];
      simpl in H; subst a; eexists; reflexivity.
Qed.

Lemma find_all_false {A : Type} (f : A -> bool) (l : list A) :
  Forall (fun x => f x = false) l -> List.find f l = None.
Proof.
  induction 1 as [|x l Hx _ IH]; simpl; [reflexivity | now rewrite Hx].
Qed.

Lemma width_uniform (k : nat) (data : list (list float)) :
  data <> [] -> Forall (fun r => List.length r = k) data ->
  Pandas.width data = k.
Proof.
  unfold Pandas.width. intros Hne H.
  induction H as [|r rest Hr Hd IH]; [contradiction|].
  simpl. rewrite Hr. destruct rest as [|r' rest]; simpl.
  - apply Nat.max_0_r.
  - simpl in IH. rewrite IH by discriminate. apply Nat.max_id.
Qed.

Lemma pad_full (row : list float) : Pandas.pad (List.length row) row = row.
Proof.
  unfold Pandas.pad. rewrite Nat.sub_diag. apply app_nil_r.
Qed.

(** A table whose rows all have as many cells as there are names is taken
    as it is. *)
Lemma new_uniform (names : list string) (data : list (list float)) :
  Forall (fun r => List.length r = List.length names) data ->
  Pandas.new data names = Ok {| columns := names; rows := data |}.
Proof.
  intros H. unfold Pandas.new. destruct data as [|r data]; [reflexivity|].
  rewrite (width_uniform (List.length names)) by (assumption || discriminate).
  rewrite Nat.eqb_refl. do 2 f_equal.
  clear - H. induction H as [|r' rest Hr _ IH]; [reflexivity|].
  simpl. rewrite IH. f_equal. rewrite <- Hr. apply pad_full.
Qed.

End Parser.

(** ** Claims on the parser *)

Section ParserClaims.

(** C1.  A well-formed LAS text: a curve marker [cm], the last before the
    first ASCII marker [am]; [k] declaration lines between the two; [n]
    lines after [am] that are not blank, each of [k] numeric tokens.  The
    parser returns a frame whose [k] column names are the mnemonics of the
    declaration lines in the order of the file, one per line (so a mnemonic
    declared twice is there twice), and whose table has [n] rows of [k]
    cells each, the values of the tokens. *)
Theorem parse_well_formed (pre : list string) (cm : string)
    (mid : list string) (am : string) (dat : list string) (k n : nat) :
  Forall (fun l => is_ascii_marker l = false) pre ->
  is_curve_marker cm = true ->
  Forall (fun l => is_curve_marker l = false /\ is_ascii_marker l = false) mid ->
  is_ascii_marker am = true ->
  List.length (filter is_declaration mid) = k ->
  List.length (filter (fun l => negb (blank l)) dat) = n ->
  Forall (fun l => blank l = false ->
                   List.length (Str.split l) = k /\
                   forallb numeric (Str.split l) = true) dat ->
  exists names table,
    Las.parse (pre ++ cm :: mid ++ am :: dat)
    = Ok {| columns := names; rows := table |} /\
    names = map mnemonic (filter is_declaration mid) /\
    List.length names = k /\
    List.length table = n /\
    Forall (fun row => List.length row = k) table /\
    table = map (fun l => map value (Str.split l))
              (filter (fun l => negb (blank l)) dat).
Proof.
  intros Hpre Hcm Hmid Ham Hk Hn Hdat.
  destruct (parse_cut pre cm mid am dat Hpre Hcm Hmid Ham) as (_ & _ & ->).
  rewrite parse_data_spec, parse_curve_names_spec.
  assert (Hrows : Forall (fun r => List.length r = k /\ forallb numeric r = true)
                    (token_rows dat)).
  { unfold token_rows. clear - Hdat.
    induction Hdat as [|l dat Hl _ IH]; simpl; [constructor|].
    destruct (blank l); simpl; auto. }
  assert (Hbad : first_bad_token dat = None).
  { unfold first_bad_token. apply find_all_false.
    clear - Hrows. induction Hrows as [|r rs [_ Hr] _ IH]; simpl; [constructor|].
    apply Forall_app. split; [|exact IH].
    rewrite forallb_forall in Hr. apply Forall_forall.
    intros t Ht. now rewrite Hr. }
  rewrite Hbad. cbn [bind app].
  assert (Hlen : Forall (fun r : list float =>
                           List.length r
                           = List.length (map mnemonic (filter is_declaration mid)))
                   (map (map value) (token_rows dat))).
  { rewrite length_map, Hk. clear - Hrows.
    induction Hrows as [|r rs [Hr _] _ IH]; simpl; constructor; [|exact IH].
    now rewrite length_map. }
  rewrite new_uniform by exact Hlen.
  eexists _, _. split; [reflexivity|].
  split; [reflexivity|].
  split; [now rewrite length_map|].
  split; [unfold token_rows; now rewrite !length_map|].
  split; [now rewrite length_map, Hk in Hlen|].
  unfold token_rows. now rewrite map_map.
Qed.

(** C1, on the sample text: three curve names and two rows of three
    cells. *)
Lemma parse_well_formed_witness :
  exists names table,
    Las.parse sample_las = Ok {| columns := names; rows := table |} /\
    names = ["DEPT"; "NEU"; "DEN"] /\
    List.length names = 3 /\
    List.length table = 2 /\
    Forall (fun row => List.length row = 3) table /\
    table = [[value "479.0"; value "0.25"; value "2.41"];
             [value "479.5"; value "-999.25"; value "2.43"]].
Proof.
  exact (parse_well_formed
           (firstn 3 sample_las) (nth 3 sample_las "")
           (firstn 5 (skipn 4 sample_las)) (nth 9 sample_las "")
           (skipn 10 sample_las) 3 2
           ltac:(repeat constructor) eq_refl ltac:(repeat constructor) eq_refl
           eq_refl eq_refl
           ltac:(repeat constructor; (discriminate || reflexivity))).
Defined.

(** C2, as the specification has it, fails: a data row with one field
    under two curve names is accepted, its missing cell being NaN. *)
Lemma parse_accepts_short_row :
  token_rows (skipn 4 short_row_las) = [["1.0"; "2.0"]; ["3.0"]] /\
  Las.parse short_row_las
  = Ok {| columns := ["DEPT"; "GR"];
          rows := [[value "1.0"; value "2.0"]; [value "3.0"; F.nan]] |}.
Proof.
  split; reflexivity.
Qed.

(** C2, amended.  The parser raises in exactly three cases, and returns a
    frame in every other:
    - there is no ASCII marker, or no curve marker before the first one:
      [TypeError];
    - a token of the data section is not numeric: [ValueError] with the
      first such token;
    - there is a data row, and the longest row has not as many fields as
      there are curve names: [ValueError] with the two counts.
    A row shorter than the longest is filled with NaN. *)
Theorem parse_raises (lines : list string) :
  match sections lines with
  | None => exists op, Las.parse lines = Raise (TypeError op)
  | Some (curve_lines, data_lines) =>
      let names := map mnemonic (filter is_declaration curve_lines) in
      let widest := list_max (map (@List.length string) (token_rows data_lines)) in
      match first_bad_token data_lines with
      | Some t => Las.parse lines = Raise (ValueError_float t)
      | None =>
          match token_rows data_lines with
          | [] => Las.parse lines = Ok {| columns := names; rows := [] |}
          | _ :: _ =>
              if Nat.eqb (List.length names) widest
              then Las.parse lines
                   = Ok {| columns := names;
                           rows := map (fun r => Pandas.pad widest (map value r))
                                     (token_rows data_lines) |}
              else Las.parse lines
                   = Raise (ValueError_columns (List.length names) widest)
          end
      end
  end.
Proof.
  pose proof (parse_sections lines) as H.
  destruct (sections lines) as [[curve_lines data_lines]|]; [|exact H].
  rewrite H, parse_data_spec, parse_curve_names_spec. clear H.
  destruct (first_bad_token data_lines); [reflexivity|].
  cbv zeta. cbn [bind app].
  assert (Hw : Pandas.width (map (map value) (token_rows data_lines))
               = list_max (map (@List.length string) (token_rows data_lines))).
  { unfold Pandas.width, list_max. rewrite map_map. f_equal.
    apply map_ext. intros r. apply length_map. }
  unfold Pandas.new. rewrite Hw.
  destruct (token_rows data_lines) as [|r rs] eqn:E; [reflexivity|].
  clear E Hw. cbn [map].
  destruct (Nat.eqb _ _); [|reflexivity].
  now rewrite map_map.
Qed.

(** C9.  With several curve markers before the first ASCII marker (any
    number of them in [pre]), the scan records the last one, [cm], and stops
    at the first ASCII marker, [am], whatever follows it; the curve names
    are those of the lines between [cm] and [am] alone. *)
Theorem last_curve_marker_wins (pre : list string) (cm : string)
    (mid : list string) (am : string) (dat : list string) :
  Forall (fun l => is_ascii_marker l = false) pre ->
  is_curve_marker cm = true ->
  Forall (fun l => is_curve_marker l = false /\ is_ascii_marker l = false) mid ->
  is_ascii_marker am = true ->
  Las.find_sections (pre ++ cm :: mid ++ am :: dat) 0%Z None
  = (Some (Z.of_nat (List.length pre)),
     Some (Z.of_nat (List.length pre + List.length mid + 2))) /\
  Las.parse_curve_names
    (PyList.slice (pre ++ cm :: mid ++ am :: dat)
       (Z.of_nat (List.length pre) + 1)
       (Z.of_nat (List.length pre + List.length mid + 2) - 1))
  = map mnemonic (filter is_declaration mid) /\
  Las.parse (pre ++ cm :: mid ++ am :: dat)
  = (data <- Las.parse_data dat [] ;;
     Pandas.new data (map mnemonic (filter is_declaration mid))).
Proof.
  intros Hpre Hcm Hmid Ham.
  destruct (parse_cut pre cm mid am dat Hpre Hcm Hmid Ham) as (H1 & H2 & H3).
  rewrite H2, H3, parse_curve_names_spec. auto.
Qed.

(** C9, on the sample text: the curve marker of line 1 and the name OLD
    that follows it are dropped; the block starts at line 3. *)
Lemma last_curve_marker_wins_witness :
  is_curve_marker (nth 1 sample_las "") = true /\
  Las.find_sections sample_las 0%Z None = (Some 3%Z, Some 10%Z) /\
  Las.parse_curve_names (PyList.slice sample_las (3 + 1) (10 - 1))
  = ["DEPT"; "NEU"; "DEN"] /\
  Las.parse sample_las
  = (data <- Las.parse_data (skipn 10 sample_las) [] ;;
     Pandas.new data ["DEPT"; "NEU"; "DEN"]).
Proof.
  split; [reflexivity|].
  exact (last_curve_marker_wins
           (firstn 3 sample_las) (nth 3 sample_las "")
           (firstn 5 (skipn 4 sample_las)) (nth 9 sample_las "")
           (skipn 10 sample_las)
           ltac:(repeat constructor) eq_refl ltac:(repeat constructor) eq_refl).
Defined.

End ParserClaims.

(** ** The order of binary64 floats *)

Section FloatFacts.

Ltac compare_cases :=
  repeat
    (match goal with
     | H : context [Pos.compare_cont Eq ?a ?b] |- _ =>
         change (Pos.compare_cont Eq a b) with (Pos.compare a b) in H
     | |- context [Pos.compare_cont Eq ?a ?b] =>
         change (Pos.compare_cont Eq a b) with (Pos.compare a b)
     | H : context [Z.compare ?a ?b] |- _ =>
         destruct (Z.compare_spec a b)
     | |- context [Z.compare ?a ?b] =>
         destruct (Z.compare_spec a b)
     | H : context [Pos.compare ?a ?b] |- _ =>
         destruct (Pos.compare_spec a b)
     | |- context [Pos.compare ?a ?b] =>
         destruct (Pos.compare_spec a b)
     end;
     cbn [CompOpp option_map] in *; subst;
     try discriminate; try reflexivity; try lia).

Lemma compare_antisym (x y : float) :
  SFcompare y x = option_map CompOpp (SFcompare x y).
Proof.
  destruct x as [s1|s1| |s1 m1 e1], y as [s2|s2| |s2 m2 e2];
    cbn [SFcompare option_map CompOpp]; try reflexivity;
    try (destruct s1; reflexivity); try (destruct s2; reflexivity);
    destruct s1, s2; try reflexivity; cbn [CompOpp];
    f_equal; compare_cases.
Qed.

Lemma ltb_not_nan (x y : float) :
  F.ltb x y = true -> F.is_nan x = false /\ F.is_nan y = false.
Proof.
  destruct x, y; cbn; intros H; try discriminate; auto.
Qed.

Lemma ltb_asym (x y : float) : F.ltb x y = true -> F.ltb y x = false.
Proof.
  unfold F.ltb, SFltb. rewrite (compare_antisym x y).
  destruct (SFcompare x y) as [[]|]; cbn; congruence.
Qed.

Lemma ltb_trans (x y z : float) :
  F.ltb x y = true -> F.ltb y z = true -> F.ltb x z = true.
Proof.
  unfold F.ltb, SFltb.
  destruct x as [s1|s1| |s1 m1 e1], y as [s2|s2| |s2 m2 e2],
           z as [s3|s3| |s3 m3 e3];
    cbn [SFcompare]; try discriminate; try reflexivity;
    try (destruct s1); try (destruct s2); try (destruct s3);
    try discriminate; try reflexivity; intros H1 H2; compare_cases.
Qed.

(** On numbers, [<=] is the negation of the converse [<]. *)
Lemma leb_ltb (x y : float) :
  F.is_nan x = false -> F.is_nan y = false ->
  F.leb x y = negb (F.ltb y x).
Proof.
  unfold F.leb, F.ltb, SFleb, SFltb. rewrite (compare_antisym x y).
  destruct x, y; cbn [F.is_nan]; try discriminate; intros _ _;
    match goal with
    | |- context [SFcompare ?a ?b] =>
        destruct (SFcompare a b) as [[]|] eqn:E; try reflexivity;
        cbn in E; discriminate
    end.
Qed.

(** Two numbers that are not equal: one is strictly below the other. *)
Lemma neb_ltb (x y : float) :
  F.is_nan x = false -> F.is_nan y = false -> F.neb x y = true ->
  F.ltb x y = true \/ F.ltb y x = true.
Proof.
  unfold F.neb, F.ltb, SFeqb, SFltb. rewrite (compare_antisym x y).
  destruct x, y; cbn [F.is_nan]; try discriminate; intros _ _;
    match goal with
    | |- context [SFcompare ?a ?b] =>
        destruct (SFcompare a b) as [[]|] eqn:E; cbn; auto; try discriminate;
        cbn in E; discriminate
    end.
Qed.

(** numpy's sorting order is a strict order. *)
Lemma np_lt_asym (a b : float) : Np.lt a b = true -> Np.lt b a = false.
Proof.
  unfold Np.lt. intros H. apply orb_true_iff in H. destruct H as [H|H].
  - rewrite (ltb_asym _ _ H). apply ltb_not_nan in H. destruct H as [-> _].
    reflexivity.
  - apply andb_true_iff in H. destruct H as [Hb Ha].
    destruct b; try discriminate. destruct a; try discriminate; reflexivity.
Qed.

Lemma np_lt_trans (a b c : float) :
  Np.lt a b = true -> Np.lt b c = true -> Np.lt a c = true.
Proof.
  unfold Np.lt. intros H1 H2.
  apply orb_true_iff in H1. apply orb_true_iff in H2.
  destruct H1 as [H1|H1], H2 as [H2|H2].
  - now rewrite (ltb_trans _ _ _ H1 H2).
  - apply ltb_not_nan in H1. destruct H1 as [-> _].
    apply andb_true_iff in H2. destruct H2 as [-> _].
    apply orb_true_r.
  - apply andb_true_iff in H1. destruct H1 as [Hb _].
    destruct b; discriminate.
  - apply andb_true_iff in H1. destruct H1 as [Hb _].
    apply andb_true_iff in H2. destruct H2 as [_ Hb'].
    rewrite Hb in Hb'. discriminate.
Qed.

(** Two numbers that Python's [!=] tells apart differ as depths. *)
Lemma numbers_differ (a b : float) :
  F.is_nan a = false -> F.is_nan b = false -> F.neb a b = true ->
  depths_differ a b = true.
Proof.
  intros Ha Hb Hne. unfold depths_differ, Np.lt.
  destruct (neb_ltb a b Ha Hb Hne) as [H|H]; rewrite H; cbn [orb];
    [reflexivity | apply orb_true_r].
Qed.

(** No depth differs from itself, and NaN does not differ from NaN. *)
Lemma depths_differ_irrefl (a : float) : depths_differ a a = false.
Proof.
  unfold depths_differ. destruct (Np.lt a a) eqn:H; [|reflexivity].
  now rewrite (np_lt_asym _ _ H) in H.
Qed.

End FloatFacts.

(** ** Sorting by key *)

Section Sorting.

Context {A : Type} (key : A -> float).

Local Abbreviation before := (sorts_before key).
Local Abbreviation differ := (keys_differ key).

Lemma insert_by_perm (x : A) (l : list A) :
  Permutation (Np.insert_by key x l) (x :: l).
Proof.
  induction l as [|y l IH]; simpl; [reflexivity|].
  destruct (Np.lt (key y) (key x)); [|reflexivity].
  rewrite IH. apply perm_swap.
Qed.

Lemma sort_by_perm (l : list A) : Permutation (Np.sort_by key l) l.
Proof.
  induction l as [|x l IH]; simpl; [reflexivity|].
  now rewrite insert_by_perm, IH.
Qed.

Lemma insert_by_sorted (x : A) (l : list A) :
  StronglySorted before l -> Forall (differ x) l ->
  StronglySorted before (Np.insert_by key x l).
Proof.
  induction 1 as [|y l Hs IH Hy]; intros Hx; simpl.
  - repeat constructor.
  - inversion Hx as [|? ? Hxy Hxl]; subst.
    destruct (Np.lt (key y) (key x)) eqn:E.
    + constructor; [now apply IH|].
      eapply Permutation_Forall;
        [symmetry; apply insert_by_perm | now constructor].
    + constructor; [now constructor|].
      assert (Hb : before x y).
      { unfold keys_differ, depths_differ in Hxy.
        rewrite E, orb_false_r in Hxy. exact Hxy. }
      constructor; [exact Hb|].
      eapply Forall_impl; [|exact Hy].
      intros z Hz. exact (np_lt_trans _ _ _ Hb Hz).
Qed.

Lemma sort_by_sorted (l : list A) :
  ForallOrdPairs differ l -> StronglySorted before (Np.sort_by key l).
Proof.
  induction 1 as [|x l Hx _ IH]; simpl; [constructor|].
  apply insert_by_sorted; [exact IH|].
  eapply Permutation_Forall; [symmetry; apply sort_by_perm | exact Hx].
Qed.

Lemma differ_sym (a b : A) : differ a b -> differ b a.
Proof.
  unfold keys_differ, depths_differ. now rewrite orb_comm.
Qed.

Lemma differ_perm (l1 l2 : list A) :
  Permutation l1 l2 -> ForallOrdPairs differ l1 -> ForallOrdPairs differ l2.
Proof.
  induction 1 as [|x l1 l2 Hp IH|x y l|l1 l2 l3 _ IH1 _ IH2]; intros H.
  - constructor.
  - inversion H; subst. constructor; [|now apply IH].
    eapply Permutation_Forall; eassumption.
  - inversion H as [|? ? Hy Hr]; subst.
    inversion Hr as [|? ? Hx Hl]; subst.
    inversion Hy as [|? ? Hyx Hyl]; subst.
    constructor; [constructor; [now apply differ_sym | exact Hx]|].
    now constructor.
  - auto.
Qed.

(** Two lists sorted strictly that hold the same elements are equal. *)
Lemma sorted_unique (l1 l2 : list A) :
  StronglySorted before l1 -> StronglySorted before l2 ->
  Permutation l1 l2 -> l1 = l2.
Proof.
  intros H1. revert l2.
  induction H1 as [|x l1 Hs1 IH Hx]; intros l2 H2 Hp.
  - apply Permutation_nil in Hp. now subst.
  - destruct H2 as [|y l2 Hs2 Hy].
    + symmetry in Hp. apply Permutation_nil in Hp. discriminate.
    + assert (E : x = y).
      { assert (Hin1 : In x (y :: l2))
          by (eapply Permutation_in; [exact Hp | now left]).
        assert (Hin2 : In y (x :: l1))
          by (eapply Permutation_in; [symmetry; exact Hp | now left]).
        destruct Hin1 as [E|Hin1]; [now symmetry|].
        destruct Hin2 as [E|Hin2]; [exact E|].
        rewrite Forall_forall in Hx, Hy.
        specialize (Hx _ Hin2). specialize (Hy _ Hin1).
        unfold sorts_before in Hx, Hy.
        rewrite (np_lt_asym _ _ Hx) in Hy. discriminate. }
      subst y. f_equal. apply IH; [exact Hs2|].
      eapply Permutation_cons_inv. exact Hp.
Qed.

(** Sorting does not depend on the order in which elements whose keys
    differ are given. *)
Lemma sort_by_permutation (l1 l2 : list A) :
  Permutation l1 l2 -> ForallOrdPairs differ l1 ->
  Np.sort_by key l1 = Np.sort_by key l2.
Proof.
  intros Hp Hd. apply sorted_unique.
  - now apply sort_by_sorted.
  - apply sort_by_sorted. eapply differ_perm; eassumption.
  - now rewrite !sort_by_perm.
Qed.

End Sorting.

Section SortingMaps.

Context {A B : Type} (key1 : A -> float) (key2 : B -> float) (f : A -> B).
Hypothesis key_f : forall x, key2 (f x) = key1 x.

Lemma insert_by_map (x : A) (l : list A) :
  Np.insert_by key2 (f x) (map f l) = map f (Np.insert_by key1 x l).
Proof.
  induction l as [|y l IH]; simpl; [reflexivity|].
  rewrite !key_f. destruct (Np.lt (key1 y) (key1 x)); simpl; [|reflexivity].
  now rewrite IH.
Qed.

Lemma sort_by_map (l : list A) :
  Np.sort_by key2 (map f l) = map f (Np.sort_by key1 l).
Proof.
  induction l as [|x l IH]; simpl; [reflexivity|].
  now rewrite IH, insert_by_map.
Qed.

End SortingMaps.

(** ** [argsort] and the two sorted lists *)

Section Argsort.

Lemma enumerate_from_map {A B : Type} (f : A -> B) (n : nat) (l : list A) :
  PyList.enumerate_from n (map f l)
  = map (fun p => (fst p, f (snd p))) (PyList.enumerate_from n l).
Proof.
  revert n. induction l as [|x l IH]; intros n; simpl; [reflexivity|].
  now rewrite IH.
Qed.

Lemma enumerate_from_snd {A : Type} (n : nat) (l : list A) :
  map snd (PyList.enumerate_from n l) = l.
Proof.
  revert n. induction l as [|x l IH]; intros n; simpl; [reflexivity|].
  now rewrite IH.
Qed.

Lemma enumerate_from_nth {A : Type} (n : nat) (l : list A) :
  Forall (fun p => n <= fst p /\ nth_error l (fst p - n) = Some (snd p))
    (PyList.enumerate_from n l).
Proof.
  revert n. induction l as [|x l IH]; intros n; simpl; constructor.
  - simpl. now rewrite Nat.sub_diag.
  - eapply Forall_impl; [|apply (IH (S n))].
    intros [i y] [Hle Hnth]. simpl in *. split; [lia|].
    replace (i - n) with (S (i - S n)) by lia. exact Hnth.
Qed.

Lemma mapM_get {A B : Type} (g : A -> B) (l : list A) (s : list (nat * A)) :
  Forall (fun p => nth_error l (fst p) = Some (snd p)) s ->
  mapM (PyList.get (map g l)) (map fst s) = Ok (map (fun p => g (snd p)) s).
Proof.
  induction 1 as [|p s Hp _ IH]; simpl; [reflexivity|].
  unfold PyList.get at 1. rewrite nth_error_map, Hp. simpl.
  now rewrite IH.
Qed.

(** Reading a list of the tops at the sorted indices gives that list for
    the tops sorted by depth. *)
Lemma argsort_apply {B : Type} (g : string * float -> B)
    (tops : list (string * float)) :
  mapM (PyList.get (map g tops)) (Np.argsort (map snd tops))
  = Ok (map g (Np.sort_by snd tops)).
Proof.
  unfold Np.argsort, PyList.enumerate.
  rewrite enumerate_from_map.
  rewrite (sort_by_map (fun p : nat * (string * float) => snd (snd p)) snd
             (fun p => (fst p, snd (snd p))))
    by reflexivity.
  rewrite map_map. cbn [fst].
  rewrite mapM_get.
  - f_equal.
    rewrite <- (enumerate_from_snd 0 tops) at 2.
    rewrite (sort_by_map (fun p : nat * (string * float) => snd (snd p)) snd snd)
      by reflexivity.
    now rewrite map_map.
  - eapply Permutation_Forall; [symmetry; apply sort_by_perm|].
    eapply Forall_impl; [|apply (enumerate_from_nth 0 tops)].
    intros p [_ H]. now rewrite Nat.sub_0_r in H.
Qed.

End Argsort.

(** ** Frames *)

Section Frames.

Lemma position_once (cols : list string) (c : string) (j : nat) :
  nth_error cols j = Some c -> count_occ string_dec cols c = 1 ->
  Pandas.position c cols = Some j.
Proof.
  revert j. induction cols as [|c' cols IH]; intros j Hn Hc.
  - destruct j; discriminate.
  - simpl in Hc. simpl. destruct (string_dec c' c) as [->|Hne].
    + rewrite String.eqb_refl. destruct j as [|j]; [reflexivity|].
      simpl in Hn. apply nth_error_In in Hn.
      apply (count_occ_In string_dec) in Hn. lia.
    + apply String.eqb_neq in Hne. rewrite Hne.
      destruct j as [|j]; simpl in Hn.
      * injection Hn as ->. now rewrite String.eqb_refl in Hne.
      * now rewrite (IH j Hn Hc).
Qed.

Lemma position_bound (cols : list string) (c : string) (j : nat) :
  Pandas.position c cols = Some j -> j < List.length cols.
Proof.
  revert j. induction cols as [|c' cols IH]; intros j; simpl; [discriminate|].
  destruct (String.eqb c' c).
  - intros [= <-]. lia.
  - destruct (Pandas.position c cols) as [j'|]; [|discriminate].
    intros [= <-]. specialize (IH j' eq_refl). lia.
Qed.

Lemma getitem_column (df : DataFrame) (c : string) (j : nat) :
  names_column df c j ->
  Pandas.getitem df c = Ok (map (fun r => nth j r F.nan) (rows df)).
Proof.
  intros [Hn Hc]. unfold Pandas.getitem.
  now rewrite (position_once _ _ _ Hn Hc).
Qed.

(** Selecting with the conjunction of two tests on the rows is filtering
    with both. *)
Lemma select_band (a b : list float -> bool) (rs : list (list float)) :
  Pandas.select rs (Pandas.band (map a rs) (map b rs))
  = filter (fun r => a r && b r) rs.
Proof.
  unfold Pandas.band.
  induction rs as [|r rs IH]; simpl; [reflexivity|].
  rewrite IH. reflexivity.
Qed.

(** The valid samples of the renderer. *)
Lemma select_not_null (df : DataFrame) (i j : nat) :
  Pandas.select (rows df)
    (Pandas.band
       (Crossplots.not_null (map (fun r => nth i r F.nan) (rows df)))
       (Crossplots.not_null (map (fun r => nth j r F.nan) (rows df))))
  = valid_rows df i j.
Proof.
  unfold Crossplots.not_null. rewrite !map_map.
  apply (select_band
           (fun r => F.neb (nth i r F.nan) Crossplots.null_value)
           (fun r => F.neb (nth j r F.nan) Crossplots.null_value)).
Qed.

(** The renderer, once its two columns are found. *)
Lemma crossplot_valid_rows (df : DataFrame)
    (neutron_col density_col depth_col : string)
    (tops : option (list (string * float))) (ttl : string) (i j : nat) :
  names_column df neutron_col i -> names_column df density_col j ->
  Crossplots.neutron_density_crossplot df neutron_col density_col depth_col
    tops ttl
  = match valid_rows df i j with
    | [] => Ok Crossplots.NoData
    | _ :: _ =>
        Crossplots.plot_valid_data
          {| columns := columns df; rows := valid_rows df i j |}
          neutron_col density_col depth_col tops ttl
    end.
Proof.
  intros Hi Hj. unfold Crossplots.neutron_density_crossplot.
  rewrite (getitem_column _ _ _ Hi), (getitem_column _ _ _ Hj).
  cbn [bind]. unfold Pandas.mask_rows. cbn [rows].
  rewrite select_not_null.
  destruct (valid_rows df i j); reflexivity.
Qed.

End Frames.

(** ** Classification *)

Section Classification.

(** The inner loop, started at any point of the list of tops: it ends on
    the last top at or above the depth among those it runs over, and stays
    where it started when there is none. *)
Lemma formation_idx_scan (d : float) (l pre : list (string * float))
    (acc : nat) :
  nth_error (map fst (pre ++ l))
    (fold_left
       (fun idx '(i, top_depth) => if F.geb d top_depth then i else idx)
       (PyList.enumerate_from (List.length pre) (map snd l)) acc)
  = match filter (fun t => F.leb (snd t) d) l with
    | [] => nth_error (map fst (pre ++ l)) acc
    | q :: qs => Some (fst (last (q :: qs) ("", F.nan)))
    end.
Proof.
  revert pre acc. induction l as [|t l IH]; intros pre acc.
  - reflexivity.
  - cbn [map PyList.enumerate_from fold_left filter].
    change (F.geb d (snd t)) with (F.leb (snd t) d).
    replace (S (List.length pre)) with (List.length (pre ++ [t]))
      by (rewrite length_app; simpl; lia).
    replace (pre ++ t :: l) with ((pre ++ [t]) ++ l)
      by (now rewrite <- app_assoc).
    rewrite IH.
    destruct (F.leb (snd t) d).
    + destruct (filter _ l) as [|q qs]; [|reflexivity].
      rewrite <- app_assoc. cbn [app last].
      rewrite nth_error_map, nth_error_app2 by lia.
      now rewrite Nat.sub_diag.
    + reflexivity.
Qed.

Lemma classify_spec (d : float) (tops : list (string * float)) :
  tops <> [] -> classify d tops = Ok (last_top_at_or_above d tops).
Proof.
  intros Hne. unfold classify, PyList.get, Crossplots.formation_idx,
    PyList.enumerate, last_top_at_or_above.
  pose proof (formation_idx_scan d tops [] 0) as H.
  cbn [app List.length] in H. rewrite H. clear H.
  destruct (filter _ tops) as [|q qs]; [|reflexivity].
  destruct tops as [|t tops]; [contradiction | reflexivity].
Qed.

Lemma formation_idx_bound (d : float) (tops : list (string * float)) :
  tops <> [] ->
  Crossplots.formation_idx d (map snd tops) < List.length tops.
Proof.
  intros Hne. pose proof (classify_spec d tops Hne) as H.
  unfold classify, PyList.get in H.
  destruct (nth_error _ _) eqn:E; [|discriminate].
  assert (Hs : nth_error (map fst tops)
                 (Crossplots.formation_idx d (map snd tops)) <> None)
    by congruence.
  apply nth_error_Some in Hs. now rewrite length_map in Hs.
Qed.

Lemma get_color (n idx : nat) :
  idx < n ->
  PyList.get (map Crossplots.Tab10Row (seq 0 n)) idx
  = Ok (Crossplots.Tab10Row idx).
Proof.
  intros H. unfold PyList.get.
  rewrite nth_error_map.
  rewrite (nth_error_nth' _ 0) by (now rewrite length_seq).
  now rewrite seq_nth.
Qed.

(** The loop over the valid rows, for tops that are not empty: it raises
    nothing, and labels every row with the last top at or above its
    depth. *)
Lemma assign_formations_spec (cols : list string) (rs : list (list float))
    (depth_col : string) (z : nat) (tops : list (string * float))
    (colors : list Crossplots.color) (labels : list string) :
  Pandas.position depth_col cols = Some z -> tops <> [] ->
  Crossplots.assign_formations cols rs depth_col
    (map Crossplots.Tab10Row (seq 0 (List.length tops)))
    (map fst tops) (map snd tops) colors labels
  = Ok (colors
          ++ map (fun r => Crossplots.Tab10Row
                             (Crossplots.formation_idx (nth z r F.nan)
                                (map snd tops))) rs,
        labels ++ map (fun r => last_top_at_or_above (nth z r F.nan) tops) rs).
Proof.
  intros Hz Hne. revert colors labels.
  induction rs as [|r rs IH]; intros colors labels; simpl.
  - now rewrite !app_nil_r.
  - unfold Pandas.row_get. rewrite Hz. cbn [bind].
    rewrite get_color by now apply formation_idx_bound.
    cbn [bind].
    pose proof (classify_spec (nth z r F.nan) tops Hne) as Hc.
    unfold classify in Hc. rewrite Hc. cbn [bind].
    rewrite IH, <- !app_assoc. reflexivity.
Qed.

(** With no top at all the loop raises at its first row. *)
Lemma assign_formations_empty (cols : list string) (r : list float)
    (rs : list (list float)) (depth_col : string) (z : nat) :
  Pandas.position depth_col cols = Some z ->
  Crossplots.assign_formations cols (r :: rs) depth_col [] [] [] [] []
  = Raise IndexError.
Proof.
  intros Hz. simpl. unfold Pandas.row_get. now rewrite Hz.
Qed.

(** The plot of the valid samples depends on the tops through their
    number and their sorted list alone. *)
Lemma plot_valid_data_permutation (valid_data : DataFrame)
    (neutron_col density_col depth_col : string)
    (tops1 tops2 : list (string * float)) (ttl : string) :
  Permutation tops1 tops2 -> distinct_depths tops1 ->
  Crossplots.plot_valid_data valid_data neutron_col density_col depth_col
    (Some tops1) ttl
  = Crossplots.plot_valid_data valid_data neutron_col density_col depth_col
      (Some tops2) ttl.
Proof.
  intros Hp Hd. unfold Crossplots.plot_valid_data.
  rewrite !argsort_apply.
  rewrite (Permutation_length Hp).
  now rewrite (sort_by_permutation snd tops1 tops2 Hp Hd).
Qed.

End Classification.

(** ** Claims on the classification and on the cross-plot *)

Section CrossplotClaims.

(** C3.  For tops that are not empty (sorted by depth, as the renderer has
    them, or in any other order), the label of a sample at depth [d] is the
    name of the last top whose depth is at most [d], and the name of the
    first top when no top is that shallow; so it is for every row of the
    loop over the valid samples, the depth being read from the one column
    that has the depth label.  With tops A at 0, B at 100 and C at 200, a
    sample at 50 is in A, at 150 in B, at 250 in C and at -10 in A. *)
Theorem classify_last_top_at_or_above :
  (forall (tops : list (string * float)) (d : float),
      tops <> [] -> classify d tops = Ok (last_top_at_or_above d tops)) /\
  (forall (cols : list string) (rs : list (list float)) (depth_col : string)
          (z : nat) (tops : list (string * float)),
      nth_error cols z = Some depth_col ->
      count_occ string_dec cols depth_col = 1 ->
      tops <> [] ->
      exists colors,
        Crossplots.assign_formations cols rs depth_col
          (map Crossplots.Tab10Row (seq 0 (List.length tops)))
          (map fst tops) (map snd tops) [] []
        = Ok (colors,
              map (fun r => last_top_at_or_above (nth z r F.nan) tops) rs)) /\
  classify (F.of_Z 50) tops_abc = Ok "A" /\
  classify (F.of_Z 150) tops_abc = Ok "B" /\
  classify (F.of_Z 250) tops_abc = Ok "C" /\
  classify (F.of_Z (-10)) tops_abc = Ok "A".
Proof.
  split; [exact (fun tops d => classify_spec d tops)|].
  split.
  - intros cols rs depth_col z tops Hz Hone Hne. eexists.
    now rewrite (assign_formations_spec cols rs depth_col z tops [] []
                   (position_once _ _ _ Hz Hone) Hne).
  - repeat split; reflexivity.
Qed.

(** C3, at the tops A, B, C and the depth 150. *)
Lemma classify_last_top_at_or_above_witness :
  tops_abc <> [] /\
  classify (F.of_Z 150) tops_abc
  = Ok (last_top_at_or_above (F.of_Z 150) tops_abc).
Proof.
  split; [discriminate|].
  apply (proj1 classify_last_top_at_or_above). discriminate.
Defined.

(** C4, as the specification has it, fails: two tops at the same depth are
    not refused; the samples are classified and plotted. *)
Lemma tied_tops_are_classified :
  map snd tops_tied = [F.of_Z 100; F.of_Z 100] /\
  exists ax labels,
    Crossplots.neutron_density_crossplot sample_frame "NEU" "DEN" "DEPT"
      (Some tops_tied) "Cross-plot"
    = Ok (Crossplots.Plotted ax (Some labels)) /\
    List.length labels = 2.
Proof.
  split; [reflexivity|].
  eexists _, _. split; [vm_compute; reflexivity | reflexivity].
Qed.

(** The label chosen among tops that are not empty is the name of one of
    them, and of one at or above the sample when there is any. *)
Lemma last_top_at_or_above_in (d : float) (tops : list (string * float)) :
  tops <> [] ->
  exists t,
    In t tops /\ fst t = last_top_at_or_above d tops /\
    ((exists q, In q tops /\ F.leb (snd q) d = true) ->
     F.leb (snd t) d = true).
Proof.
  intros Hne. unfold last_top_at_or_above.
  destruct (filter (fun t => F.leb (snd t) d) tops) as [|q qs] eqn:E.
  - destruct tops as [|t tops]; [contradiction|].
    exists t. split; [now left|]. split; [reflexivity|].
    intros (q & Hq & Hl).
    assert (Hin : In q (filter (fun t => F.leb (snd t) d) (t :: tops)))
      by (apply filter_In; now split).
    rewrite E in Hin. contradiction.
  - assert (Hin : In (last (q :: qs) ("", F.nan)) (q :: qs)).
    { rewrite (app_removelast_last ("", F.nan)) at 2 by discriminate.
      apply in_or_app. right. now left. }
    assert (Hf : In (last (q :: qs) ("", F.nan))
                   (filter (fun t => F.leb (snd t) d) tops))
      by (rewrite E; exact Hin).
    apply filter_In in Hf. destruct Hf as [Hf Hl].
    exists (last (q :: qs) ("", F.nan)). split; [exact Hf|].
    split; [reflexivity|]. intros _. exact Hl.
Qed.

Lemma Forall2_map_right {A B : Type} (R : A -> B -> Prop) (g : A -> B)
    (l : list A) :
  (forall x, R x (g x)) -> Forall2 R l (map g l).
Proof.
  intros H. induction l as [|x l IH]; cbn [map]; constructor; auto.
Qed.

(** C4, amended.  With the three labels each naming one column of the
    table: when no sample is valid the renderer returns its no-data result
    without looking at the tops, empty or not; when a sample is valid and
    there is no top at all it raises [IndexError] at the first sample,
    before anything is drawn.  The tops are never checked for equal depths:
    whenever the renderer returns a figure for given tops, the tops are not
    empty and every valid sample has one label, the name of one of the tops,
    and of one at or above the sample when there is any, whether or not two
    tops have the same depth; when the depths differ from one another the
    label is that of the last top, in the order of the depths, at or above
    the sample. *)
Theorem tops_empty_or_classified (df : DataFrame)
    (neutron_col density_col depth_col : string) (i j z : nat)
    (tops : list (string * float)) (ttl : string) :
  names_column df neutron_col i ->
  names_column df density_col j ->
  names_column df depth_col z ->
  (valid_rows df i j = [] ->
   Crossplots.neutron_density_crossplot df neutron_col density_col depth_col
     (Some tops) ttl = Ok Crossplots.NoData) /\
  (valid_rows df i j <> [] -> tops = [] ->
   Crossplots.neutron_density_crossplot df neutron_col density_col depth_col
     (Some tops) ttl = Raise IndexError) /\
  (forall ax labels,
      Crossplots.neutron_density_crossplot df neutron_col density_col depth_col
        (Some tops) ttl = Ok (Crossplots.Plotted ax labels) ->
      tops <> [] /\
      exists ls,
        labels = Some ls /\
        Forall2
          (fun r l =>
             exists t,
               In t tops /\ fst t = l /\
               ((exists q, In q tops /\ F.leb (snd q) (nth z r F.nan) = true) ->
                F.leb (snd t) (nth z r F.nan) = true))
          (valid_rows df i j) ls /\
        (distinct_depths tops ->
         ls = map (fun r => last_top_at_or_above (nth z r F.nan)
                              (Np.sort_by snd tops))
                (valid_rows df i j))).
Proof.
  intros Hi Hj Hz.
  rewrite (crossplot_valid_rows df _ _ _ _ _ i j Hi Hj).
  pose proof (position_once _ _ _ (proj1 Hz) (proj2 Hz)) as Hpos.
  split; [|split].
  - now intros ->.
  - intros Hv ->.
    destruct (valid_rows df i j) as [|r rs] eqn:E; [contradiction|].
    unfold Crossplots.plot_valid_data.
    cbn [List.length seq map Np.argsort PyList.enumerate
         PyList.enumerate_from Np.sort_by mapM bind columns rows].
    rewrite (assign_formations_empty _ _ _ _ z Hpos). reflexivity.
  - intros ax labels.
    destruct (valid_rows df i j) as [|r rs] eqn:E; [discriminate|].
    intros H.
    assert (Hne : tops <> []).
    { intros ->. revert H. unfold Crossplots.plot_valid_data.
      cbn [List.length seq map Np.argsort PyList.enumerate
           PyList.enumerate_from Np.sort_by mapM bind columns rows].
      rewrite (assign_formations_empty _ _ _ _ z Hpos). discriminate. }
    split; [exact Hne|]. revert H.
    remember (r :: rs) as vs eqn:Evs. clear Evs E r rs.
    assert (Hs : Np.sort_by snd tops <> []).
    { intros Hnil. apply Hne.
      apply Permutation_nil. rewrite <- Hnil. apply sort_by_perm. }
    unfold Crossplots.plot_valid_data.
    rewrite !argsort_apply. cbn [bind columns rows].
    rewrite <- (Permutation_length (sort_by_perm snd tops)).
    rewrite (assign_formations_spec _ _ _ z _ [] [] Hpos Hs).
    cbn [bind app fst snd].
    assert (Hci : names_column
                    {| columns := columns df; rows := vs |}
                    neutron_col i) by exact Hi.
    assert (Hcj : names_column
                    {| columns := columns df; rows := vs |}
                    density_col j) by exact Hj.
    rewrite (getitem_column _ _ _ Hci), (getitem_column _ _ _ Hcj).
    cbn [bind]. intros [= _ <-].
    eexists. split; [reflexivity|]. split; [|reflexivity].
    apply Forall2_map_right. intros row.
    destruct (last_top_at_or_above_in (nth z row F.nan) _ Hs)
      as (t & Hin & Hname & Hq).
    exists t. split.
    + eapply Permutation_in; [apply sort_by_perm|exact Hin].
    + split; [exact Hname|]. intros (q & Hqin & Hl). apply Hq.
      exists q. split; [|exact Hl].
      eapply Permutation_in; [symmetry; apply sort_by_perm|exact Hqin].
Qed.

(** C4, amended, on the sample table: with no top, and with the tops C, A
    and B. *)
Lemma tops_empty_or_classified_witness :
  valid_rows sample_frame 1 2 <> [] /\
  Crossplots.neutron_density_crossplot sample_frame "NEU" "DEN" "DEPT"
    (Some []) "Cross-plot" = Raise IndexError /\
  match
    Crossplots.neutron_density_crossplot sample_frame "NEU" "DEN" "DEPT"
      (Some tops_cab) "Cross-plot"
  with
  | Ok (Crossplots.Plotted _ labels) => labels = Some ["A"; "C"]
  | _ => False
  end.
Proof.
  split; [discriminate|]. split.
  - apply (tops_empty_or_classified sample_frame "NEU" "DEN" "DEPT" 1 2 0
             [] "Cross-plot").
    + split; reflexivity.
    + split; reflexivity.
    + split; reflexivity.
    + discriminate.
    + reflexivity.
  - destruct (Crossplots.neutron_density_crossplot sample_frame "NEU" "DEN"
                "DEPT" (Some tops_cab) "Cross-plot")
      as [[|ax labels]|e] eqn:E.
    + vm_compute in E. discriminate E.
    + destruct (proj2 (proj2 (tops_empty_or_classified sample_frame "NEU"
                                "DEN" "DEPT" 1 2 0 tops_cab "Cross-plot"
                                (conj eq_refl eq_refl) (conj eq_refl eq_refl)
                                (conj eq_refl eq_refl))) ax labels E)
        as (_ & ls & -> & _ & Hl).
      rewrite Hl; [vm_compute; reflexivity|]. repeat constructor.
    + vm_compute in E. discriminate E.
Defined.

(** C7.  When every row of the table has the null value in the neutron
    column or in the density column, the renderer returns its no-data
    result: it plots nothing and raises nothing, whatever the tops. *)
Theorem all_null_no_data (df : DataFrame)
    (neutron_col density_col depth_col : string) (i j : nat)
    (tops : option (list (string * float))) (ttl : string) :
  names_column df neutron_col i ->
  names_column df density_col j ->
  Forall (fun r => is_null (nth i r F.nan) || is_null (nth j r F.nan) = true)
    (rows df) ->
  Crossplots.neutron_density_crossplot df neutron_col density_col depth_col
    tops ttl = Ok Crossplots.NoData.
Proof.
  intros Hi Hj Hnull.
  rewrite (crossplot_valid_rows df _ _ _ _ _ i j Hi Hj).
  replace (valid_rows df i j) with (@nil (list float)); [reflexivity|].
  unfold valid_rows. induction Hnull as [|r rs Hr _ IH]; [reflexivity|].
  simpl. rewrite <- negb_orb, Hr. exact IH.
Qed.

(** C7, on the table with the null value in every row. *)
Lemma all_null_no_data_witness :
  Crossplots.neutron_density_crossplot null_frame "NEU" "DEN" "DEPT"
    (Some tops_abc) "Cross-plot" = Ok Crossplots.NoData.
Proof.
  apply (all_null_no_data null_frame "NEU" "DEN" "DEPT" 1 2).
  - split; reflexivity.
  - split; reflexivity.
  - repeat constructor.
Defined.

(** C10.  Two orderings of the same tops, whose depths differ from one
    another, give the same outcome for every table: the same labels for the
    valid samples (and the same colours, legend and figure), or the same
    exception. *)
Theorem tops_order_irrelevant (df : DataFrame)
    (neutron_col density_col depth_col : string)
    (tops1 tops2 : list (string * float)) (ttl : string) :
  Permutation tops1 tops2 ->
  distinct_depths tops1 ->
  Crossplots.neutron_density_crossplot df neutron_col density_col depth_col
    (Some tops1) ttl
  = Crossplots.neutron_density_crossplot df neutron_col density_col depth_col
      (Some tops2) ttl.
Proof.
  intros Hp Hd. unfold Crossplots.neutron_density_crossplot.
  destruct (getitem df neutron_col) as [neu|e]; [|reflexivity].
  destruct (getitem df density_col) as [den|e]; [|reflexivity].
  cbn [bind]. destruct (Nat.eqb _ 0); [reflexivity|].
  now apply plot_valid_data_permutation.
Qed.

(** C10, on the sample table, with the tops A, B, C and C, A, B. *)
Lemma tops_order_irrelevant_witness :
  Crossplots.neutron_density_crossplot sample_frame "NEU" "DEN" "DEPT"
    (Some tops_abc) "Cross-plot"
  = Crossplots.neutron_density_crossplot sample_frame "NEU" "DEN" "DEPT"
      (Some tops_cab) "Cross-plot".
Proof.
  apply tops_order_irrelevant.
  - symmetry. exact (Permutation_cons_append (firstn 2 tops_abc) ("C", F.of_Z 200)).
  - repeat constructor.
Defined.

End CrossplotClaims.

(** ** Clipping *)

Section Clipping.

Lemma of_Z_0 : F.of_Z 0 = F.zero.
Proof. reflexivity. Qed.

Lemma of_Z_1 : F.of_Z 1 = F.one.
Proof. reflexivity. Qed.

(** Clipping to 0 and 1 is clamping to the interval. *)
Lemma clip1_clamp01 (x : float) :
  Pandas.clip1 (F.of_Z 0) (F.of_Z 1) x = clamp01 x.
Proof.
  rewrite of_Z_0, of_Z_1. unfold Pandas.clip1, clamp01.
  change (F.geb x F.zero) with (F.leb F.zero x).
  destruct (F.is_nan x) eqn:Hn.
  - destruct x; try discriminate. reflexivity.
  - cbn [orb].
    rewrite (leb_ltb F.zero x eq_refl Hn), (leb_ltb x F.one Hn eq_refl).
    destruct (F.ltb x F.zero) eqn:H0; cbn [negb].
    + destruct (F.ltb F.one x) eqn:H1; [|reflexivity].
      pose proof (ltb_trans _ _ _ H1 H0). discriminate.
    + destruct (F.ltb F.one x); reflexivity.
Qed.

(** A clamped value passes the two range tests unless it is NaN. *)
Lemma clamp01_range (x : float) :
  F.geb (clamp01 x) (F.of_Z 0) && F.leb (clamp01 x) (F.of_Z 1)
  = negb (F.is_nan (clamp01 x)).
Proof.
  rewrite of_Z_0, of_Z_1. unfold clamp01.
  destruct (F.ltb x F.zero) eqn:H0; [reflexivity|].
  destruct (F.ltb F.one x) eqn:H1; [reflexivity|].
  change (F.geb x F.zero) with (F.leb F.zero x).
  destruct (F.is_nan x) eqn:Hn.
  - destruct x; try discriminate. reflexivity.
  - rewrite (leb_ltb F.zero x eq_refl Hn), (leb_ltb x F.one Hn eq_refl).
    now rewrite H0, H1.
Qed.

Lemma band_map (x : list bool) {A : Type} (g h : A -> bool) (l : list A) :
  Pandas.band (Pandas.band x (map g l)) (map h l)
  = Pandas.band x (map (fun p => g p && h p) l).
Proof.
  unfold Pandas.band. revert x.
  induction l as [|p l IH]; intros [|b x]; simpl; try reflexivity.
  now rewrite IH, andb_assoc.
Qed.

Lemma band_all_true (x : list bool) {A : Type} (g : A -> bool) (l : list A) :
  List.length x = List.length l -> Forall (fun p => g p = true) l ->
  Pandas.band x (map g l) = x.
Proof.
  unfold Pandas.band. intros Hlen H. revert x Hlen.
  induction H as [|p l Hp _ IH]; intros [|b x] Hlen; simpl in *;
    try reflexivity; try discriminate.
  rewrite Hp, andb_true_r, IH; [reflexivity | now injection Hlen].
Qed.

End Clipping.

(** ** Setting a column *)

Section SetItem.

Lemma set_nth_length (j : nat) (v : float) (row : list float) :
  List.length (Pandas.set_nth j v row) = List.length row.
Proof.
  revert j. induction row as [|x row IH]; intros [|j]; simpl; auto.
Qed.

Lemma set_nth_nth (j : nat) (v : float) (row : list float) :
  j < List.length row -> nth j (Pandas.set_nth j v row) F.nan = v.
Proof.
  revert j. induction row as [|x row IH]; intros [|j] H; simpl in *;
    try lia; [reflexivity|].
  apply IH. lia.
Qed.

Lemma position_new (c : string) (cols : list string) :
  Pandas.position c cols = None ->
  Pandas.position c (cols ++ [c]) = Some (List.length cols).
Proof.
  induction cols as [|c' cols IH]; simpl.
  - now rewrite String.eqb_refl.
  - destruct (String.eqb c' c); [discriminate|].
    destruct (Pandas.position c cols); [discriminate|].
    intros _. now rewrite IH.
Qed.

Lemma getitem_length (df : DataFrame) (c : string) (s : list float) :
  Pandas.getitem df c = Ok s -> List.length s = List.length (rows df).
Proof.
  unfold Pandas.getitem. destruct (Pandas.position c (columns df));
    [|discriminate].
  intros [= <-]. apply length_map.
Qed.

Lemma rectangular_setitem (df : DataFrame) (c : string) (vals : list float) :
  rectangular df -> rectangular (Pandas.setitem df c vals).
Proof.
  unfold rectangular, Pandas.setitem. intros H.
  destruct (Pandas.position c (columns df)) as [j|]; cbn [columns rows].
  - revert vals. induction H as [|r rs Hr _ IH]; intros [|v vals]; simpl;
      constructor; [now rewrite set_nth_length | apply IH].
  - revert vals. induction H as [|r rs Hr _ IH]; intros [|v vals]; simpl;
      constructor; [|apply IH].
    rewrite !length_app, Hr. reflexivity.
Qed.

(** A column that was set is read back, on a frame whose rows have one
    cell per column. *)
Lemma getitem_setitem (df : DataFrame) (c : string) (vals : list float) :
  rectangular df -> List.length vals = List.length (rows df) ->
  Pandas.getitem (Pandas.setitem df c vals) c = Ok vals.
Proof.
  unfold rectangular, Pandas.getitem, Pandas.setitem. intros H Hlen.
  destruct (Pandas.position c (columns df)) as [j|] eqn:E; cbn [columns rows].
  - rewrite E. f_equal. apply position_bound in E.
    revert vals Hlen. induction H as [|r rs Hr _ IH]; intros [|v vals] Hlen;
      simpl in *; try reflexivity; try discriminate.
    rewrite set_nth_nth by lia. f_equal. apply IH. now injection Hlen.
  - rewrite (position_new _ _ E). f_equal.
    revert vals Hlen. induction H as [|r rs Hr _ IH]; intros [|v vals] Hlen;
      simpl in *; try reflexivity; try discriminate.
    rewrite app_nth2 by lia. rewrite Hr, Nat.sub_diag. simpl.
    f_equal. apply IH. now injection Hlen.
Qed.

Lemma setitem_rows_length (df : DataFrame) (c : string) (vals : list float) :
  List.length vals = List.length (rows df) ->
  List.length (rows (Pandas.setitem df c vals)) = List.length (rows df).
Proof.
  unfold Pandas.setitem. intros H.
  destruct (Pandas.position c (columns df)); cbn [rows];
    rewrite length_map, length_combine; lia.
Qed.

(** The PHID column of [df_calc]: the density porosity of each sample. *)
Lemma phid_frame_spec (df : DataFrame) (density_col : string)
    (m f : float) (den : list float) :
  rectangular df -> Pandas.getitem df density_col = Ok den ->
  exists df_calc,
    Crossplots.phid_frame df density_col m f = Ok df_calc /\
    Pandas.getitem df_calc "PHID"
    = Ok (map (fun b => Crossplots.density_porosity b m f) den).
Proof.
  intros Hr Hden. unfold Crossplots.phid_frame. rewrite Hden. cbn [bind].
  pose proof (getitem_length _ _ _ Hden) as Hlen.
  rewrite getitem_setitem by (assumption || now rewrite length_map).
  cbn [bind]. eexists. split; [reflexivity|].
  rewrite getitem_setitem.
  - unfold Pandas.clip. now rewrite map_map.
  - now apply rectangular_setitem.
  - unfold Pandas.clip. rewrite setitem_rows_length; now rewrite !length_map.
Qed.

End SetItem.

(** ** Claims on the lithology lines and on the density porosity *)

Section PorosityClaims.

Lemma artists_add_lithology_lines (ax : Crossplots.axes) :
  Crossplots.artists (Crossplots.add_lithology_lines ax)
  = Crossplots.artists ax
    ++ Crossplots.artists (Crossplots.add_lithology_lines Crossplots.new_axes).
Proof.
  unfold Crossplots.add_lithology_lines.
  cbn [fold_left Crossplots.porosities Crossplots.porosity_line
       Crossplots.draw Crossplots.artists Crossplots.new_axes].
  rewrite <- !app_assoc. reflexivity.
Qed.

Lemma app_nil_eq {A : Type} (a b c : list A) :
  a = [] -> b = c -> a ++ b = c.
Proof. now intros -> ->. Qed.

Lemma segments_app (l1 l2 : list Crossplots.artist) :
  segments (l1 ++ l2) = segments l1 ++ segments l2.
Proof. apply flat_map_app. Qed.

Lemma legend_segments (l : list (string * Crossplots.color))
    (ax : Crossplots.axes) :
  segments
    (Crossplots.artists
       (fold_left
          (fun ax '(fm, c) =>
             Crossplots.draw ax
               (Crossplots.Scatter [] [] (Crossplots.Colors [c]) fm))
          l ax))
  = segments (Crossplots.artists ax).
Proof.
  revert ax. induction l as [|[fm c] l IH]; intros ax; simpl; [reflexivity|].
  rewrite IH. cbn [Crossplots.draw Crossplots.artists].
  rewrite segments_app. apply app_nil_r.
Qed.

Lemma lithology_segments :
  segments
    (Crossplots.artists (Crossplots.add_lithology_lines Crossplots.new_axes))
  = lithology_lines.
Proof. vm_compute. reflexivity. Qed.

Lemma artists_decorate_crossplot (ax : Crossplots.axes)
    (neutron_col density_col ttl : string) :
  Crossplots.artists
    (Crossplots.decorate_crossplot ax neutron_col density_col ttl)
  = Crossplots.artists ax.
Proof. reflexivity. Qed.

Lemma artists_finish_crossplot (ax : Crossplots.axes)
    (neutron_col density_col ttl : string) :
  Crossplots.artists
    (Crossplots.finish_crossplot ax neutron_col density_col ttl)
  = Crossplots.artists ax
    ++ Crossplots.artists (Crossplots.add_lithology_lines Crossplots.new_axes).
Proof.
  unfold Crossplots.finish_crossplot.
  rewrite artists_decorate_crossplot. apply artists_add_lithology_lines.
Qed.

(** Whatever is plotted, the lines from point to point on the figure are
    the three lithology lines. *)
Lemma plot_valid_data_segments (valid_data : DataFrame)
    (neutron_col density_col depth_col : string)
    (tops : option (list (string * float))) (ttl : string)
    (ax : Crossplots.axes) (labels : option (list string)) :
  Crossplots.plot_valid_data valid_data neutron_col density_col depth_col
    tops ttl = Ok (Crossplots.Plotted ax labels) ->
  segments (Crossplots.artists ax) = lithology_lines.
Proof.
  unfold Crossplots.plot_valid_data.
  destruct tops as [tops|];
    repeat match goal with
           | |- context [bind ?r _] =>
               destruct r; cbn [bind]; try discriminate
           end;
    intros [= <- _];
    rewrite artists_finish_crossplot, segments_app;
    (apply app_nil_eq; [|exact lithology_segments]);
    cbn [Crossplots.artists].
  - now rewrite legend_segments.
  - reflexivity.
Qed.

(** C5.  The three lithology lines are the constants of the specification:
    sandstone from (0, 2.65) to (0.4, 2.35), limestone from (0, 2.71) to
    (0.4, 2.31), dolomite from (0, 2.87) to (0.4, 2.47).  Whatever the axes
    hold when [add_lithology_lines] is called, it adds the same artists to
    them, and the lines from point to point among these are those three, in
    this order; so are the lines on every figure the cross-plot renderer
    returns, whatever the table and the tops. *)
Theorem lithology_lines_fixed :
  [Crossplots.sandstone_line; Crossplots.limestone_line;
   Crossplots.dolomite_line] = map end_points lithology_lines /\
  List.length lithology_lines = 3 /\
  (forall ax : Crossplots.axes,
      Crossplots.artists (Crossplots.add_lithology_lines ax)
      = Crossplots.artists ax
        ++ Crossplots.artists
             (Crossplots.add_lithology_lines Crossplots.new_axes)) /\
  segments
    (Crossplots.artists (Crossplots.add_lithology_lines Crossplots.new_axes))
  = lithology_lines /\
  (forall (df : DataFrame) (neutron_col density_col depth_col : string)
          (tops : option (list (string * float))) (ttl : string)
          (ax : Crossplots.axes) (labels : option (list string)),
      Crossplots.neutron_density_crossplot df neutron_col density_col
        depth_col tops ttl = Ok (Crossplots.Plotted ax labels) ->
      segments (Crossplots.artists ax) = lithology_lines).
Proof.
  split; [vm_compute; reflexivity|]. split; [reflexivity|].
  split; [exact artists_add_lithology_lines|].
  split; [exact lithology_segments|].
  intros df neutron_col density_col depth_col tops ttl ax labels.
  unfold Crossplots.neutron_density_crossplot.
  destruct (getitem df neutron_col); [|discriminate].
  destruct (getitem df density_col); [|discriminate].
  cbn [bind]. destruct (Nat.eqb _ 0); [discriminate|].
  apply plot_valid_data_segments.
Qed.

(** C5, on the figure of the sample table with the tops A, B, C. *)
Lemma lithology_lines_fixed_witness :
  match Crossplots.neutron_density_crossplot sample_frame "NEU" "DEN" "DEPT"
          (Some tops_abc) "Cross-plot"
  with
  | Ok (Crossplots.Plotted ax _) =>
      segments (Crossplots.artists ax) = lithology_lines
  | _ => False
  end.
Proof.
  destruct (Crossplots.neutron_density_crossplot sample_frame "NEU" "DEN"
              "DEPT" (Some tops_abc) "Cross-plot")
    as [[|ax labels]|e] eqn:E.
  - vm_compute in E. discriminate E.
  - exact (proj2 (proj2 (proj2 (proj2 lithology_lines_fixed)))
             _ _ _ _ _ _ _ _ E).
  - vm_compute in E. discriminate E.
Defined.

(** C6.  The density porosity of a sample is
    (matrix_density - bulk_density) / (matrix_density - fluid_density)
    clamped to the interval from 0 to 1, and this is what the PHID column of
    [df_calc] holds for every sample of a table whose labels are distinct;
    unless it is NaN, it is at least 0 and
    at most 1.  With the default densities 2.65 and 1.0, the porosity is 0.0
    at the density 2.65, 1.0 at the density 1.0, and 0.0 at the density
    3.0. *)
Theorem density_porosity_clamped :
  (forall b m f : float,
      Crossplots.density_porosity b m f
      = clamp01 (F.div (F.sub m b) (F.sub m f))) /\
  (forall (df : DataFrame) (density_col : string) (m f : float)
          (den : list float),
      rectangular df -> NoDup (columns df) ->
      Pandas.getitem df density_col = Ok den ->
      exists df_calc,
        Crossplots.phid_frame df density_col m f = Ok df_calc /\
        Pandas.getitem df_calc "PHID"
        = Ok (map (fun b => clamp01 (F.div (F.sub m b) (F.sub m f))) den)) /\
  (forall b m f : float,
      F.is_nan (Crossplots.density_porosity b m f) = false ->
      F.leb F.zero (Crossplots.density_porosity b m f) = true /\
      F.leb (Crossplots.density_porosity b m f) F.one = true) /\
  Crossplots.density_porosity (value "2.65")
    Crossplots.default_matrix_density Crossplots.default_fluid_density
  = value "0.0" /\
  Crossplots.density_porosity (value "1.0")
    Crossplots.default_matrix_density Crossplots.default_fluid_density
  = value "1.0" /\
  Crossplots.density_porosity (value "3.0")
    Crossplots.default_matrix_density Crossplots.default_fluid_density
  = value "0.0".
Proof.
  assert (H : forall b m f : float,
             Crossplots.density_porosity b m f
             = clamp01 (F.div (F.sub m b) (F.sub m f)))
    by (intros; apply clip1_clamp01).
  split; [exact H|]. split; [|split].
  - intros df density_col m f den Hr _ Hden.
    destruct (phid_frame_spec df density_col m f den Hr Hden)
      as (df_calc & H1 & H2).
    exists df_calc. split; [exact H1|]. rewrite H2. f_equal.
    apply map_ext. intros b. apply H.
  - intros b m f. rewrite H. intros Hn.
    pose proof (clamp01_range (F.div (F.sub m b) (F.sub m f))) as Hr.
    rewrite Hn in Hr. apply andb_true_iff in Hr. exact Hr.
  - repeat split; reflexivity.
Qed.

(** C6, on the sample table. *)
Lemma density_porosity_clamped_witness :
  rectangular sample_frame /\
  NoDup (columns sample_frame) /\
  exists df_calc,
    Crossplots.phid_frame sample_frame "DEN" Crossplots.default_matrix_density
      Crossplots.default_fluid_density = Ok df_calc /\
    Pandas.getitem df_calc "PHID"
    = Ok (map (fun b =>
                 clamp01 (F.div (F.sub Crossplots.default_matrix_density b)
                            (F.sub Crossplots.default_matrix_density
                               Crossplots.default_fluid_density)))
            [value "2.41"; value "2.43"; value "2.35"]).
Proof.
  assert (Hr : rectangular sample_frame) by (repeat constructor).
  assert (Hd : NoDup (columns sample_frame)).
  { apply (NoDup_count_occ' string_dec). intros x Hx.
    cbn [In columns sample_frame] in Hx.
    destruct Hx as [<-|[<-|[<-|[]]]]; reflexivity. }
  split; [exact Hr|]. split; [exact Hd|].
  exact (proj1 (proj2 density_porosity_clamped) sample_frame "DEN"
           Crossplots.default_matrix_density Crossplots.default_fluid_density
           [value "2.41"; value "2.43"; value "2.35"] Hr Hd eq_refl).
Defined.

Lemma band_length (a b : list bool) :
  List.length (Pandas.band a b) = Nat.min (List.length a) (List.length b).
Proof.
  unfold Pandas.band. now rewrite length_map, length_combine.
Qed.

(** C8, as the specification has it, fails: a sample whose density is NaN
    passes the two tests on the null value and is dropped by the tests on
    the range of PHID, which is NaN for it. *)
Lemma range_filter_drops_nan_row :
  List.length (valid_rows nan_frame 1 2) = 2 /\
  exists valid_data,
    Crossplots.porosity_valid_data nan_frame "NEU" "DEN"
      Crossplots.default_matrix_density Crossplots.default_fluid_density
    = Ok valid_data /\
    List.length (rows valid_data) = 1.
Proof.
  split; [reflexivity|].
  eexists. split; [vm_compute; reflexivity | reflexivity].
Qed.

(** C8, amended.  For a table whose labels are distinct: after the clip,
    the tests on the range of PHID drop the samples whose porosity is NaN
    and no other: the rows kept are those that pass the two tests on the
    null value and whose PHID is not NaN.  On a table where no PHID is NaN
    the tests on the range drop nothing. *)
Theorem range_filter_drops_nan_only (df : DataFrame)
    (neutron_col density_col : string) (m f : float) (df_calc : DataFrame)
    (neu den phid : list float) :
  rectangular df ->
  NoDup (columns df) ->
  Crossplots.phid_frame df density_col m f = Ok df_calc ->
  Pandas.getitem df_calc neutron_col = Ok neu ->
  Pandas.getitem df_calc density_col = Ok den ->
  Pandas.getitem df_calc "PHID" = Ok phid ->
  Crossplots.porosity_valid_data df neutron_col density_col m f
  = Ok (Pandas.mask_rows df_calc
          (Pandas.band
             (Pandas.band (Crossplots.not_null neu) (Crossplots.not_null den))
             (map (fun p => negb (F.is_nan p)) phid))) /\
  (Forall (fun p => F.is_nan p = false) phid ->
   Crossplots.porosity_valid_data df neutron_col density_col m f
   = Ok (Pandas.mask_rows df_calc
           (Pandas.band (Crossplots.not_null neu) (Crossplots.not_null den)))).
Proof.
  intros Hr _ Hcalc Hneu Hden Hphid.
  assert (Hmask :
    Crossplots.porosity_valid_data df neutron_col density_col m f
    = Ok (Pandas.mask_rows df_calc
            (Pandas.band
               (Pandas.band (Crossplots.not_null neu) (Crossplots.not_null den))
               (map (fun p => negb (F.is_nan p)) phid)))).
  { unfold Crossplots.porosity_valid_data. rewrite Hcalc. cbn [bind].
    unfold Crossplots.porosity_mask. rewrite Hneu, Hden, Hphid. cbn [bind].
    rewrite band_map. do 3 f_equal.
    destruct (Pandas.getitem df density_col) as [den0|e] eqn:Hden0;
      [|unfold Crossplots.phid_frame in Hcalc; rewrite Hden0 in Hcalc;
        discriminate].
    destruct (phid_frame_spec df density_col m f den0 Hr Hden0)
      as (df_calc' & H1 & H2).
    rewrite Hcalc in H1. injection H1 as <-.
    rewrite Hphid in H2. injection H2 as ->.
    apply map_ext_in. intros p Hp. apply in_map_iff in Hp.
    destruct Hp as (b & <- & _).
    unfold Crossplots.density_porosity. rewrite clip1_clamp01.
    apply clamp01_range. }
  split; [exact Hmask|].
  intros Hnan. rewrite Hmask. do 2 f_equal.
  apply band_all_true.
  - rewrite band_length. unfold Crossplots.not_null. rewrite !length_map.
    rewrite (getitem_length _ _ _ Hneu), (getitem_length _ _ _ Hden),
      (getitem_length _ _ _ Hphid).
    apply Nat.min_id.
  - eapply Forall_impl; [|exact Hnan]. intros p Hp. now rewrite Hp.
Qed.

(** C8, amended, on the sample table: no PHID is NaN, and the rows kept
    are those the tests on the null value keep. *)
Lemma range_filter_drops_nan_only_witness :
  Crossplots.porosity_valid_data sample_frame "NEU" "DEN"
    Crossplots.default_matrix_density Crossplots.default_fluid_density
  = Ok (Pandas.mask_rows sample_calc
          (Pandas.band
             (Crossplots.not_null (map (fun r => nth 1 r F.nan) (rows sample_calc)))
             (Crossplots.not_null (map (fun r => nth 2 r F.nan) (rows sample_calc))))).
Proof.
  assert (Hd : NoDup (columns sample_frame)).
  { apply (NoDup_count_occ' string_dec). intros x Hx.
    cbn [In columns sample_frame] in Hx.
    destruct Hx as [<-|[<-|[<-|[]]]]; reflexivity. }
  apply (proj2 (range_filter_drops_nan_only sample_frame "NEU" "DEN"
                  Crossplots.default_matrix_density
                  Crossplots.default_fluid_density sample_calc
                  (map (fun r => nth 1 r F.nan) (rows sample_calc))
                  (map (fun r => nth 2 r F.nan) (rows sample_calc))
                  (map (fun r => nth 3 r F.nan) (rows sample_calc))
                  ltac:(repeat constructor) Hd eq_refl eq_refl eq_refl
                  eq_refl)).
  repeat constructor.
Defined.

End PorosityClaims.

(** ** The reader of floats against the floats of the machine *)

(** The values [PyFloat.parse] gives are those the kernel's binary64 reader
    gives for the same literals: here for constants of the source, a tie
    between two floats, a subnormal number and an overflow. *)

Section FloatReader.

Local Set Warnings "-inexact-float".

Example parse_2_65 : PyFloat.parse "2.65" = Some (Prim2SF 2.65%float).
Proof. vm_compute. reflexivity. Qed.

Example parse_null_value :
  PyFloat.parse "-999.25" = Some (Prim2SF (-999.25)%float)
  /\ Crossplots.null_value = Prim2SF (-999.25)%float.
Proof. split; vm_compute; reflexivity. Qed.

Example parse_0_4 : PyFloat.parse "0.4" = Some (Prim2SF 0.4%float).
Proof. vm_compute. reflexivity. Qed.

Example parse_tie :
  PyFloat.parse "9007199254740993" = Some (Prim2SF 9007199254740992%float).
Proof. vm_compute. reflexivity. Qed.

Example parse_subnormal :
  PyFloat.parse "4.9e-324" = Some (Prim2SF 0x1p-1074%float).
Proof. vm_compute. reflexivity. Qed.

Example parse_overflow :
  PyFloat.parse "1e400" = Some (Prim2SF infinity).
Proof. vm_compute. reflexivity. Qed.

Example parse_underscores :
  PyFloat.parse "1_0.5e1_0" = Some (Prim2SF 10.5e10%float)
  /\ PyFloat.parse "1__0" = None /\ PyFloat.parse "1_" = None.
Proof. repeat split; vm_compute; reflexivity. Qed.

Example parse_refused :
  map PyFloat.parse ["."; "1e"; "0x10"; "--1"; ""; "1,5"; "abc"]
  = [None; None; None; None; None; None; None].
Proof. vm_compute. reflexivity. Qed.

(** The arithmetic of [density_porosity] on the machine's floats. *)
Example density_porosity_machine :
  Crossplots.density_porosity (Prim2SF 2.41%float) (Prim2SF 2.65%float)
    (Prim2SF 1.0%float)
  = Prim2SF ((2.65 - 2.41) / (2.65 - 1.0))%float.
Proof. vm_compute. reflexivity. Qed.

End FloatReader.

(** * Further properties of the code *)

(** ** What every parsed frame satisfies *)

Section ParserInvariants.

Lemma pad_length (w : nat) (row : list float) :
  List.length row <= w -> List.length (Pandas.pad w row) = w.
Proof.
  intros H. unfold Pandas.pad. rewrite length_app, repeat_length. lia.
Qed.

Lemma width_bound (data : list (list float)) (row : list float) :
  In row data -> List.length row <= Pandas.width data.
Proof.
  unfold Pandas.width.
  induction data as [|r data IH]; intros Hin; [contradiction|].
  cbn [map fold_right]. destruct Hin as [->|Hin]; [lia|].
  specialize (IH Hin). lia.
Qed.

(** What the constructor returns when it returns. *)
Lemma new_ok (data : list (list float)) (names : list string)
    (df : DataFrame) :
  Pandas.new data names = Ok df ->
  columns df = names /\
  rows df = map (Pandas.pad (Pandas.width data)) data /\
  rectangular df.
Proof.
  unfold Pandas.new. destruct data as [|r data].
  - intros [= <-]. repeat split. constructor.
  - remember (r :: data) as d eqn:Ed. clear Ed.
    destruct (Nat.eqb (List.length names) (Pandas.width d)) eqn:E;
      [|discriminate].
    intros [= <-]. apply Nat.eqb_eq in E. repeat split.
    unfold rectangular. cbn [rows columns]. rewrite E.
    apply Forall_forall. intros x Hx. apply in_map_iff in Hx.
    destruct Hx as [y [<- Hy]]. apply pad_length. now apply width_bound.
Qed.

(** What the parser went through when it returns a frame. *)
Lemma parse_ok (lines : list string) (df : DataFrame) :
  Las.parse lines = Ok df ->
  exists curve_lines data_lines,
    sections lines = Some (curve_lines, data_lines) /\
    first_bad_token data_lines = None /\
    Pandas.new (map (map value) (token_rows data_lines))
      (map mnemonic (filter is_declaration curve_lines)) = Ok df.
Proof.
  intros H. pose proof (parse_sections lines) as Hs.
  destruct (sections lines) as [[curve_lines data_lines]|].
  - exists curve_lines, data_lines. split; [reflexivity|].
    rewrite H, parse_data_spec, parse_curve_names_spec in Hs.
    destruct (first_bad_token data_lines); [discriminate|].
    split; [reflexivity|]. symmetry. exact Hs.
  - destruct Hs as [op Hs]. rewrite H in Hs. discriminate.
Qed.

Lemma take_while_forallb (p : ascii -> bool) (s : string) :
  forallb p (list_ascii_of_string (take_while p s)) = true.
Proof.
  induction s as [|c s IH]; [reflexivity|].
  cbn [take_while]. destruct (p c) eqn:E; [|reflexivity].
  cbn [list_ascii_of_string forallb]. now rewrite E.
Qed.

Lemma filter_idem {A : Type} (f : A -> bool) (l : list A) :
  filter f (filter f l) = filter f l.
Proof.
  induction l as [|x l IH]; [reflexivity|].
  cbn [filter]. destruct (f x) eqn:E; [|exact IH].
  cbn [filter]. now rewrite E, IH.
Qed.

Lemma Forall_filter_keep {A : Type} (P : A -> Prop) (f : A -> bool)
    (l : list A) :
  Forall P l -> Forall P (filter f l).
Proof.
  intros H. apply Forall_forall. intros x Hx. apply filter_In in Hx.
  exact (proj1 (Forall_forall P l) H x (proj1 Hx)).
Qed.

(** X1.  Whenever the parser returns a frame, the frame is rectangular:
    it has one column per declaration line of the curve block, one row per
    non-blank line of the data section, and every row has one cell per
    column (short rows having been filled with NaN). *)
Theorem parse_frame_shape (lines : list string) (df : DataFrame) :
  Las.parse lines = Ok df ->
  rectangular df /\
  exists curve_lines data_lines,
    sections lines = Some (curve_lines, data_lines) /\
    columns df = map mnemonic (filter is_declaration curve_lines) /\
    List.length (columns df)
    = List.length (filter is_declaration curve_lines) /\
    List.length (rows df) = List.length (filter nonblank data_lines).
Proof.
  intros H. destruct (parse_ok lines df H) as (cl & dl & Hs & _ & Hn).
  destruct (new_ok _ _ _ Hn) as (Hc & Hr & Hrect).
  split; [exact Hrect|]. exists cl, dl.
  split; [exact Hs|]. split; [exact Hc|]. split.
  - now rewrite Hc, length_map.
  - rewrite Hr. unfold token_rows. now rewrite !length_map.
Qed.

Lemma parse_frame_shape_witness :
  exists df,
    Las.parse short_row_las = Ok df /\
    rectangular df /\
    List.length (columns df) = 2 /\ List.length (rows df) = 2.
Proof.
  eexists. split; [vm_compute; reflexivity|].
  destruct (parse_frame_shape short_row_las _ eq_refl)
    as (Hrect & cl & dl & Hs & _ & _ & _).
  split; [exact Hrect|]. split; reflexivity.
Defined.

(** X2.  No curve name of a parsed frame holds a whitespace character or
    a point: a name is the start of its declaration line up to the first
    of either (and is empty when the line starts with a point). *)
Theorem curve_names_plain (lines : list string) (df : DataFrame) :
  Las.parse lines = Ok df ->
  Forall (fun name => plain_name name = true) (columns df).
Proof.
  intros H. destruct (parse_ok lines df H) as (cl & dl & _ & _ & Hn).
  destruct (new_ok _ _ _ Hn) as (-> & _ & _).
  apply Forall_forall. intros name Hin. apply in_map_iff in Hin.
  destruct Hin as [line [<- _]]. apply take_while_forallb.
Qed.

Lemma curve_names_plain_witness :
  exists df,
    Las.parse sample_las = Ok df /\
    Forall (fun name => plain_name name = true) (columns df).
Proof.
  eexists. split; [vm_compute; reflexivity|].
  apply (curve_names_plain sample_las). vm_compute. reflexivity.
Defined.

(** X3.  The parser reads nothing but the declaration lines of the curve
    block and the non-blank lines of the data section: the lines before the
    last curve marker, what follows the marker on the two marker lines,
    the comment and blank lines of the curve block and the blank lines of
    the data section can all be removed without changing the result, be it
    a frame or an exception. *)
Theorem parse_reads_declarations_and_rows (pre : list string) (cm : string)
    (mid : list string) (am : string) (dat : list string) :
  Forall (fun l => is_ascii_marker l = false) pre ->
  is_curve_marker cm = true ->
  Forall (fun l => is_curve_marker l = false /\ is_ascii_marker l = false) mid ->
  is_ascii_marker am = true ->
  Las.parse (pre ++ cm :: mid ++ am :: dat)
  = Las.parse (Las.curve_marker :: filter is_declaration mid
                 ++ Las.ascii_marker :: filter nonblank dat).
Proof.
  intros Hpre Hcm Hmid Ham.
  destruct (parse_cut pre cm mid am dat Hpre Hcm Hmid Ham) as (_ & _ & ->).
  pose proof (parse_cut [] Las.curve_marker (filter is_declaration mid)
                Las.ascii_marker (filter nonblank dat)
                (Forall_nil _) eq_refl
                (Forall_filter_keep _ _ _ Hmid) eq_refl) as (_ & _ & Hr).
  cbn [app] in Hr. rewrite Hr.
  rewrite !parse_data_spec, !parse_curve_names_spec.
  unfold first_bad_token, token_rows.
  change (fun l : string => negb (blank l)) with nonblank.
  now rewrite !filter_idem.
Qed.

Lemma Forall_no_ascii_marker (l : list string) :
  forallb (fun x => negb (is_ascii_marker x)) l = true ->
  Forall (fun x => is_ascii_marker x = false) l.
Proof.
  intros H. apply Forall_forall. intros x Hx.
  pose proof (proj1 (forallb_forall _ l) H x Hx) as Hf.
  cbv beta in Hf. now destruct (is_ascii_marker x).
Qed.

Lemma Forall_no_marker (l : list string) :
  forallb (fun x => negb (is_curve_marker x) && negb (is_ascii_marker x)) l
  = true ->
  Forall (fun x => is_curve_marker x = false /\ is_ascii_marker x = false) l.
Proof.
  intros H. apply Forall_forall. intros x Hx.
  pose proof (proj1 (forallb_forall _ l) H x Hx) as Hf.
  cbv beta in Hf. apply andb_prop in Hf. destruct Hf as [H1 H2].
  split; [now destruct (is_curve_marker x)|now destruct (is_ascii_marker x)].
Qed.

Lemma parse_reads_declarations_and_rows_witness :
  Las.parse sample_las
  = Las.parse
      (Las.curve_marker
         :: text_lines ["DEPT.M      : Depth";
                        "NEU .V/V    : Neutron porosity";
                        "DEN .G/C3   : Bulk density"]
         ++ Las.ascii_marker
         :: text_lines [" 479.0   0.25  2.41"; " 479.5  -999.25  2.43"]).
Proof.
  apply (parse_reads_declarations_and_rows
           (firstn 3 sample_las) (nth 3 sample_las "")
           (firstn 5 (skipn 4 sample_las)) (nth 9 sample_las "")
           (skipn 10 sample_las)).
  - apply Forall_no_ascii_marker. vm_compute. reflexivity.
  - vm_compute. reflexivity.
  - apply Forall_no_marker. vm_compute. reflexivity.
  - vm_compute. reflexivity.
Defined.

End ParserInvariants.

(** ** The interval a sample is put in *)

Section Intervals.

Ltac order_cases :=
  repeat
    (match goal with
     | H : context [Pos.compare_cont Eq ?a ?b] |- _ =>
         change (Pos.compare_cont Eq a b) with (Pos.compare a b) in H
     | |- context [Pos.compare_cont Eq ?a ?b] =>
         change (Pos.compare_cont Eq a b) with (Pos.compare a b)
     | H : context [Z.compare ?a ?b] |- _ =>
         destruct (Z.compare_spec a b)
     | |- context [Z.compare ?a ?b] =>
         destruct (Z.compare_spec a b)
     | H : context [Pos.compare ?a ?b] |- _ =>
         destruct (Pos.compare_spec a b)
     | |- context [Pos.compare ?a ?b] =>
         destruct (Pos.compare_spec a b)
     end;
     cbn [CompOpp option_map] in *; subst;
     try discriminate; try reflexivity; try lia).

Lemma leb_trans (x y z : float) :
  F.leb x y = true -> F.leb y z = true -> F.leb x z = true.
Proof.
  unfold F.leb, SFleb.
  destruct x as [s1|s1| |s1 m1 e1], y as [s2|s2| |s2 m2 e2],
           z as [s3|s3| |s3 m3 e3];
    cbn [SFcompare]; try discriminate; try reflexivity;
    try (destruct s1); try (destruct s2); try (destruct s3);
    try discriminate; try reflexivity; intros H1 H2; order_cases.
Qed.

Lemma leb_nan_r (x : float) : F.leb x F.nan = false.
Proof. now destruct x. Qed.

Lemma formation_scan_monotone (d1 d2 : float) (l : list float)
    (n a1 a2 : nat) :
  F.leb d1 d2 = true -> a1 <= a2 -> a1 <= n ->
  fold_left (fun idx '(i, top_depth) => if F.geb d1 top_depth then i else idx)
    (PyList.enumerate_from n l) a1
  <= fold_left (fun idx '(i, top_depth) => if F.geb d2 top_depth then i else idx)
       (PyList.enumerate_from n l) a2.
Proof.
  intros Hd. revert n a1 a2.
  induction l as [|t l IH]; intros n a1 a2 H12 H1n; [exact H12|].
  cbn [PyList.enumerate_from fold_left].
  change (F.geb d1 t) with (F.leb t d1).
  change (F.geb d2 t) with (F.leb t d2).
  destruct (F.leb t d1) eqn:E1.
  - rewrite (leb_trans _ _ _ E1 Hd). apply IH; lia.
  - destruct (F.leb t d2); apply IH; lia.
Qed.

Lemma formation_scan_last (d : float) (l : list float) (n acc : nat) :
  let i :=
    fold_left (fun idx '(i, top_depth) => if F.geb d top_depth then i else idx)
      (PyList.enumerate_from n l) acc in
  (i = acc /\ Forall (fun t => F.leb t d = false) l) \/
  (n <= i /\
   (exists t, nth_error l (i - n) = Some t /\ F.leb t d = true) /\
   forall j t, i < j -> nth_error l (j - n) = Some t -> F.leb t d = false).
Proof.
  revert n acc. induction l as [|t l IH]; intros n acc.
  - left. split; [reflexivity|constructor].
  - cbn [PyList.enumerate_from fold_left].
    change (F.geb d t) with (F.leb t d).
    destruct (IH (S n) (if F.leb t d then n else acc))
      as [[Hi Hall]|(Hle & (t0 & Ht0 & Hq) & Hlater)].
    + cbv zeta in Hi. cbv zeta. rewrite Hi.
      destruct (F.leb t d) eqn:E.
      * right. split; [lia|]. split.
        -- exists t. rewrite Nat.sub_diag. now split.
        -- intros j t' Hj Hnth.
           replace (j - n) with (S (j - S n)) in Hnth by lia.
           cbn [nth_error] in Hnth. apply nth_error_In in Hnth.
           exact (proj1 (Forall_forall _ _) Hall _ Hnth).
      * left. split; [reflexivity|]. now constructor.
    + cbv zeta in Hle, Ht0, Hlater. cbv zeta.
      right. split; [lia|]. split.
      * exists t0. replace (_ - n) with (S (fold_left
            (fun idx '(i, top_depth) =>
               if F.geb d top_depth then i else idx)
            (PyList.enumerate_from (S n) l)
            (if F.leb t d then n else acc) - S n)) by lia.
        now split.
      * intros j t' Hj Hnth.
        replace (j - n) with (S (j - S n)) in Hnth by lia.
        exact (Hlater j t' Hj Hnth).
Qed.

(** X4.  The classification is monotone in the depth: of two samples, the
    deeper one is never put in a formation that comes earlier in the list
    of tops than the formation of the shallower one.  This holds for any
    list of tops, sorted or not. *)
Theorem formation_idx_monotone (d1 d2 : float) (depth_list : list float) :
  F.leb d1 d2 = true ->
  Crossplots.formation_idx d1 depth_list
  <= Crossplots.formation_idx d2 depth_list.
Proof.
  intros H. unfold Crossplots.formation_idx, PyList.enumerate.
  now apply formation_scan_monotone.
Qed.

Lemma formation_idx_monotone_witness :
  Crossplots.formation_idx (F.of_Z 50) (map snd tops_abc)
  <= Crossplots.formation_idx (F.of_Z 150) (map snd tops_abc).
Proof.
  apply (formation_idx_monotone (F.of_Z 50) (F.of_Z 150) (map snd tops_abc)).
  reflexivity.
Defined.

(** X5.  The formation of a sample is the last top of the list at or above
    it: no later top of the list is at or above the sample (so, when the
    tops are numbers, every later top is strictly below the sample in the
    ground), and if any top is at or above the sample then the top chosen
    is.  A sample above every top, and a sample whose depth is NaN, go to
    the first formation of the list. *)
Theorem formation_idx_interval (d : float) (depth_list : list float) :
  let i := Crossplots.formation_idx d depth_list in
  (forall j t, i < j -> nth_error depth_list j = Some t ->
               F.leb t d = false /\
               (F.is_nan t = false -> F.is_nan d = false -> F.ltb d t = true))
  /\ ((exists t, In t depth_list /\ F.leb t d = true) ->
      exists t, nth_error depth_list i = Some t /\ F.leb t d = true)
  /\ ((forall t, In t depth_list -> F.leb t d = false) -> i = 0)
  /\ (F.is_nan d = true -> i = 0).
Proof.
  cbv zeta. unfold Crossplots.formation_idx, PyList.enumerate.
  pose proof (formation_scan_last d depth_list 0 0) as H. cbv zeta in H.
  set (i := fold_left _ _ 0) in *.
  assert (Hlater : forall j t, i < j -> nth_error depth_list j = Some t ->
                               F.leb t d = false).
  { intros j t Hj Hnth.
    destruct H as [[_ Hall]|(_ & _ & Hlater)].
    - apply nth_error_In in Hnth.
      exact (proj1 (Forall_forall _ _) Hall _ Hnth).
    - apply (Hlater j t Hj). now rewrite Nat.sub_0_r. }
  assert (Hnone : (forall t, In t depth_list -> F.leb t d = false) -> i = 0).
  { intros Hall. destruct H as [[Hi _]|(_ & (t & Ht & Hq) & _)]; [exact Hi|].
    apply nth_error_In in Ht. rewrite (Hall t Ht) in Hq. discriminate. }
  split; [|split; [|split]].
  - intros j t Hj Hnth. pose proof (Hlater j t Hj Hnth) as Hl.
    split; [exact Hl|]. intros Ht Hd.
    rewrite (leb_ltb t d Ht Hd) in Hl.
    now destruct (F.ltb d t).
  - intros (t & Hin & Hq).
    destruct H as [[_ Hall]|(_ & (t0 & Ht0 & Hq0) & _)].
    + rewrite (proj1 (Forall_forall _ _) Hall _ Hin) in Hq. discriminate.
    + exists t0. rewrite Nat.sub_0_r in Ht0. now split.
  - exact Hnone.
  - intros Hd. apply Hnone. intros t _.
    destruct d; try discriminate. apply leb_nan_r.
Qed.

End Intervals.

(** ** What the cross-plot shows *)

Section CrossplotFigure.

Lemma position_not_in (c : string) (cols : list string) :
  ~ In c cols -> Pandas.position c cols = None.
Proof.
  induction cols as [|c' cols IH]; intros H; [reflexivity|].
  cbn [Pandas.position]. destruct (String.eqb_spec c' c) as [->|_].
  - exfalso. apply H. now left.
  - rewrite IH; [reflexivity|]. intros Hin. apply H. now right.
Qed.

Lemma position_in (c : string) (cols : list string) :
  In c cols -> exists j, Pandas.position c cols = Some j.
Proof.
  induction cols as [|c' cols IH]; intros H; [contradiction|].
  cbn [Pandas.position]. destruct (String.eqb_spec c' c) as [->|Hne].
  - now exists 0.
  - destruct H as [->|H]; [contradiction|].
    destruct (IH H) as [j ->]. now exists (S j).
Qed.

Lemma getitem_missing (df : DataFrame) (c : string) :
  ~ In c (columns df) -> Pandas.getitem df c = Raise (KeyError c).
Proof.
  intros H. unfold Pandas.getitem. now rewrite position_not_in.
Qed.

Lemma getitem_present (df : DataFrame) (c : string) :
  In c (columns df) -> exists s, Pandas.getitem df c = Ok s.
Proof.
  intros H. unfold Pandas.getitem.
  destruct (position_in _ _ H) as [j ->]. now eexists.
Qed.

Lemma handles_artists (l : list (string * Crossplots.color))
    (ax : Crossplots.axes) :
  Crossplots.artists
    (fold_left
       (fun ax '(fm, c) =>
          Crossplots.draw ax
            (Crossplots.Scatter [] [] (Crossplots.Colors [c]) fm))
       l ax)
  = Crossplots.artists ax
    ++ map (fun '(fm, c) =>
              Crossplots.Scatter [] [] (Crossplots.Colors [c]) fm) l.
Proof.
  revert ax. induction l as [|[fm c] l IH]; intros ax; cbn [fold_left map].
  - now rewrite app_nil_r.
  - rewrite IH. cbn [Crossplots.draw Crossplots.artists].
    now rewrite <- app_assoc.
Qed.

Lemma handles_enumerate (names : list string) (n : nat) :
  map (fun '(fm, c) => Crossplots.Scatter [] [] (Crossplots.Colors [c]) fm)
    (combine names (map Crossplots.Tab10Row (seq n (List.length names))))
  = map legend_handle (PyList.enumerate_from n names).
Proof.
  revert n. induction names as [|x names IH]; intros n; [reflexivity|].
  cbn [List.length seq map combine PyList.enumerate_from].
  now rewrite IH.
Qed.

Lemma assign_formations_length (cols : list string) (rs : list (list float))
    (depth_col : string) (formation_colors : list Crossplots.color)
    (formation_list : list string) (depth_list : list float)
    (colors : list Crossplots.color) (labels : list string)
    (cs : list Crossplots.color) (ls : list string) :
  Crossplots.assign_formations cols rs depth_col formation_colors
    formation_list depth_list colors labels = Ok (cs, ls) ->
  List.length cs = List.length colors + List.length rs /\
  List.length ls = List.length labels + List.length rs.
Proof.
  revert colors labels.
  induction rs as [|r rs IH]; intros colors labels; cbn [Crossplots.assign_formations].
  - intros [= <- <-]. cbn [List.length]. lia.
  - destruct (Pandas.row_get cols r depth_col); cbn [bind]; [|discriminate].
    destruct (PyList.get formation_colors _); cbn [bind]; [|discriminate].
    destruct (PyList.get formation_list _); cbn [bind]; [|discriminate].
    intros H. apply IH in H. rewrite !length_app in H.
    cbn [List.length] in *. lia.
Qed.

Lemma valid_rows_not_null (df : DataFrame) (i j : nat) :
  Forall (fun x => is_null x = false)
    (map (fun r => nth i r F.nan) (valid_rows df i j)) /\
  Forall (fun x => is_null x = false)
    (map (fun r => nth j r F.nan) (valid_rows df i j)).
Proof.
  split; apply Forall_map, Forall_forall; intros r Hr;
    apply filter_In in Hr; destruct Hr as [_ Hr];
    apply andb_prop in Hr; destruct Hr as [H1 H2].
  - now destruct (is_null (nth i r F.nan)).
  - now destruct (is_null (nth j r F.nan)).
Qed.

Lemma lithology_plots_no_sample :
  forallb plots_no_sample
    (Crossplots.artists (Crossplots.add_lithology_lines Crossplots.new_axes))
  = true.
Proof. vm_compute. reflexivity. Qed.

Lemma legend_add_lithology_lines (ax : Crossplots.axes) :
  Crossplots.legend (Crossplots.add_lithology_lines ax) = Crossplots.legend ax.
Proof.
  unfold Crossplots.add_lithology_lines.
  cbn [fold_left Crossplots.porosities Crossplots.porosity_line
       Crossplots.draw Crossplots.legend].
  reflexivity.
Qed.

Lemma legend_decorate_crossplot (ax : Crossplots.axes)
    (neutron_col density_col ttl : string) :
  Crossplots.legend
    (Crossplots.decorate_crossplot ax neutron_col density_col ttl)
  = Crossplots.legend ax.
Proof. reflexivity. Qed.

Lemma legend_finish_crossplot (ax : Crossplots.axes)
    (neutron_col density_col ttl : string) :
  Crossplots.legend
    (Crossplots.finish_crossplot ax neutron_col density_col ttl)
  = Crossplots.legend ax.
Proof.
  unfold Crossplots.finish_crossplot.
  rewrite legend_decorate_crossplot. apply legend_add_lithology_lines.
Qed.

(** The depth column is looked up only when there is a valid sample. *)
Lemma crossplot_missing_depth (df : DataFrame)
    (neutron_col density_col depth_col : string)
    (tops : option (list (string * float))) (ttl : string) (i j : nat) :
  names_column df neutron_col i -> names_column df density_col j ->
  ~ In depth_col (columns df) ->
  Crossplots.neutron_density_crossplot df neutron_col density_col depth_col
    tops ttl
  = match valid_rows df i j with
    | [] => Ok Crossplots.NoData
    | _ :: _ => Raise (KeyError depth_col)
    end.
Proof.
  intros Hi Hj Hz.
  rewrite (crossplot_valid_rows df _ _ _ _ _ i j Hi Hj).
  destruct (valid_rows df i j) as [|r rs] eqn:E; [reflexivity|].
  rewrite <- E.
  assert (Hci : names_column
                  {| columns := columns df; rows := valid_rows df i j |}
                  neutron_col i) by exact Hi.
  assert (Hcj : names_column
                  {| columns := columns df; rows := valid_rows df i j |}
                  density_col j) by exact Hj.
  pose proof (position_not_in _ _ Hz) as Hpos.
  unfold Crossplots.plot_valid_data. destruct tops as [tops|].
  - rewrite !argsort_apply. cbn [bind columns rows]. rewrite E.
    cbn [Crossplots.assign_formations]. unfold Pandas.row_get.
    rewrite Hpos. reflexivity.
  - rewrite (getitem_column _ _ _ Hci), (getitem_column _ _ _ Hcj).
    cbn [bind]. unfold Pandas.getitem at 1. cbn [columns].
    rewrite Hpos. reflexivity.
Qed.


(** X6.  A column label that the table lacks: the neutron label raises
    [KeyError] first, then the density label; the depth label is looked up
    only when there is a valid sample to plot, so a table with no valid
    sample gives the no-data result even without a depth column, and a
    table with one raises [KeyError] for the depth label, with tops (empty
    or not) as without. *)
Theorem crossplot_missing_column (df : DataFrame)
    (neutron_col density_col depth_col : string)
    (tops : option (list (string * float))) (ttl : string) :
  (~ In neutron_col (columns df) ->
   Crossplots.neutron_density_crossplot df neutron_col density_col depth_col
     tops ttl = Raise (KeyError neutron_col)) /\
  (In neutron_col (columns df) -> ~ In density_col (columns df) ->
   Crossplots.neutron_density_crossplot df neutron_col density_col depth_col
     tops ttl = Raise (KeyError density_col)) /\
  (forall i j,
      names_column df neutron_col i -> names_column df density_col j ->
      ~ In depth_col (columns df) ->
      Crossplots.neutron_density_crossplot df neutron_col density_col depth_col
        tops ttl
      = match valid_rows df i j with
        | [] => Ok Crossplots.NoData
        | _ :: _ => Raise (KeyError depth_col)
        end).
Proof.
  split; [|split].
  - intros H. unfold Crossplots.neutron_density_crossplot.
    now rewrite (getitem_missing _ _ H).
  - intros Hn Hd. unfold Crossplots.neutron_density_crossplot.
    destruct (getitem_present _ _ Hn) as [s ->].
    now rewrite (getitem_missing _ _ Hd).
  - intros i j. apply crossplot_missing_depth.
Qed.

Lemma crossplot_missing_column_witness :
  Crossplots.neutron_density_crossplot sample_frame "NEU" "DEN" "TVD"
    (Some []) "Cross-plot" = Raise (KeyError "TVD") /\
  Crossplots.neutron_density_crossplot null_frame "NEU" "DEN" "TVD"
    (Some []) "Cross-plot" = Ok Crossplots.NoData.
Proof.
  split.
  - apply (proj2 (proj2 (crossplot_missing_column sample_frame "NEU" "DEN"
                           "TVD" (Some []) "Cross-plot")) 1 2).
    + split; reflexivity.
    + split; reflexivity.
    + intros [H|[H|[H|[]]]]; discriminate H.
  - apply (proj2 (proj2 (crossplot_missing_column null_frame "NEU" "DEN"
                           "TVD" (Some []) "Cross-plot")) 1 2).
    + split; reflexivity.
    + split; reflexivity.
    + intros [H|[H|[H|[]]]]; discriminate H.
Defined.

(** X7.  Every figure the renderer returns shows the valid samples and
    nothing else: its first artist is the scatter of the neutron values
    against the density values of the rows with the null value in neither
    column, in the order of the table; none of the values plotted is the
    null value; no other artist puts a sample on the figure; and there is
    one colour per sample, with one label per sample when tops are given
    and the depths as colours when they are not.  (Each of the three
    labels names one column of the table.) *)
Theorem crossplot_plots_valid_samples (df : DataFrame)
    (neutron_col density_col depth_col : string) (i j z : nat)
    (tops : option (list (string * float))) (ttl : string)
    (ax : Crossplots.axes) (labels : option (list string)) :
  names_column df neutron_col i ->
  names_column df density_col j ->
  names_column df depth_col z ->
  Crossplots.neutron_density_crossplot df neutron_col density_col depth_col
    tops ttl = Ok (Crossplots.Plotted ax labels) ->
  exists c rest,
    Crossplots.artists ax
    = Crossplots.Scatter (map (fun r => nth i r F.nan) (valid_rows df i j))
        (map (fun r => nth j r F.nan) (valid_rows df i j)) c ""
      :: rest /\
    valid_rows df i j <> [] /\
    Forall (fun x => is_null x = false)
      (map (fun r => nth i r F.nan) (valid_rows df i j)) /\
    Forall (fun x => is_null x = false)
      (map (fun r => nth j r F.nan) (valid_rows df i j)) /\
    forallb plots_no_sample rest = true /\
    match tops with
    | Some _ =>
        exists cs ls,
          c = Crossplots.Colors cs /\ labels = Some ls /\
          List.length cs = List.length (valid_rows df i j) /\
          List.length ls = List.length (valid_rows df i j)
    | None =>
        c = Crossplots.ByValue
              (map (fun r => nth z r F.nan) (valid_rows df i j)) "viridis" /\
        labels = None
    end.
Proof.
  intros Hi Hj Hz.
  rewrite (crossplot_valid_rows df _ _ _ _ _ i j Hi Hj).
  destruct (valid_rows_not_null df i j) as [Hni Hnj].
  destruct (valid_rows df i j) as [|r rs] eqn:E; [discriminate|].
  rewrite <- E in *.
  assert (Hne : valid_rows df i j <> []) by (rewrite E; discriminate).
  clear E r rs.
  assert (Hci : names_column
                  {| columns := columns df; rows := valid_rows df i j |}
                  neutron_col i) by exact Hi.
  assert (Hcj : names_column
                  {| columns := columns df; rows := valid_rows df i j |}
                  density_col j) by exact Hj.
  unfold Crossplots.plot_valid_data. destruct tops as [tops|].
  - rewrite !argsort_apply. cbn [bind columns rows].
    destruct (Crossplots.assign_formations _ _ _ _ _ _ _ _)
      as [[cs ls]|e] eqn:EA; cbn [bind]; [|discriminate].
    rewrite (getitem_column _ _ _ Hci), (getitem_column _ _ _ Hcj).
    cbn [bind rows fst snd]. intros [= <- <-].
    apply assign_formations_length in EA. cbn [List.length] in EA.
    rewrite artists_finish_crossplot. cbn [Crossplots.artists].
    rewrite handles_artists.
    cbn [Crossplots.draw Crossplots.artists Crossplots.new_axes app].
    eexists _, _. split; [reflexivity|].
    split; [exact Hne|]. split; [exact Hni|]. split; [exact Hnj|]. split.
    + rewrite forallb_app, lithology_plots_no_sample, andb_true_r.
      apply forallb_forall. intros a Ha. apply in_map_iff in Ha.
      destruct Ha as [[fm c] [<- _]]. reflexivity.
    + exists cs, ls. repeat split; lia.
  - assert (Hcz : names_column
                    {| columns := columns df; rows := valid_rows df i j |}
                    depth_col z) by exact Hz.
    rewrite (getitem_column _ _ _ Hci), (getitem_column _ _ _ Hcj),
      (getitem_column _ _ _ Hcz).
    cbn [bind rows]. intros [= <- <-].
    rewrite artists_finish_crossplot.
    cbn [Crossplots.draw Crossplots.artists Crossplots.new_axes app].
    eexists _, _. split; [reflexivity|].
    split; [exact Hne|]. split; [exact Hni|]. split; [exact Hnj|]. split.
    + exact lithology_plots_no_sample.
    + now split.
Qed.

Lemma crossplot_plots_valid_samples_witness :
  match
    Crossplots.neutron_density_crossplot sample_frame "NEU" "DEN" "DEPT"
      (Some tops_abc) "Cross-plot"
  with
  | Ok (Crossplots.Plotted ax _) =>
      exists c rest,
        Crossplots.artists ax
        = Crossplots.Scatter [value "0.25"; value "0.30"]
            [value "2.41"; value "2.35"] c "" :: rest /\
        forallb plots_no_sample rest = true
  | _ => False
  end.
Proof.
  destruct (Crossplots.neutron_density_crossplot sample_frame "NEU" "DEN"
              "DEPT" (Some tops_abc) "Cross-plot")
    as [[|ax labels]|e] eqn:E.
  - vm_compute in E. discriminate E.
  - destruct (crossplot_plots_valid_samples sample_frame "NEU" "DEN" "DEPT"
                1 2 0 (Some tops_abc) "Cross-plot" ax labels
                (conj eq_refl eq_refl) (conj eq_refl eq_refl)
                (conj eq_refl eq_refl) E)
      as (c & rest & Ha & _ & _ & _ & Hr & _).
    exists c, rest. split; [exact Ha | exact Hr].
  - vm_compute in E. discriminate E.
Defined.

Lemma Forall2_map_both {A B C : Type} (R : B -> C -> Prop) (f : A -> B)
    (g : A -> C) (l : list A) :
  (forall x, R (f x) (g x)) -> Forall2 R (map f l) (map g l).
Proof.
  intros H. induction l as [|x l IH]; cbn [map]; constructor; auto.
Qed.

(** X8.  With tops, whenever the renderer returns a figure: the legend
    lists the names of the tops, each once per top, and after the scatter
    of the samples the figure holds one legend handle per entry of the
    legend, in the order of the legend and in the colour of its rank, then
    the lithology lines; every sample is drawn in the colour of the legend
    entry that bears its label.  When the depths of the tops differ from
    one another, the legend is in the order of the depths, shallowest
    first. *)
Theorem crossplot_legend_by_depth (df : DataFrame)
    (neutron_col density_col depth_col : string) (i j z : nat)
    (tops : list (string * float)) (ttl : string)
    (ax : Crossplots.axes) (labels : option (list string)) :
  names_column df neutron_col i ->
  names_column df density_col j ->
  names_column df depth_col z ->
  Crossplots.neutron_density_crossplot df neutron_col density_col depth_col
    (Some tops) ttl = Ok (Crossplots.Plotted ax labels) ->
  Permutation (Crossplots.legend ax) (map fst tops) /\
  (distinct_depths tops ->
   Crossplots.legend ax = map fst (Np.sort_by snd tops)) /\
  exists colors ls,
    labels = Some ls /\
    Crossplots.artists ax
    = Crossplots.Scatter (map (fun r => nth i r F.nan) (valid_rows df i j))
        (map (fun r => nth j r F.nan) (valid_rows df i j))
        (Crossplots.Colors colors) ""
      :: map legend_handle (PyList.enumerate (Crossplots.legend ax))
      ++ Crossplots.artists
           (Crossplots.add_lithology_lines Crossplots.new_axes) /\
    Forall2
      (fun c label =>
         exists k, c = Crossplots.Tab10Row k /\
                   nth_error (Crossplots.legend ax) k = Some label)
      colors ls.
Proof.
  intros Hi Hj Hz.
  rewrite (crossplot_valid_rows df _ _ _ _ _ i j Hi Hj).
  destruct (valid_rows df i j) as [|r rs] eqn:E; [discriminate|].
  pose proof (position_once _ _ _ (proj1 Hz) (proj2 Hz)) as Hpos.
  intros H.
  assert (Hne : tops <> []).
  { intros ->. revert H. unfold Crossplots.plot_valid_data.
    cbn [List.length seq map Np.argsort PyList.enumerate
         PyList.enumerate_from Np.sort_by mapM bind columns rows].
    rewrite (assign_formations_empty _ _ _ _ z Hpos). discriminate. }
  revert H. remember (r :: rs) as vs eqn:Evs. clear Evs E r rs.
  unfold Crossplots.plot_valid_data.
  rewrite !argsort_apply. cbn [bind columns rows].
  assert (Hs : Np.sort_by snd tops <> []).
  { intros Hnil. apply Hne.
    apply Permutation_nil. rewrite <- Hnil. apply sort_by_perm. }
  rewrite <- (Permutation_length (sort_by_perm snd tops)).
  rewrite (assign_formations_spec _ _ _ z _ [] [] Hpos Hs).
  cbn [bind app fst snd].
  assert (Hci : names_column {| columns := columns df; rows := vs |}
                  neutron_col i) by exact Hi.
  assert (Hcj : names_column {| columns := columns df; rows := vs |}
                  density_col j) by exact Hj.
  rewrite (getitem_column _ _ _ Hci), (getitem_column _ _ _ Hcj).
  cbn [bind rows]. intros [= <- <-].
  rewrite legend_finish_crossplot, artists_finish_crossplot.
  cbn [Crossplots.legend Crossplots.artists].
  rewrite handles_artists.
  cbn [Crossplots.draw Crossplots.artists Crossplots.new_axes app].
  split; [apply Permutation_map, sort_by_perm|].
  split; [reflexivity|].
  eexists _, _. split; [reflexivity|]. split.
  - rewrite <- (length_map fst (Np.sort_by snd tops)).
    rewrite handles_enumerate. reflexivity.
  - apply Forall2_map_both. intros row.
    eexists. split; [reflexivity|].
    pose proof (classify_spec (nth z row F.nan) _ Hs) as Hc.
    unfold classify, PyList.get in Hc.
    destruct (nth_error _ _) as [name|]; [|discriminate].
    now injection Hc as ->.
Qed.

Lemma crossplot_legend_by_depth_witness :
  match
    Crossplots.neutron_density_crossplot sample_frame "NEU" "DEN" "DEPT"
      (Some tops_cab) "Cross-plot"
  with
  | Ok (Crossplots.Plotted ax _) => Crossplots.legend ax = ["A"; "B"; "C"]
  | _ => False
  end.
Proof.
  destruct (Crossplots.neutron_density_crossplot sample_frame "NEU" "DEN"
              "DEPT" (Some tops_cab) "Cross-plot")
    as [[|ax labels]|e] eqn:E.
  - vm_compute in E. discriminate E.
  - destruct (crossplot_legend_by_depth sample_frame "NEU" "DEN" "DEPT" 1 2 0
                tops_cab "Cross-plot" ax labels
                (conj eq_refl eq_refl) (conj eq_refl eq_refl)
                (conj eq_refl eq_refl) E) as (_ & Hl & _).
    rewrite Hl; [vm_compute; reflexivity|].
    repeat constructor.
  - vm_compute in E. discriminate E.
Defined.

End CrossplotFigure.

(** ** The porosity comparison: what is kept and what is drawn *)

Section PorosityFigure.

Lemma position_app (c : string) (cols more : list string) (j : nat) :
  Pandas.position c cols = Some j -> Pandas.position c (cols ++ more) = Some j.
Proof.
  revert j. induction cols as [|c' cols IH]; intros j; [discriminate|].
  cbn [Pandas.position app]. destruct (String.eqb c' c); [trivial|].
  destruct (Pandas.position c cols) as [k|]; [|discriminate].
  intros [= <-]. now rewrite (IH k eq_refl).
Qed.

Lemma existsb_position (c : string) (cols : list string) :
  existsb (String.eqb c) cols
  = match Pandas.position c cols with Some _ => true | None => false end.
Proof.
  induction cols as [|c' cols IH]; [reflexivity|].
  cbn [existsb Pandas.position]. rewrite (String.eqb_sym c c').
  destruct (String.eqb c' c); [reflexivity|].
  rewrite IH. now destruct (Pandas.position c cols).
Qed.

Lemma existsb_in (c : string) (cols : list string) :
  existsb (String.eqb c) cols = true <-> In c cols.
Proof.
  rewrite existsb_exists. split.
  - intros (x & Hx & E). apply String.eqb_eq in E. now subst.
  - intros H. exists c. split; [exact H|apply String.eqb_refl].
Qed.

Lemma columns_setitem (df : DataFrame) (c : string) (vals : list float) :
  columns (Pandas.setitem df c vals)
  = if existsb (String.eqb c) (columns df) then columns df
    else columns df ++ [c].
Proof.
  unfold Pandas.setitem. rewrite existsb_position.
  now destruct (Pandas.position c (columns df)).
Qed.

Lemma with_phid_in (cols : list string) (c : string) :
  In c (with_phid cols) <-> In c cols \/ c = "PHID".
Proof.
  unfold with_phid. destruct (existsb _ cols) eqn:E.
  - apply existsb_in in E. split; [now left|].
    intros [H| ->]; assumption.
  - rewrite in_app_iff. cbn [In]. intuition.
Qed.

(** The columns of [df_calc]. *)
Lemma phid_frame_columns (df : DataFrame) (density_col : string)
    (m f : float) :
  In density_col (columns df) ->
  exists df_calc,
    Crossplots.phid_frame df density_col m f = Ok df_calc /\
    columns df_calc = with_phid (columns df).
Proof.
  intros Hd. unfold Crossplots.phid_frame.
  destruct (getitem_present _ _ Hd) as [den ->]. cbn [bind].
  set (df1 := Pandas.setitem df "PHID" _).
  assert (H1 : columns df1 = with_phid (columns df))
    by apply columns_setitem.
  assert (Hin : In "PHID" (columns df1))
    by (rewrite H1; apply with_phid_in; now right).
  destruct (getitem_present _ _ Hin) as [phid ->]. cbn [bind].
  eexists. split; [reflexivity|].
  rewrite columns_setitem.
  now rewrite (proj2 (existsb_in _ _) Hin).
Qed.

Lemma phid_frame_missing (df : DataFrame) (density_col : string)
    (m f : float) :
  ~ In density_col (columns df) ->
  Crossplots.phid_frame df density_col m f = Raise (KeyError density_col).
Proof.
  intros H. unfold Crossplots.phid_frame.
  now rewrite (getitem_missing _ _ H).
Qed.

(** The frame the three panels are drawn from. *)
Lemma porosity_valid_data_columns (df : DataFrame)
    (neutron_col density_col : string) (m f : float) :
  In density_col (columns df) ->
  In neutron_col (columns df) \/ neutron_col = "PHID" ->
  exists valid_data,
    Crossplots.porosity_valid_data df neutron_col density_col m f
    = Ok valid_data /\
    columns valid_data = with_phid (columns df).
Proof.
  intros Hd Hn.
  unfold Crossplots.porosity_valid_data, Crossplots.porosity_mask.
  destruct (phid_frame_columns df density_col m f Hd) as (dc & -> & Hc).
  cbn [bind].
  assert (Hn' : In neutron_col (columns dc))
    by (rewrite Hc; now apply with_phid_in).
  assert (Hd' : In density_col (columns dc))
    by (rewrite Hc; apply with_phid_in; now left).
  assert (Hp' : In "PHID" (columns dc))
    by (rewrite Hc; apply with_phid_in; now right).
  destruct (getitem_present _ _ Hn') as [neu ->].
  destruct (getitem_present _ _ Hd') as [den ->].
  destruct (getitem_present _ _ Hp') as [phid ->].
  cbn [bind]. eexists. split; [reflexivity|exact Hc].
Qed.

Lemma porosity_plot_missing_depth (df : DataFrame)
    (neutron_col density_col depth_col : string) (m f : float) :
  In density_col (columns df) ->
  In neutron_col (columns df) \/ neutron_col = "PHID" ->
  ~ In depth_col (columns df) -> depth_col <> "PHID" ->
  Crossplots.porosity_estimation_plot df neutron_col density_col depth_col
    m f = Raise (KeyError depth_col).
Proof.
  intros Hd Hn Hz Hne. unfold Crossplots.porosity_estimation_plot.
  destruct (porosity_valid_data_columns df neutron_col density_col m f Hd Hn)
    as (vd & -> & Hc).
  cbn [bind].
  assert (Hn' : In neutron_col (columns vd))
    by (rewrite Hc; now apply with_phid_in).
  assert (Hz' : ~ In depth_col (columns vd)).
  { rewrite Hc. intros H. apply with_phid_in in H. tauto. }
  destruct (getitem_present vd _ Hn') as [neu' ->].
  cbn [bind]. now rewrite (getitem_missing vd _ Hz').
Qed.

(** What is returned is the three panels. *)
Lemma porosity_plot_three (df : DataFrame)
    (neutron_col density_col depth_col : string) (m f : float)
    (panels : list Crossplots.axes) :
  Crossplots.porosity_estimation_plot df neutron_col density_col depth_col
    m f = Ok panels ->
  List.length panels = 3.
Proof.
  unfold Crossplots.porosity_estimation_plot.
  repeat match goal with
         | |- context [bind ?r _] => destruct r; cbn [bind]; try discriminate
         end.
  now intros [= <-].
Qed.

(** X9.  The porosity comparison has no no-data exit, and a label the
    table lacks raises [KeyError] before anything is drawn: the density
    label first, then the neutron label, then the depth label, the last
    also when no row is valid.  A neutron label PHID is found even when
    the table has no such column, because the frame the function works on
    has one: the frame the panels are drawn from has the labels of the
    table and PHID.  Whenever the function returns, it returns three
    panels.  The labels of the table are distinct. *)
Theorem porosity_plot_outcome (df : DataFrame)
    (neutron_col density_col depth_col : string) (m f : float) :
  NoDup (columns df) ->
  (~ In density_col (columns df) ->
   Crossplots.porosity_estimation_plot df neutron_col density_col depth_col
     m f = Raise (KeyError density_col)) /\
  (In density_col (columns df) -> ~ In neutron_col (columns df) ->
   neutron_col <> "PHID" ->
   Crossplots.porosity_estimation_plot df neutron_col density_col depth_col
     m f = Raise (KeyError neutron_col)) /\
  (In density_col (columns df) ->
   In neutron_col (columns df) \/ neutron_col = "PHID" ->
   ~ In depth_col (columns df) -> depth_col <> "PHID" ->
   Crossplots.porosity_estimation_plot df neutron_col density_col depth_col
     m f = Raise (KeyError depth_col)) /\
  (In density_col (columns df) ->
   In neutron_col (columns df) \/ neutron_col = "PHID" ->
   exists valid_data,
     Crossplots.porosity_valid_data df neutron_col density_col m f
     = Ok valid_data /\
     columns valid_data = with_phid (columns df) /\
     In "PHID" (columns valid_data)) /\
  (forall panels,
      Crossplots.porosity_estimation_plot df neutron_col density_col
        depth_col m f = Ok panels ->
      List.length panels = 3).
Proof.
  intros _. split; [|split; [|split; [|split]]].
  - intros Hd. unfold Crossplots.porosity_estimation_plot,
      Crossplots.porosity_valid_data.
    now rewrite (phid_frame_missing _ _ _ _ Hd).
  - intros Hd Hn Hne.
    unfold Crossplots.porosity_estimation_plot,
      Crossplots.porosity_valid_data, Crossplots.porosity_mask.
    destruct (phid_frame_columns df density_col m f Hd) as (dc & -> & Hc).
    cbn [bind].
    assert (Hn' : ~ In neutron_col (columns dc)).
    { rewrite Hc. intros H. apply with_phid_in in H. tauto. }
    now rewrite (getitem_missing _ _ Hn').
  - apply porosity_plot_missing_depth.
  - intros Hd Hn.
    destruct (porosity_valid_data_columns df neutron_col density_col m f
                Hd Hn) as (vd & H & Hc).
    exists vd. split; [exact H|]. split; [exact Hc|].
    rewrite Hc. apply with_phid_in. now right.
  - apply porosity_plot_three.
Qed.

Lemma select_band_keeps (k : list float -> bool) (x : list bool)
    (rs : list (list float)) :
  Forall (fun r => k r = true) (Pandas.select rs (Pandas.band x (map k rs))).
Proof.
  revert x. induction rs as [|r rs IH]; intros x; [constructor|].
  destruct x as [|b x]; [constructor|].
  unfold Pandas.band. cbn [map combine Pandas.select].
  destruct b; cbn [andb]; [|apply IH].
  destruct (k r) eqn:E; [|apply IH]. constructor; [exact E|apply IH].
Qed.

(** X10.  Every sample the porosity comparison keeps has a density
    porosity that is a number between 0 and 1: no NaN and no value out of
    range reaches the panels, also when the table came with a PHID column
    of its own (it is overwritten).  The labels of the table are
    distinct. *)
Theorem porosity_kept_in_range (df : DataFrame)
    (neutron_col density_col : string) (m f : float) (valid_data : DataFrame) :
  rectangular df ->
  NoDup (columns df) ->
  Crossplots.porosity_valid_data df neutron_col density_col m f
  = Ok valid_data ->
  exists phid,
    Pandas.getitem valid_data "PHID" = Ok phid /\
    List.length phid = List.length (rows valid_data) /\
    Forall (fun p => F.is_nan p = false /\
                     F.leb F.zero p = true /\ F.leb p F.one = true) phid.
Proof.
  intros Hrect _ H. unfold Crossplots.porosity_valid_data in H.
  destruct (Pandas.getitem df density_col) as [den|e] eqn:Eden.
  2: { unfold Crossplots.phid_frame in H. rewrite Eden in H. discriminate. }
  destruct (phid_frame_spec df density_col m f den Hrect Eden)
    as (dc & Hpf & Hphid).
  rewrite Hpf in H. cbn [bind] in H. unfold Crossplots.porosity_mask in H.
  destruct (Pandas.getitem dc neutron_col) as [neu|]; [|discriminate].
  destruct (Pandas.getitem dc density_col) as [den'|]; [|discriminate].
  rewrite Hphid in H. cbn [bind] in H. injection H as <-.
  unfold Pandas.getitem in Hphid |- *. cbn [Pandas.mask_rows columns rows].
  destruct (Pandas.position "PHID" (columns dc)) as [p|]; [|discriminate].
  injection Hphid as Hphid. eexists. split; [reflexivity|].
  split; [apply length_map|].
  rewrite <- Hphid, band_map, map_map.
  apply Forall_map.
  eapply Forall_impl; [|apply select_band_keeps].
  intros r Hr. cbv beta in Hr. apply andb_prop in Hr.
  destruct Hr as [Hlo Hhi].
  change (F.leb F.zero (nth p r F.nan) = true) in Hlo.
  change (F.leb (nth p r F.nan) F.one = true) in Hhi.
  repeat split; try assumption.
  destruct (nth p r F.nan); try reflexivity. discriminate Hhi.
Qed.

Lemma porosity_kept_in_range_witness :
  exists valid_data phid,
    Crossplots.porosity_valid_data nan_frame "NEU" "DEN"
      Crossplots.default_matrix_density Crossplots.default_fluid_density
    = Ok valid_data /\
    Pandas.getitem valid_data "PHID" = Ok phid /\
    List.length phid = 1 /\
    Forall (fun p => F.is_nan p = false /\
                     F.leb F.zero p = true /\ F.leb p F.one = true) phid.
Proof.
  destruct (Crossplots.porosity_valid_data nan_frame "NEU" "DEN"
              Crossplots.default_matrix_density
              Crossplots.default_fluid_density) as [vd|e] eqn:E.
  - destruct (porosity_kept_in_range nan_frame "NEU" "DEN"
                Crossplots.default_matrix_density
                Crossplots.default_fluid_density vd)
      as (phid & Hg & Hl & Hf).
    + repeat constructor.
    + apply (NoDup_count_occ' string_dec). intros x Hx.
      cbn [In columns nan_frame] in Hx.
      destruct Hx as [<-|[<-|[<-|[]]]]; reflexivity.
    + exact E.
    + exists vd, phid. split; [reflexivity|]. split; [exact Hg|].
      split; [|exact Hf]. rewrite Hl.
      vm_compute in E. injection E as <-. reflexivity.
  - vm_compute in E. discriminate E.
Defined.

Lemma porosity_plot_outcome_witness :
  valid_rows null_frame 1 2 = [] /\
  Crossplots.porosity_estimation_plot null_frame "NEU" "RHOB" "DEPT"
    Crossplots.default_matrix_density Crossplots.default_fluid_density
  = Raise (KeyError "RHOB") /\
  Crossplots.porosity_estimation_plot null_frame "NEU" "DEN" "TVD"
    Crossplots.default_matrix_density Crossplots.default_fluid_density
  = Raise (KeyError "TVD").
Proof.
  assert (Hnd : NoDup (columns null_frame)).
  { apply (NoDup_count_occ' string_dec). intros x Hx.
    cbn [In columns null_frame] in Hx.
    destruct Hx as [<-|[<-|[<-|[]]]]; reflexivity. }
  pose proof (porosity_plot_outcome null_frame "NEU" "RHOB" "DEPT"
                Crossplots.default_matrix_density
                Crossplots.default_fluid_density Hnd) as (H & _).
  pose proof (porosity_plot_outcome null_frame "NEU" "DEN" "TVD"
                Crossplots.default_matrix_density
                Crossplots.default_fluid_density Hnd) as (_ & _ & H' & _).
  split; [reflexivity|]. split.
  - apply H. cbn [In columns null_frame].
    intros [E|[E|[E|[]]]]; discriminate E.
  - apply H'.
    + cbn [In columns null_frame]. tauto.
    + left. cbn [In columns null_frame]. tauto.
    + cbn [In columns null_frame]. intros [E|[E|[E|[]]]]; discriminate E.
    + discriminate.
Defined.

Lemma set_nth_last (v x : float) (row : list float) :
  Pandas.set_nth (List.length row) v (row ++ [x]) = row ++ [v].
Proof.
  induction row as [|y row IH]; [reflexivity|].
  cbn [List.length app Pandas.set_nth]. now rewrite IH.
Qed.

Lemma combine_maps {A B C : Type} (g : A -> B) (h : A -> C) (l : list A) :
  combine (map g l) (map h l) = map (fun x => (g x, h x)) l.
Proof.
  induction l as [|x l IH]; [reflexivity|]. cbn [map combine]. now rewrite IH.
Qed.

Lemma combine_map_r {A B : Type} (g : A -> B) (l : list A) :
  combine l (map g l) = map (fun x => (x, g x)) l.
Proof.
  induction l as [|x l IH]; [reflexivity|]. cbn [map combine]. now rewrite IH.
Qed.

Lemma select_maps {A : Type} (e : A -> list float) (k : A -> bool)
    (l : list A) :
  Pandas.select (map e l) (map k l) = map e (filter k l).
Proof.
  induction l as [|x l IH]; [reflexivity|].
  cbn [map Pandas.select filter]. destruct (k x); cbn [map]; now rewrite IH.
Qed.

Lemma band_maps {A : Type} (g h : A -> bool) (l : list A) :
  Pandas.band (map g l) (map h l) = map (fun x => g x && h x) l.
Proof.
  unfold Pandas.band. now rewrite combine_maps, map_map.
Qed.

(** [df_calc] for a table that has no PHID column: every row with its
    density porosity added. *)
Lemma phid_frame_rows (df : DataFrame) (density_col : string) (j : nat)
    (m f : float) :
  rectangular df -> names_column df density_col j ->
  ~ In "PHID" (columns df) ->
  Crossplots.phid_frame df density_col m f
  = Ok {| columns := columns df ++ ["PHID"];
          rows := map (fun r =>
                         r ++ [Crossplots.density_porosity (nth j r F.nan) m f])
                    (rows df) |}.
Proof.
  intros Hrect Hj Hp. unfold Crossplots.phid_frame.
  rewrite (getitem_column _ _ _ Hj). cbn [bind].
  pose proof (position_not_in _ _ Hp) as Hpos.
  rewrite getitem_setitem; [|exact Hrect|now rewrite !length_map].
  cbn [bind]. unfold Pandas.setitem at 2. rewrite Hpos.
  unfold Pandas.setitem. cbn [columns rows].
  rewrite (position_new _ _ Hpos). f_equal. f_equal.
  unfold Pandas.clip. rewrite !map_map, combine_map_r, map_map.
  rewrite combine_maps, map_map.
  apply map_ext_in. intros r Hr. cbn [fst snd].
  rewrite <- (proj1 (Forall_forall _ _) Hrect r Hr).
  apply set_nth_last.
Qed.

(** X11.  For a table with no PHID column, what the porosity comparison
    keeps is: the rows with the null value in neither the neutron nor the
    density column and whose density porosity is not NaN, in the order of
    the table, each with its density porosity (clamped to the interval
    from 0 to 1) added as a last cell, under the label PHID. *)
Theorem porosity_valid_data_rows (df : DataFrame)
    (neutron_col density_col : string) (i j : nat) (m f : float) :
  rectangular df ->
  names_column df neutron_col i ->
  names_column df density_col j ->
  ~ In "PHID" (columns df) ->
  Crossplots.porosity_valid_data df neutron_col density_col m f
  = Ok {| columns := columns df ++ ["PHID"];
          rows :=
            map (fun r =>
                   r ++ [Crossplots.density_porosity (nth j r F.nan) m f])
              (filter
                 (fun r =>
                    negb (is_null (nth i r F.nan))
                    && negb (is_null (nth j r F.nan))
                    && negb (F.is_nan
                               (Crossplots.density_porosity (nth j r F.nan) m f)))
                 (rows df)) |}.
Proof.
  intros Hrect Hi Hj Hp. unfold Crossplots.porosity_valid_data.
  rewrite (phid_frame_rows df density_col j m f Hrect Hj Hp). cbn [bind].
  pose proof (position_once _ _ _ (proj1 Hi) (proj2 Hi)) as Pi.
  pose proof (position_once _ _ _ (proj1 Hj) (proj2 Hj)) as Pj.
  pose proof (position_new _ _ (position_not_in _ _ Hp)) as Pp.
  unfold Crossplots.porosity_mask, Pandas.getitem. cbn [columns rows].
  rewrite (position_app _ _ ["PHID"] _ Pi), (position_app _ _ ["PHID"] _ Pj), Pp.
  cbn [bind]. unfold Pandas.mask_rows. cbn [columns rows].
  unfold Crossplots.not_null. rewrite !map_map, !band_maps, select_maps.
  f_equal. f_equal. f_equal. apply filter_ext_in. intros r Hr.
  pose proof (proj1 (Forall_forall _ _) Hrect r Hr) as Hlen.
  rewrite !app_nth1
    by (rewrite Hlen; eapply position_bound; eassumption).
  rewrite <- Hlen, nth_middle.
  rewrite <- !andb_assoc. f_equal. f_equal.
  unfold Crossplots.density_porosity. rewrite clip1_clamp01.
  apply clamp01_range.
Qed.

Lemma porosity_valid_data_rows_witness :
  Crossplots.porosity_valid_data nan_frame "NEU" "DEN"
    Crossplots.default_matrix_density Crossplots.default_fluid_density
  = Ok {| columns := ["DEPT"; "NEU"; "DEN"; "PHID"];
          rows := [[value "50"; value "0.25"; value "2.41";
                    Crossplots.density_porosity (value "2.41")
                      Crossplots.default_matrix_density
                      Crossplots.default_fluid_density]] |}.
Proof.
  rewrite (porosity_valid_data_rows nan_frame "NEU" "DEN" 1 2).
  - vm_compute. reflexivity.
  - repeat constructor.
  - split; reflexivity.
  - split; reflexivity.
  - cbn [In columns nan_frame]. intros [E|[E|[E|[]]]]; discriminate E.
Defined.

End PorosityFigure.

(** ** The multi-track panel *)

Section Tracks.

Lemma has_column_known (df : DataFrame) (log : string) :
  Visualization.has_column df log = known df log.
Proof.
  unfold Visualization.has_column, known.
  destruct (in_dec string_dec log (columns df)) as [H|H].
  - now apply existsb_in.
  - destruct (existsb _ _) eqn:E; [|reflexivity].
    apply existsb_in in E. contradiction.
Qed.

Lemma known_in (df : DataFrame) (log : string) :
  known df log = true -> In log (columns df).
Proof.
  unfold known. now destruct (in_dec string_dec log (columns df)).
Qed.

Lemma getitem_column_of (df : DataFrame) (c : string) :
  In c (columns df) -> Pandas.getitem df c = Ok (column df c).
Proof.
  intros H. unfold column.
  now destruct (getitem_present _ _ H) as [s ->].
Qed.

Lemma plot_logs_spec (df : DataFrame) (depth : list float)
    (logs : list string) (drawn : list Crossplots.artist) :
  Visualization.plot_logs df depth logs drawn
  = Ok (drawn
          ++ map (fun log => Crossplots.Line (column df log) depth "" log)
               (filter (known df) logs)).
Proof.
  revert drawn. induction logs as [|log logs IH]; intros drawn.
  - cbn [Visualization.plot_logs filter map]. now rewrite app_nil_r.
  - cbn [Visualization.plot_logs filter]. rewrite has_column_known.
    destruct (known df log) eqn:K.
    + rewrite (getitem_column_of _ _ (known_in _ _ K)). cbn [bind map].
      rewrite IH, <- app_assoc. reflexivity.
    + apply IH.
Qed.

Lemma track_label_spec (track_labels : option (list string)) (i : nat)
    (logs : list string) :
  Visualization.track_label track_labels i logs
  = Ok (label_or_names track_labels i logs).
Proof.
  unfold Visualization.track_label, label_or_names.
  destruct track_labels as [[|l0 labels]|]; cbn [Visualization.labels_truthy andb].
  - now destruct i.
  - destruct (Nat.ltb_spec i (List.length (l0 :: labels))) as [H|H].
    + unfold PyList.get.
      now rewrite (nth_error_nth' _ (Visualization.join ", " logs) H).
    + now rewrite nth_overflow.
  - reflexivity.
Qed.

Lemma plot_tracks_spec (df : DataFrame) (depth : list float)
    (track_labels : option (list string)) (todo : list (nat * list string))
    (done : list Visualization.track) (inversions : nat) :
  Visualization.plot_tracks df depth track_labels todo done inversions
  = Ok (done ++ map (loop_track df depth track_labels) todo,
        inversions + List.length todo).
Proof.
  revert done inversions.
  induction todo as [|[i logs] todo IH]; intros done inversions.
  - cbn [Visualization.plot_tracks map List.length].
    now rewrite app_nil_r, Nat.add_0_r.
  - cbn [Visualization.plot_tracks]. rewrite plot_logs_spec, track_label_spec.
    cbn [bind app]. rewrite IH, <- app_assoc.
    cbn [map List.length app]. now rewrite Nat.add_succ_r.
Qed.

(** What the function returns when it shows a panel. *)
Lemma tracks_shown (df : DataFrame) (depth_col : string)
    (log_tracks : list (list string)) (track_labels : option (list string))
    (ttl : string) (p : Visualization.panel) :
  Visualization.plot_well_log_tracks df depth_col log_tracks track_labels ttl
  = Visualization.Shown p ->
  In depth_col (columns df) /\
  Visualization.yaxis_inversions p = List.length log_tracks /\
  Visualization.suptitle p = ttl /\
  exists logs0 rest t0,
    log_tracks = logs0 :: rest /\
    Visualization.tracks p
    = t0 :: map (loop_track df (column df depth_col) track_labels)
              (PyList.enumerate_from 1 rest) /\
    Visualization.curves t0
    = Visualization.curves
        (loop_track df (column df depth_col) track_labels (0, logs0)) /\
    Visualization.track_xlabel t0 = label_or_names track_labels 0 logs0 /\
    Visualization.track_ylabel t0 = "Depth (m)" /\
    Visualization.track_legend t0 = Nat.ltb 1 (List.length logs0).
Proof.
  unfold Visualization.plot_well_log_tracks.
  destruct log_tracks as [|logs0 rest]; [discriminate|].
  cbn [List.length Nat.eqb].
  destruct (in_dec string_dec depth_col (columns df)) as [H|H].
  - rewrite (getitem_column_of _ _ H). cbn [bind].
    rewrite plot_tracks_spec. cbn [bind fst snd app].
    unfold PyList.enumerate. cbn [PyList.enumerate_from map].
    cbn [Visualization.set_ylabel0 bind]. intros [= <-].
    cbn [Visualization.tracks Visualization.yaxis_inversions
         Visualization.suptitle].
    split; [exact H|]. split.
    + cbn [List.length]. clear. generalize 1.
      induction rest as [|x rest IH]; intros n; [reflexivity|].
      cbn [PyList.enumerate_from List.length]. now rewrite (IH (S n)).
    + split; [reflexivity|]. now eexists _, _, _.
  - rewrite (getitem_missing _ _ H). discriminate.
Qed.

Lemma Forall2_enumerate_from {A B : Type} (R : A -> B -> Prop)
    (g : nat * A -> B) (n : nat) (l : list A) :
  (forall i x, R x (g (i, x))) ->
  Forall2 R l (map g (PyList.enumerate_from n l)).
Proof.
  intros H. revert n.
  induction l as [|x l IH]; intros n; cbn [PyList.enumerate_from map];
    constructor; auto.
Qed.

Lemma nth_error_enumerate_from {A : Type} (n i : nat) (l : list A) :
  nth_error (PyList.enumerate_from n l) i
  = option_map (fun x => (n + i, x)) (nth_error l i).
Proof.
  revert n i. induction l as [|x l IH]; intros n [|i];
    cbn [PyList.enumerate_from nth_error option_map];
    try reflexivity.
  - now rewrite Nat.add_0_r.
  - rewrite IH. now rewrite Nat.add_succ_r.
Qed.

(** X12.  The outcomes of [plot_well_log_tracks]: with no track at all
    the grid of axes cannot be made and [ValueError] is raised, before the
    depth column is looked up; with tracks and no column under the depth
    label it is [KeyError] for that label, before anything is drawn;
    whenever a panel is shown, there was a track and a depth column, and
    the panel has one track per entry of [log_tracks] and the title
    given. *)
Theorem tracks_outcome (df : DataFrame) (depth_col : string)
    (log_tracks : list (list string)) (track_labels : option (list string))
    (ttl : string) :
  (log_tracks = [] ->
   Visualization.plot_well_log_tracks df depth_col log_tracks track_labels ttl
   = Visualization.Failed (Visualization.ValueError_subplots 0)) /\
  (log_tracks <> [] -> ~ In depth_col (columns df) ->
   Visualization.plot_well_log_tracks df depth_col log_tracks track_labels ttl
   = Visualization.Failed (Visualization.Lookup (KeyError depth_col))) /\
  (forall p,
      Visualization.plot_well_log_tracks df depth_col log_tracks track_labels
        ttl = Visualization.Shown p ->
      log_tracks <> [] /\ In depth_col (columns df) /\
      List.length (Visualization.tracks p) = List.length log_tracks /\
      Visualization.suptitle p = ttl).
Proof.
  split; [|split].
  - now intros ->.
  - intros Hne H. unfold Visualization.plot_well_log_tracks.
    destruct log_tracks; [contradiction|]. cbn [List.length Nat.eqb].
    now rewrite (getitem_missing _ _ H).
  - intros p E.
    destruct (tracks_shown _ _ _ _ _ _ E)
      as (Hd & _ & Ht & logs0 & rest & t0 & -> & -> & _).
    split; [discriminate|]. split; [exact Hd|]. split; [|exact Ht].
    cbn [List.length]. rewrite length_map. f_equal.
    clear. generalize 1.
    induction rest as [|x rest IH]; intros n; [reflexivity|].
    cbn [PyList.enumerate_from List.length]. now rewrite (IH (S n)).
Qed.

Lemma tracks_outcome_witness :
  Visualization.plot_well_log_tracks logs_frame "TVD" [] None "Panel"
  = Visualization.Failed (Visualization.ValueError_subplots 0) /\
  Visualization.plot_well_log_tracks logs_frame "TVD" [["GR"]] None "Panel"
  = Visualization.Failed (Visualization.Lookup (KeyError "TVD")) /\
  match
    Visualization.plot_well_log_tracks logs_frame "DEPT" [["GR"]; ["NEU"]]
      None "Panel"
  with
  | Visualization.Shown p => List.length (Visualization.tracks p) = 2
  | Visualization.Failed _ => False
  end.
Proof.
  pose proof (tracks_outcome logs_frame "TVD" [] None "Panel") as (H & _).
  pose proof (tracks_outcome logs_frame "TVD" [["GR"]] None "Panel")
    as (_ & H' & _).
  pose proof (tracks_outcome logs_frame "DEPT" [["GR"]; ["NEU"]] None "Panel")
    as (_ & _ & H'').
  split; [now apply H|]. split.
  - apply H'; [discriminate|]. cbn [In columns logs_frame].
    intros [E|[E|[E|[E|[]]]]]; discriminate E.
  - destruct (Visualization.plot_well_log_tracks logs_frame "DEPT"
                [["GR"]; ["NEU"]] None "Panel") as [p|e] eqn:E.
    + exact (proj1 (proj2 (proj2 (H'' p eq_refl)))).
    + vm_compute in E. discriminate E.
Defined.

(** X13.  On each track the curves drawn are those of the logs of the
    track that the table has a column for, in the order of the track, each
    against the depth column and under its own name; a log the table has
    no column for is passed over in silence (a track of unknown logs stays
    empty).  The legend of a track is asked for exactly when the track
    lists more than one log, whatever number of them is drawn.  The labels
    of the table are distinct. *)
Theorem tracks_show_known_logs (df : DataFrame) (depth_col : string)
    (log_tracks : list (list string)) (track_labels : option (list string))
    (ttl : string) (p : Visualization.panel) :
  NoDup (columns df) ->
  Visualization.plot_well_log_tracks df depth_col log_tracks track_labels ttl
  = Visualization.Shown p ->
  Forall2
    (fun logs t =>
       Visualization.curves t
       = map (curve_of df depth_col) (filter (known df) logs) /\
       Visualization.track_legend t = Nat.ltb 1 (List.length logs))
    log_tracks (Visualization.tracks p).
Proof.
  intros _ H.
  destruct (tracks_shown _ _ _ _ _ _ H)
    as (_ & _ & _ & logs0 & rest & t0 & -> & -> & Hc & _ & _ & Hl).
  constructor.
  - split; [exact Hc|exact Hl].
  - apply Forall2_enumerate_from. intros i logs. now split.
Qed.

Lemma tracks_show_known_logs_witness :
  exists p,
    Visualization.plot_well_log_tracks logs_frame "DEPT"
      [["CALI"; "GR"]; ["AC"]] None "Panel" = Visualization.Shown p /\
    Forall2
      (fun logs t =>
         Visualization.curves t
         = map (curve_of logs_frame "DEPT") (filter (known logs_frame) logs) /\
         Visualization.track_legend t = Nat.ltb 1 (List.length logs))
      [["CALI"; "GR"]; ["AC"]] (Visualization.tracks p) /\
    map (fun t => List.length (Visualization.curves t)) (Visualization.tracks p)
    = [1; 0].
Proof.
  eexists. split; [vm_compute; reflexivity|]. split.
  - apply (tracks_show_known_logs logs_frame "DEPT" [["CALI"; "GR"]; ["AC"]]
             None "Panel").
    + apply (NoDup_count_occ' string_dec). intros x Hx.
      cbn [In columns logs_frame] in Hx.
      destruct Hx as [<-|[<-|[<-|[<-|[]]]]]; reflexivity.
    + vm_compute. reflexivity.
  - reflexivity.
Defined.

(** X14.  The label under a track is the label given for its position
    when [track_labels] has one, and the names of its logs joined by a
    comma and a space otherwise: a list of labels shorter than the list of
    tracks (or empty, or absent) raises nothing, the tracks beyond it are
    labelled with their logs. *)
Theorem track_xlabel_rule (df : DataFrame) (depth_col : string)
    (log_tracks : list (list string)) (track_labels : option (list string))
    (ttl : string) (p : Visualization.panel) :
  Visualization.plot_well_log_tracks df depth_col log_tracks track_labels ttl
  = Visualization.Shown p ->
  forall i logs,
    nth_error log_tracks i = Some logs ->
    exists t,
      nth_error (Visualization.tracks p) i = Some t /\
      Visualization.track_xlabel t = label_or_names track_labels i logs /\
      Visualization.track_ylabel t = if Nat.eqb i 0 then "Depth (m)" else "".
Proof.
  intros H i logs Hi.
  destruct (tracks_shown _ _ _ _ _ _ H)
    as (_ & _ & _ & logs0 & rest & t0 & -> & -> & _ & Hx & Hy & _).
  destruct i as [|i]; cbn [nth_error] in *.
  - injection Hi as <-. exists t0. now repeat split.
  - rewrite nth_error_map, nth_error_enumerate_from, Hi.
    cbn [option_map]. eexists. split; [reflexivity|]. now split.
Qed.

Lemma track_xlabel_rule_witness :
  exists p,
    Visualization.plot_well_log_tracks logs_frame "DEPT"
      [["GR"]; ["NEU"; "DEN"]] (Some ["Gamma Ray"]) "Panel"
    = Visualization.Shown p /\
    exists t,
      nth_error (Visualization.tracks p) 1 = Some t /\
      Visualization.track_xlabel t = "NEU, DEN" /\
      Visualization.track_ylabel t = "".
Proof.
  eexists. split; [vm_compute; reflexivity|].
  exact (track_xlabel_rule logs_frame "DEPT" [["GR"]; ["NEU"; "DEN"]]
           (Some ["Gamma Ray"]) "Panel" _ eq_refl 1 ["NEU"; "DEN"] eq_refl).
Defined.

(** X15.  [invert_yaxis] is called once per track, on the depth axis that
    all the tracks share, and each call turns the shared axis over: when
    the function returns, the depth axis is inverted (depth increasing
    downwards) for an odd number of tracks and upright again for an even
    number, such as the six tracks of the example in the docstring. *)
Theorem depth_axis_inverted_for_odd_tracks (df : DataFrame)
    (depth_col : string) (log_tracks : list (list string))
    (track_labels : option (list string)) (ttl : string)
    (p : Visualization.panel) :
  Visualization.plot_well_log_tracks df depth_col log_tracks track_labels ttl
  = Visualization.Shown p ->
  Visualization.yaxis_inversions p = List.length log_tracks /\
  depth_axis_inverted p = Nat.odd (List.length log_tracks).
Proof.
  intros H. destruct (tracks_shown _ _ _ _ _ _ H) as (_ & Hn & _).
  unfold depth_axis_inverted. now rewrite Hn.
Qed.

Lemma depth_axis_inverted_for_odd_tracks_witness :
  exists p,
    Visualization.plot_well_log_tracks logs_frame "DEPT"
      [["CALI"; "BS"]; ["GR"]; ["DEN"]; ["NEU"]; ["AC"; "ACS"];
       ["RMIC"; "RMED"; "RDEP"]]
      None "Well Log Panel" = Visualization.Shown p /\
    depth_axis_inverted p = false.
Proof.
  eexists. split; [vm_compute; reflexivity|].
  apply (proj2 (depth_axis_inverted_for_odd_tracks logs_frame "DEPT"
                  [["CALI"; "BS"]; ["GR"]; ["DEN"]; ["NEU"]; ["AC"; "ACS"];
                   ["RMIC"; "RMED"; "RDEP"]]
                  None "Well Log Panel" _ eq_refl)).
Defined.

End Tracks.

(** ** Normalisation *)

Section Normalisation.

Lemma sub_self (v : float) : F.sub v v = F.zero \/ F.sub v v = F.nan.
Proof.
  destruct v as [s|s| |s m e].
  - left. now destruct s.
  - right. now destruct s.
  - now right.
  - left.
    change (F.sub (S754_finite s m e) (S754_finite s m e))
      with (binary_normalize F.prec F.emax
              (cond_Zopp s (Zpos (fst (shl_align m e (Z.min e e))))
               - cond_Zopp s (Zpos (fst (shl_align m e (Z.min e e)))))%Z
              (Z.min e e) false).
    now rewrite Z.sub_diag.
Qed.

Lemma div_sub_self (v : float) : F.div (F.sub v v) (F.sub v v) = F.nan.
Proof. now destruct (sub_self v) as [-> | ->]. Qed.

Lemma sub_nan_r (x : float) : F.sub x F.nan = F.nan.
Proof. now destruct x. Qed.

Lemma div_nan_l (y : float) : F.div F.nan y = F.nan.
Proof. reflexivity. Qed.

Lemma div_nan_r (x : float) : F.div x F.nan = F.nan.
Proof. now destruct x. Qed.

(** The minimum and the maximum of a column whose cells all hold [v] are
    [v], or NaN (when there is no cell, or [v] is NaN). *)
Lemma reduce_constant (step : float -> float -> float) (v : float)
    (s : list float) (acc : float) :
  (forall a x, (a = F.nan \/ a = v) -> x = v ->
               step a x = F.nan \/ step a x = v) ->
  Forall (fun x => x = v) s -> acc = F.nan \/ acc = v ->
  fold_left step s acc = F.nan \/ fold_left step s acc = v.
Proof.
  intros Hstep Hs. revert acc.
  induction Hs as [|x s Hx _ IH]; intros acc Hacc; [exact Hacc|].
  cbn [fold_left]. apply IH. now apply Hstep.
Qed.

Lemma nanmin_constant (v : float) (s : list float) :
  Forall (fun x => x = v) s ->
  DataProcessing.nanmin s = F.nan \/ DataProcessing.nanmin s = v.
Proof.
  intros Hs. unfold DataProcessing.nanmin.
  apply reduce_constant; [|exact Hs|now left].
  intros a x Ha ->. destruct (F.is_nan v); [exact Ha|].
  destruct (F.is_nan a); [now right|].
  destruct (F.ltb v a); [now right|exact Ha].
Qed.

Lemma nanmax_constant (v : float) (s : list float) :
  Forall (fun x => x = v) s ->
  DataProcessing.nanmax s = F.nan \/ DataProcessing.nanmax s = v.
Proof.
  intros Hs. unfold DataProcessing.nanmax.
  apply reduce_constant; [|exact Hs|now left].
  intros a x Ha ->. destruct (F.is_nan v); [exact Ha|].
  destruct (F.is_nan a); [now right|].
  destruct (F.ltb a v); [now right|exact Ha].
Qed.

Lemma nth_reduce (f : list float -> float) (data : DataFrame) (j : nat) :
  j < List.length (columns data) ->
  nth j (DataProcessing.reduce f data) F.nan
  = f (map (fun r => nth j r F.nan) (rows data)).
Proof.
  intros H. unfold DataProcessing.reduce.
  set (g := fun j => f (map (fun r => nth j r F.nan) (rows data))).
  rewrite (nth_indep _ F.nan (g 0)) by now rewrite length_map, length_seq.
  rewrite map_nth, seq_nth by exact H. reflexivity.
Qed.

(** X16.  Normalising a table (of distinct labels) in which a column holds
    the same value in every row turns every cell of that column into NaN: the minimum and
    the maximum of the column coincide and the division is 0 / 0 (or the
    cells were NaN, or infinite, to begin with). *)
Theorem normalize_constant_column (data : DataFrame) (j : nat) (v : float) :
  rectangular data ->
  NoDup (columns data) ->
  j < List.length (columns data) ->
  Forall (fun r => nth j r F.nan = v) (rows data) ->
  columns (DataProcessing.normalize_data data) = columns data /\
  List.length (rows (DataProcessing.normalize_data data))
  = List.length (rows data) /\
  Forall (fun r => nth_error r j = Some F.nan)
    (rows (DataProcessing.normalize_data data)) /\
  DataProcessing.normalize_well_log_data (Some data)
  = Some (DataProcessing.normalize_data data).
Proof.
  intros Hrect _ Hj Hv. unfold DataProcessing.normalize_data.
  cbn [columns rows]. split; [reflexivity|].
  split; [apply length_map|]. split; [|reflexivity].
  apply Forall_map, Forall_forall. intros r Hr.
  pose proof (proj1 (Forall_forall _ _) Hrect r Hr) as Hlen.
  pose proof (proj1 (Forall_forall _ _) Hv r Hr) as Hcell.
  assert (Hr_j : nth_error r j = Some v).
  { rewrite <- Hcell. apply nth_error_nth'. now rewrite Hlen. }
  unfold PyList.enumerate.
  rewrite nth_error_map, nth_error_enumerate_from, Hr_j.
  cbn [option_map Nat.add]. f_equal.
  rewrite !nth_reduce by exact Hj.
  assert (Hcol : Forall (fun x => x = v)
                   (map (fun r => nth j r F.nan) (rows data)))
    by now apply Forall_map.
  destruct (nanmin_constant v _ Hcol) as [-> | ->].
  - now rewrite sub_nan_r.
  - destruct (nanmax_constant v _ Hcol) as [-> | ->].
    + apply div_nan_r.
    + apply div_sub_self.
Qed.

Lemma normalize_constant_column_witness :
  Forall (fun r => nth_error r 1 = Some F.nan)
    (rows (DataProcessing.normalize_data bit_size_frame)).
Proof.
  apply (normalize_constant_column bit_size_frame 1 (value "8.5")).
  - repeat constructor.
  - apply (NoDup_count_occ' string_dec). intros x Hx.
    cbn [In columns bit_size_frame] in Hx.
    destruct Hx as [<-|[<-|[]]]; reflexivity.
  - cbn [columns bit_size_frame List.length]. lia.
  - repeat constructor.
Defined.

End Normalisation.

(** ** The driver of crossplots.py *)

Section Driver.





End Driver.

(** ** What is not filtered *)

Section NotFiltered.

Lemma is_null_nan (x : float) : F.is_nan x = true -> is_null x = false.
Proof. now destruct x. Qed.

Lemma position_nth_error (c : string) (cols : list string) (j : nat) :
  Pandas.position c cols = Some j -> nth_error cols j = Some c.
Proof.
  revert j. induction cols as [|c' cols IH]; intros j; [discriminate|].
  cbn [Pandas.position]. destruct (String.eqb_spec c' c) as [->|_].
  - now intros [= <-].
  - destruct (Pandas.position c cols) as [k|]; [|discriminate].
    intros [= <-]. now apply IH.
Qed.

(** Once a sample is valid the renderer does not give the no-data
    result. *)
Lemma plot_valid_data_not_no_data (valid_data : DataFrame)
    (neutron_col density_col depth_col : string)
    (tops : option (list (string * float))) (ttl : string) :
  Crossplots.plot_valid_data valid_data neutron_col density_col depth_col
    tops ttl <> Ok Crossplots.NoData.
Proof.
  unfold Crossplots.plot_valid_data.
  destruct tops as [tops|];
    repeat match goal with
           | |- context [bind ?r _] =>
               destruct r; cbn [bind]; try discriminate
           end.
Qed.

(** X18.  NaN is not the null value: a sample whose neutron value is NaN
    (as the parser returns for the token nan and for the cells a short row
    lacks) and whose density value is not -999.25 is a valid sample for
    the cross-plot.  A table that holds such a sample never gets the
    no-data result, with tops or without; and whenever a figure is
    returned for given tops, it has one label per valid sample, that
    sample included. *)
Theorem crossplot_keeps_nan (df : DataFrame)
    (neutron_col density_col depth_col : string) (i j z : nat)
    (tops : option (list (string * float))) (ttl : string)
    (row : list float) :
  names_column df neutron_col i ->
  names_column df density_col j ->
  names_column df depth_col z ->
  In row (rows df) ->
  F.is_nan (nth i row F.nan) = true ->
  is_null (nth j row F.nan) = false ->
  In row (valid_rows df i j) /\
  Crossplots.neutron_density_crossplot df neutron_col density_col depth_col
    tops ttl <> Ok Crossplots.NoData /\
  (forall ax labels,
      tops <> None ->
      Crossplots.neutron_density_crossplot df neutron_col density_col
        depth_col tops ttl = Ok (Crossplots.Plotted ax labels) ->
      exists ls,
        labels = Some ls /\
        List.length ls = List.length (valid_rows df i j)).
Proof.
  intros Hi Hj Hz Hin Hnan Hden.
  assert (Hv : In row (valid_rows df i j)).
  { apply filter_In. split; [exact Hin|].
    now rewrite (is_null_nan _ Hnan), Hden. }
  split; [exact Hv|].
  rewrite (crossplot_valid_rows df _ _ _ _ _ i j Hi Hj).
  destruct (valid_rows df i j) as [|r rs] eqn:E; [contradiction|].
  split; [apply plot_valid_data_not_no_data|].
  intros ax labels Htops. destruct tops as [tops|]; [|contradiction].
  unfold Crossplots.plot_valid_data.
  destruct (mapM _ _) as [fl|]; cbn [bind]; [|discriminate].
  destruct (mapM _ _) as [dl|]; cbn [bind]; [|discriminate].
  destruct (Crossplots.assign_formations _ _ _ _ _ _ _ _)
    as [[cs ls]|] eqn:EA; cbn [bind]; [|discriminate].
  destruct (Pandas.getitem _ neutron_col); cbn [bind]; [|discriminate].
  destruct (Pandas.getitem _ density_col); cbn [bind]; [|discriminate].
  intros [= _ <-]. exists ls. split; [reflexivity|].
  apply assign_formations_length in EA. cbn [rows List.length] in EA.
  exact (proj2 EA).
Qed.

Lemma crossplot_keeps_nan_witness :
  Crossplots.neutron_density_crossplot
    {| columns := ["DEPT"; "NEU"; "DEN"];
       rows := [[value "50"; value "nan"; value "2.41"]] |}
    "NEU" "DEN" "DEPT" (Some tops_abc) "Cross-plot"
  <> Ok Crossplots.NoData.
Proof.
  apply (crossplot_keeps_nan
           {| columns := ["DEPT"; "NEU"; "DEN"];
              rows := [[value "50"; value "nan"; value "2.41"]] |}
           "NEU" "DEN" "DEPT" 1 2 0 (Some tops_abc) "Cross-plot"
           [value "50"; value "nan"; value "2.41"]).
  - split; reflexivity.
  - split; reflexivity.
  - split; reflexivity.
  - now left.
  - reflexivity.
  - reflexivity.
Defined.

(** X19.  The multi-track panel filters nothing: every curve it draws has
    one point per row of the table, the values of the column of its log
    against the values of the depth column, so a cell that holds the null
    value -999.25 is plotted as the number it is. *)
Theorem tracks_plot_every_row (df : DataFrame) (depth_col : string)
    (log_tracks : list (list string)) (track_labels : option (list string))
    (ttl : string) (p : Visualization.panel) :
  NoDup (columns df) ->
  Visualization.plot_well_log_tracks df depth_col log_tracks track_labels ttl
  = Visualization.Shown p ->
  exists z,
    nth_error (columns df) z = Some depth_col /\
    Forall
      (fun t =>
         Forall
           (fun a =>
              exists log k,
                nth_error (columns df) k = Some log /\
                a = Crossplots.Line
                      (map (fun r => nth k r F.nan) (rows df))
                      (map (fun r => nth z r F.nan) (rows df)) "" log)
           (Visualization.curves t))
      (Visualization.tracks p).
Proof.
  intros _ H.
  destruct (tracks_shown _ _ _ _ _ _ H)
    as (Hd & _ & _ & logs0 & rest & t0 & -> & -> & Hc & _).
  destruct (position_in _ _ Hd) as [z Hz].
  exists z. split; [now apply position_nth_error|].
  assert (Hdepth : column df depth_col = map (fun r => nth z r F.nan) (rows df))
    by (unfold column, Pandas.getitem; now rewrite Hz).
  assert (Hcurves :
    forall logs,
      Forall
        (fun a =>
           exists log k,
             nth_error (columns df) k = Some log /\
             a = Crossplots.Line
                   (map (fun r => nth k r F.nan) (rows df))
                   (map (fun r => nth z r F.nan) (rows df)) "" log)
        (map (fun log =>
                Crossplots.Line (column df log) (column df depth_col) "" log)
           (filter (known df) logs))).
  { intros logs. apply Forall_map, Forall_forall. intros log Hlog.
    apply filter_In in Hlog. destruct Hlog as [_ Hk].
    destruct (position_in _ _ (known_in _ _ Hk)) as [k Hpos].
    exists log, k. split; [now apply position_nth_error|].
    rewrite Hdepth. unfold column, Pandas.getitem. now rewrite Hpos. }
  constructor.
  - rewrite Hc. apply Hcurves.
  - apply Forall_map, Forall_forall. intros [n logs] _. apply Hcurves.
Qed.

Lemma tracks_plot_every_row_witness :
  exists p,
    Visualization.plot_well_log_tracks logs_frame "DEPT" [["NEU"]] None "Panel"
    = Visualization.Shown p /\
    exists z,
      nth_error (columns logs_frame) z = Some "DEPT" /\
      Forall
        (fun t =>
           Forall
             (fun a =>
                exists log k,
                  nth_error (columns logs_frame) k = Some log /\
                  a = Crossplots.Line
                        (map (fun r => nth k r F.nan) (rows logs_frame))
                        (map (fun r => nth z r F.nan) (rows logs_frame))
                        "" log)
             (Visualization.curves t))
        (Visualization.tracks p).
Proof.
  eexists. split; [vm_compute; reflexivity|].
  apply (tracks_plot_every_row logs_frame "DEPT" [["NEU"]] None "Panel").
  - apply (NoDup_count_occ' string_dec). intros x Hx.
    cbn [In columns logs_frame] in Hx.
    destruct Hx as [<-|[<-|[<-|[<-|[]]]]]; reflexivity.
  - vm_compute. reflexivity.
Defined.

End NotFiltered.
